(** * The plan / execute / reflect / refine workflow

    A shallow embedding of [workflow/main_workflow.py], [agents/tool_agent.py]
    and the task validation of [agents/planner_agent.py], together with the
    properties of the iteration controller, the refinement engine, the tool
    execution adapter and the response synthesizer.

    Conventions of the embedding.
    - Python values that travel through the workflow are JSON-like; they are
      the inhabitants of [value].  Python text is a [string]; one [ascii]
      stands for one character.
    - A Python [dict] with text keys is an association list in insertion
      order ([pydict]); only text keys are ever read by the workflow.
    - Exceptions are explicit: fallible code returns [res].
    - The language model, the search service and Python's [eval] are the
      fields of an environment [Env]; nothing is assumed about them.
    - The graph runtime is embedded by what it does with the graph of
      [create_workflow]: it runs one node at a time, hands each node the
      state that the nodes before it returned, and asks the routing function
      for the next node.  The routing function returns a route name, not a
      state: what it assigns to the dictionary it is given does not reach
      the state of the run.  The runtime stops a run that needs more node
      runs than its recursion limit allows with an error of its own; the
      limit is a parameter of the embedding. *)

From Stdlib Require Import ZArith List Bool String Ascii Lia.
From Stdlib Require Import Floats.SpecFloat.
From Stdlib Require DecimalString.
Import ListNotations.

#[local] Set Warnings "-register-all".

Open Scope string_scope.
Open Scope Z_scope.

(** ** Python values *)

Inductive value : Type :=
| VNone
| VBool (b : bool)
| VInt (n : Z)
| VFloat (f : spec_float)
| VStr (s : string)
| VList (items : list value)
| VDict (fields : list (string * value)).

Definition pydict : Type := list (string * value).

(** [bool(v)] *)
Definition truthy (v : value) : bool :=
  match v with
  | VNone => false
  | VBool b => b
  | VInt n => negb (n =? 0)
  | VFloat (S754_zero _) => false
  | VFloat _ => true
  | VStr s => negb (String.eqb s "")
  | VList l => match l with [] => false | _ => true end
  | VDict d => match d with [] => false | _ => true end
  end.

(** [isinstance(v, int)]: [bool] is a subclass of [int]. *)
Definition is_int (v : value) : bool :=
  match v with
  | VBool _ | VInt _ => true
  | _ => false
  end.

Definition is_str (v : value) : bool :=
  match v with VStr _ => true | _ => false end.

Definition is_none (v : value) : bool :=
  match v with VNone => true | _ => false end.

(** The integer an [int] instance denotes ([True] is 1, [False] is 0). *)
Definition int_of (v : value) : Z :=
  match v with
  | VBool true => 1
  | VBool false => 0
  | VInt n => n
  | _ => 0
  end.

(** The finite floats, as [m * 2^e]. *)
Definition float_finite (f : spec_float) : option (Z * Z) :=
  match f with
  | S754_zero _ => Some (0, 0)
  | S754_finite s m e => Some (if s then Z.neg m else Z.pos m, e)
  | S754_infinity _ | S754_nan => None
  end.

(** [m1 * 2^e1 == m2 * 2^e2], exactly. *)
Definition scaled_eqb (m1 e1 m2 e2 : Z) : bool :=
  let e := Z.min e1 e2 in
  (m1 * 2 ^ (e1 - e) =? m2 * 2 ^ (e2 - e)).

Definition float_eqb (f g : spec_float) : bool :=
  match float_finite f, float_finite g with
  | Some (m1, e1), Some (m2, e2) => scaled_eqb m1 e1 m2 e2
  | None, None =>
      match f, g with
      | S754_infinity s, S754_infinity t => Bool.eqb s t
      | _, _ => false
      end
  | _, _ => false
  end.

Definition float_eq_int (f : spec_float) (n : Z) : bool :=
  match float_finite f with
  | Some (m, e) => scaled_eqb m e n 0
  | None => false
  end.

(** ** Dictionaries with text keys *)

Fixpoint dict_get (k : string) (d : pydict) : option value :=
  match d with
  | [] => None
  | (k', v) :: d' => if String.eqb k k' then Some v else dict_get k d'
  end.

(** [d.get(k)] *)
Definition get (k : string) (d : pydict) : value :=
  match dict_get k d with Some v => v | None => VNone end.

(** [d.get(k, dflt)] *)
Definition get_default (k : string) (dflt : value) (d : pydict) : value :=
  match dict_get k d with Some v => v | None => dflt end.

(** [k in d] *)
Definition has_key (k : string) (d : pydict) : bool :=
  match dict_get k d with Some _ => true | None => false end.

(** [d[k] = v]: an existing key keeps its position. *)
Fixpoint dict_set (k : string) (v : value) (d : pydict) : pydict :=
  match d with
  | [] => [(k, v)]
  | (k', v') :: d' =>
      if String.eqb k k' then (k, v) :: d' else (k', v') :: dict_set k v d'
  end.

(** [d.update(other)] for a mapping [other]. *)
Definition dict_update (d other : pydict) : pydict :=
  fold_left (fun acc kv => dict_set (fst kv) (snd kv) acc) other d.

(** ** Python equality *)

(** [a == b] on JSON-like values.  Numbers compare by value across [bool],
    [int] and [float]; lists compare element by element; dictionaries compare
    as mappings. *)
Fixpoint py_eq (a b : value) : bool :=
  match a with
  | VNone => is_none b
  | VBool _ | VInt _ =>
      match b with
      | VBool _ | VInt _ => int_of a =? int_of b
      | VFloat g => float_eq_int g (int_of a)
      | _ => false
      end
  | VFloat f =>
      match b with
      | VBool _ | VInt _ => float_eq_int f (int_of b)
      | VFloat g => float_eqb f g
      | _ => false
      end
  | VStr s => match b with VStr t => String.eqb s t | _ => false end
  | VList xs =>
      match b with
      | VList ys =>
          (fix all2 (xs ys : list value) {struct xs} : bool :=
             match xs, ys with
             | [], [] => true
             | x :: xs', y :: ys' => py_eq x y && all2 xs' ys'
             | _, _ => false
             end) xs ys
      | _ => false
      end
  | VDict d =>
      match b with
      | VDict e =>
          (List.length d =? List.length e)%nat &&
          (fix sub (d : pydict) {struct d} : bool :=
             match d with
             | [] => true
             | (k, v) :: d' =>
                 match dict_get k e with
                 | Some w => py_eq v w
                 | None => false
                 end && sub d'
             end) d
      | _ => false
      end
  end.

(** ** Exceptions and fallible results *)

Inductive exn_class : Type :=
| PlanningError
| TaskValidationError
| JSONParsingError
| TaskExecutionError
| ReflectionError
| RetryError
| AttributeError
| TypeError
| ValueError
| ImportError
| RecursionError
| OtherException.

(** An exception is its class and [str(e)]. *)
Record exn : Type := mkExn { exn_kind : exn_class; exn_text : string }.

Inductive res (A : Type) : Type :=
| Ok (a : A)
| Raise (e : exn).

Arguments Ok {A} a.
Arguments Raise {A} e.

(** ** The data model of [WorkflowState] *)

Definition task : Type := pydict.

(** A result dictionary: every one the workflow builds has exactly the keys
    [task_id], [result] and [status]. *)
Record Result : Type := mkResult {
  task_id : value;
  result : value;
  status : string
}.

(** [refinement.get("details")] together with what [json.loads] makes of it.
    [DetailsFalsy]: the field is missing, [None], the empty text or another
    falsy value, so that [json.loads] is not reached.  [DetailsUndecodable]:
    [json.loads] raises.  [DetailsDecoded v]: [json.loads] returns [v]. *)
Inductive details : Type :=
| DetailsFalsy
| DetailsUndecodable
| DetailsDecoded (v : value).

(** One element of [reflection["refinements"]].  An element that is a
    dictionary is given by what [.get] reads from it; any other JSON value has
    no [.get]. *)
Inductive refinement : Type :=
| RefinementNotDict (v : value)
| Refinement (action : value) (task_id_to_act_on : value) (details_str : details).

(** The verdict that [ReflectorAgent.evaluate_results] returns: it has checked
    that the four fields are present and that [refinements] is a list. *)
Record verdict : Type := mkVerdict {
  success : value;
  complete : value;
  feedback : value;
  refinements : list refinement
}.

(** [reflection] is [None] for the empty dictionary. *)
Record WorkflowState : Type := mkState {
  query : string;
  tasks : list task;
  results : list Result;
  reflection : option verdict;
  final_response : string;
  iteration : Z;
  max_iterations : Z;
  error_message : string
}.

Definition set_tasks (x : list task) (s : WorkflowState) : WorkflowState :=
  mkState (query s) x (results s) (reflection s) (final_response s)
          (iteration s) (max_iterations s) (error_message s).

Definition set_results (x : list Result) (s : WorkflowState) : WorkflowState :=
  mkState (query s) (tasks s) x (reflection s) (final_response s)
          (iteration s) (max_iterations s) (error_message s).

Definition set_reflection (x : option verdict) (s : WorkflowState) : WorkflowState :=
  mkState (query s) (tasks s) (results s) x (final_response s)
          (iteration s) (max_iterations s) (error_message s).

Definition set_final_response (x : string) (s : WorkflowState) : WorkflowState :=
  mkState (query s) (tasks s) (results s) (reflection s) x
          (iteration s) (max_iterations s) (error_message s).

Definition set_iteration (x : Z) (s : WorkflowState) : WorkflowState :=
  mkState (query s) (tasks s) (results s) (reflection s) (final_response s)
          x (max_iterations s) (error_message s).

Definition set_error_message (x : string) (s : WorkflowState) : WorkflowState :=
  mkState (query s) (tasks s) (results s) (reflection s) (final_response s)
          (iteration s) (max_iterations s) x.

(** [bool(text)] *)
Definition nonempty (s : string) : bool := negb (String.eqb s "").

(** [state.get("reflection", {}).get(field)] *)
Definition reflection_get (field : verdict -> value) (s : WorkflowState) : value :=
  match reflection s with
  | Some v => field v
  | None => VNone
  end.

(** [state.get("reflection", {}).get("refinements", [])] *)
Definition reflection_refinements (s : WorkflowState) : list refinement :=
  match reflection s with
  | Some v => refinements v
  | None => []
  end.

(** ** The iteration controller's decision *)

Inductive decision : Type := refine_tasks | end_workflow.

(** [all(r.get("status") == "completed" for r in results)] *)
Definition all_tasks_successful (rs : list Result) : bool :=
  forallb (fun r => String.eqb (status r) "completed") rs.

Definition should_continue_decision (s0 : WorkflowState) : WorkflowState * decision :=
  let s := set_iteration (iteration s0 + 1) s0 in
  if nonempty (error_message s) then (s, end_workflow)
  else if max_iterations s <=? iteration s then (s, end_workflow)
  else if truthy (reflection_get complete s) && truthy (reflection_get success s)
  then (s, end_workflow)
  else if all_tasks_successful (results s) && negb (truthy (reflection_get complete s))
  then (s, end_workflow)
  else if match reflection_refinements s with [] => false | _ => true end
          && (iteration s <? max_iterations s)
  then (s, refine_tasks)
  else (s, end_workflow).

(** ** The refinement engine *)

(** [max([t.get("id", 0) for t in current_tasks if isinstance(t.get("id"), int)],
        default=0)], as the integer it denotes. *)
Definition int_ids (ts : list task) : list Z :=
  map (fun t => int_of (get_default "id" (VInt 0) t))
      (filter (fun t => is_int (get "id" t)) ts).

Definition max_default0 (l : list Z) : Z :=
  match l with
  | [] => 0
  | x :: l' => fold_left Z.max l' x
  end.

Definition initial_id_counter (ts : list task) : Z :=
  max_default0 (int_ids ts) + 1.

(** One element of the sequence handed to [dict.update], read as a key and a
    value: a two-element list, a two-character text or a dictionary with two
    keys.  [None]: the element is refused and [update] raises. *)
Definition update_pair (item : value) : option (value * value) :=
  match item with
  | VList [k; v] => Some (k, v)
  | VStr (String a (String b EmptyString)) =>
      Some (VStr (String a EmptyString), VStr (String b EmptyString))
  | VDict [(k1, _); (k2, _)] => Some (VStr k1, VStr k2)
  | _ => None
  end.

(** [dict.update(seq)] for a sequence of pairs: pairs are stored one by one
    until one is refused or has an unhashable key; what was stored before
    stays.  A pair whose key is hashable but not a text changes no text key. *)
Fixpoint update_from_pairs (d : pydict) (items : list value) : pydict :=
  match items with
  | [] => d
  | item :: rest =>
      match update_pair item with
      | Some (VStr k, v) => update_from_pairs (dict_set k v d) rest
      | Some (VList _, _) | Some (VDict _, _) => d
      | Some (_, _) => update_from_pairs d rest
      | None => d
      end
  end.

(** The task after [task.update(details)], whether the call returns or
    raises. *)
Definition task_update (t : task) (details : value) : task :=
  match details with
  | VDict d => dict_update t d
  | VList items => update_from_pairs t items
  | _ => t
  end.

(** The [for task in current_tasks] loop of the modify branch: the first task
    whose id equals [task_id_to_act_on] is updated, then the loop breaks. *)
Fixpoint modify_first (tid details : value) (ts : list task) : list task :=
  match ts with
  | [] => []
  | t :: ts' =>
      if py_eq (get "id" t) tid then task_update t details :: ts'
      else t :: modify_first tid details ts'
  end.

(** [all(k in new_task_details for k in ["id", "description", "tool"])] *)
Definition has_required_fields (d : pydict) : bool :=
  forallb (fun k => has_key k d) ["id"; "description"; "tool"].

(** [if details_str] *)
Definition details_given (d : details) : bool :=
  match d with DetailsFalsy => false | _ => true end.

(** [json.loads(details_str)]; [None] when it raises. *)
Definition json_loads (d : details) : option value :=
  match d with DetailsDecoded v => Some v | _ => None end.

(** The body of the [for refinement in refinements] loop, on the pair of
    [current_tasks] and [new_task_id_counter].  Everything the [try] block
    raises is caught and logged; the three [.get] calls before it are not
    protected. *)
Definition apply_refinement (st : list task * Z) (r : refinement)
  : res (list task * Z) :=
  let (current_tasks, new_task_id_counter) := st in
  match r with
  | RefinementNotDict _ =>
      Raise (mkExn AttributeError "object has no attribute 'get'")
  | Refinement action task_id_to_act_on details_str =>
      if py_eq action (VStr "remove") && negb (is_none task_id_to_act_on) then
        Ok (filter (fun t => negb (py_eq (get "id" t) task_id_to_act_on)) current_tasks,
            new_task_id_counter)
      else if py_eq action (VStr "modify") && negb (is_none task_id_to_act_on)
              && details_given details_str then
        match json_loads details_str with
        | Some details =>
            Ok (modify_first task_id_to_act_on details current_tasks,
                new_task_id_counter)
        | None => Ok st
        end
      else if py_eq action (VStr "add") && details_given details_str then
        match json_loads details_str with
        | Some (VDict new_task_details) =>
            let (new_task_details, new_task_id_counter) :=
              if negb (has_key "id" new_task_details)
                 || is_none (get "id" new_task_details)
              then (dict_set "id" (VInt new_task_id_counter) new_task_details,
                    new_task_id_counter + 1)
              else (new_task_details, new_task_id_counter) in
            if negb (has_required_fields new_task_details)
            then Ok (current_tasks, new_task_id_counter)
            else Ok ((current_tasks ++ [new_task_details])%list, new_task_id_counter)
        | Some _ => Ok st
        | None => Ok st
        end
      else Ok st
  end.

Fixpoint apply_refinements (st : list task * Z) (rs : list refinement)
  : res (list task * Z) :=
  match rs with
  | [] => Ok st
  | r :: rs' =>
      match apply_refinement st r with
      | Ok st' => apply_refinements st' rs'
      | Raise e => Raise e
      end
  end.

(** [refine_step].  The copy [state.get("tasks", [])[:]] shares its task
    dictionaries with the state, and a modify updates them in place; the
    state is then given the new list, and when an instruction raises the run
    ends without reading the tasks again, so that the sharing is not
    observed. *)
Definition refine_step (state : WorkflowState) : res WorkflowState :=
  let refinements := reflection_refinements state in
  let current_tasks := tasks state in
  match refinements with
  | [] => Ok (set_tasks current_tasks state)
  | _ =>
      let new_task_id_counter := initial_id_counter current_tasks in
      match apply_refinements (current_tasks, new_task_id_counter) refinements with
      | Raise e => Raise e
      | Ok (current_tasks, _) =>
          Ok (set_error_message ""
                (set_reflection None
                   (set_results [] (set_tasks current_tasks state))))
      end
  end.

(** ** Text helpers *)

Definition newline : string := String (ascii_of_nat 10) EmptyString.

(** [str(n)] for a natural number. *)
Definition decimal (n : nat) : string :=
  DecimalString.NilZero.string_of_uint (Nat.to_uint n).

(** [sep.join(parts)] *)
Fixpoint join (sep : string) (parts : list string) : string :=
  match parts with
  | [] => ""
  | [p] => p
  | p :: rest => p ++ sep ++ join sep rest
  end.

(** The characters [str.strip()] removes, among the first 256: tab to
    carriage return, the four separators, space, next line and no-break
    space. *)
Definition is_space (c : ascii) : bool :=
  let n := nat_of_ascii c in
  ((9 <=? n) && (n <=? 13) || (28 <=? n) && (n <=? 32)
   || (n =? 133) || (n =? 160))%nat.

Fixpoint lstrip (s : string) : string :=
  match s with
  | EmptyString => EmptyString
  | String c s' => if is_space c then lstrip s' else s
  end.

(** Drops the trailing white space: a character is kept when something
    that is kept follows it, or when it is not white space. *)
Fixpoint rstrip (s : string) : string :=
  match s with
  | EmptyString => EmptyString
  | String c s' =>
      match rstrip s' with
      | EmptyString => if is_space c then EmptyString else String c EmptyString
      | kept => String c kept
      end
  end.

(** [s.strip()] *)
Definition strip (s : string) : string := rstrip (lstrip s).

(** [''.join(c for c in s if keep(c))] *)
Fixpoint filter_chars (keep : ascii -> bool) (s : string) : string :=
  match s with
  | EmptyString => EmptyString
  | String c s' =>
      if keep c then String c (filter_chars keep s') else filter_chars keep s'
  end.

(** [all(p(c) for c in s)] *)
Fixpoint all_chars (p : ascii -> bool) (s : string) : bool :=
  match s with
  | EmptyString => true
  | String c s' => p c && all_chars p s'
  end.

(** [c in set("0123456789+-*/.() ")] *)
Definition allowed_chars : string := "0123456789+-*/.() ".

Fixpoint char_in (c : ascii) (s : string) : bool :=
  match s with
  | EmptyString => false
  | String c' s' => Ascii.eqb c c' || char_in c s'
  end.

Definition allowed (c : ascii) : bool := char_in c allowed_chars.

(** [sorted(list(set(c for c in s if c not in allowed_chars)))] *)
Fixpoint insert_sorted (c : ascii) (l : list ascii) : list ascii :=
  match l with
  | [] => [c]
  | x :: l' =>
      if (nat_of_ascii c <? nat_of_ascii x)%nat then c :: l
      else if Ascii.eqb c x then l
      else x :: insert_sorted c l'
  end.

Fixpoint sorted_invalid_chars (s : string) : list ascii :=
  match s with
  | EmptyString => []
  | String c s' =>
      if allowed c then sorted_invalid_chars s'
      else insert_sorted c (sorted_invalid_chars s')
  end.

(** ** The environment: collaborators outside the repository *)

(** What [generate_plan] has in hand when it reaches the loop over the parsed
    items.  [ReplyRaises e]: it raised [e] before that (the model call failed,
    the content was empty or could not be decoded, or the decoded JSON is not
    a list).  [ReplyItems l]: [json.loads] returned the list [l]. *)
Inductive planner_reply : Type :=
| ReplyRaises (e : exn)
| ReplyItems (parsed_tasks_data : list value).

Record Env : Type := mkEnv {
  (** [str(v)] *)
  py_str : value -> string;
  (** [str(e)] for the [RetryError] that wraps a last failure [e] *)
  retry_error_text : exn -> string;
  (** the language model behind [PlannerAgent], up to [json.loads] *)
  llm_plan : string -> planner_reply;
  (** [ReflectorAgent.evaluate_results]; the first argument is the number of
      calls to collaborators made before this one *)
  evaluate_results : nat -> string -> list task -> list Result -> res verdict;
  (** what the tool wrapper hands to a tool body for a description that is
      not a text, or the exception it raises *)
  tool_input : value -> res string;
  (** the search service called by [search] *)
  search_service : nat -> string -> res value;
  (** [float(eval(expression, {"__builtins__": {}}, {}))] *)
  py_eval : string -> res value;
  (** [str(e)] for the error that the graph runtime raises when a run has
      not reached the finish point within its recursion limit *)
  recursion_error_text : string
}.

(** ** Effects: calls to collaborators and sleeps *)

Inductive event : Type :=
| Dispatched (tool : string) (description : value)
| Evaluated (expression : string)
| Slept (seconds : Z)
| Entered (node : string).

(** [clock] counts the calls to collaborators; [trace] lists the events, the
    latest first. *)
Record world : Type := mkWorld { clock : nat; trace : list event }.

Definition emit (e : event) (w : world) : world :=
  mkWorld (clock w) (e :: trace w).

Definition tick (w : world) : world :=
  mkWorld (S (clock w)) (trace w).

Section Workflow.

Variable E : Env.

(** ** The tools of [agents/tool_agent.py] *)

(** [TaskExecutionError(task_id=..., error=...)] of [exceptions.py] *)
Definition task_execution_error (task_id error : string) : exn :=
  mkExn TaskExecutionError ("Task " ++ task_id ++ " failed: " ++ error).

Definition search (query : string) (w : world) : res value * world :=
  match search_service E (clock w) query with
  | Ok results => (Ok results, tick w)
  | Raise e =>
      match exn_kind e with
      | ImportError =>
          (Raise (task_execution_error query
                    ("Search tool import error: " ++ exn_text e)), tick w)
      | _ =>
          (Raise (task_execution_error query ("Search failed: " ++ exn_text e)),
           tick w)
      end
  end.

(** [expression.replace(" ", "")] *)
Definition remove_spaces (s : string) : string :=
  filter_chars (fun c => negb (Ascii.eqb c " "%char)) s.

(** The one place where Python's [eval] is called: it leaves [Evaluated] in
    the trace with the text it is given. *)
Definition calculator (expression : string) (w : world) : res value * world :=
  if negb (all_chars allowed expression) then
    (Raise (mkExn ValueError
              ("Invalid characters found in expression: "
               ++ py_str E (VList (map (fun c => VStr (String c EmptyString))
                                       (sorted_invalid_chars expression))))), w)
  else
    let expression_cleaned := remove_spaces expression in
    if negb (nonempty expression_cleaned) then
      (Raise (mkExn ValueError "Expression is empty after cleaning"), w)
    else if (100 <? String.length expression_cleaned)%nat then
      (Raise (mkExn ValueError
                ("Expression too long ("
                 ++ decimal (String.length expression_cleaned)
                 ++ " chars) after cleaning")), w)
    else
      (py_eval E expression_cleaned, emit (Evaluated expression_cleaned) w).

Definition tool_body : Type := string -> world -> res value * world.

(** [self.tools] *)
Definition tools : list (string * tool_body) :=
  [("search", search); ("calculator", calculator)].

Fixpoint tools_get (name : string) (table : list (string * tool_body))
  : option tool_body :=
  match table with
  | [] => None
  | (k, f) :: table' => if String.eqb name k then Some f else tools_get name table'
  end.

(** [tool_name in self.tools]: hashing a list or a dictionary raises. *)
Definition tools_find (tool_name : value) : res (option (string * tool_body)) :=
  match tool_name with
  | VStr name =>
      match tools_get name tools with
      | Some f => Ok (Some (name, f))
      | None => Ok None
      end
  | VList _ => Raise (mkExn TypeError "unhashable type: 'list'")
  | VDict _ => Raise (mkExn TypeError "unhashable type: 'dict'")
  | _ => Ok None
  end.

(** [self.tools[tool_name](description)]: the call is recorded, the tool
    wrapper passes a text on as it is, and the body runs. *)
Definition dispatch (name : string) (f : tool_body) (description : value)
           (w : world) : res value * world :=
  let w := emit (Dispatched name description) w in
  match description with
  | VStr text => f text w
  | _ =>
      match tool_input E description with
      | Ok text => f text w
      | Raise e => (Raise e, w)
      end
  end.

(** ** The tool execution adapter *)

(** The body of [ToolAgent.execute_task], without its decorator. *)
Definition execute_task_body (task : task) (w : world) : res Result * world :=
  let task_id := get_default "id" (VStr "unknown_task") task in
  let tool_name := get "tool" task in
  let description := get "description" task in
  if negb (truthy tool_name) then
    (Raise (task_execution_error (py_str E task_id) "Task missing tool field"), w)
  else
    match tools_find tool_name with
    | Raise e => (Raise e, w)
    | Ok None =>
        (Raise (task_execution_error (py_str E task_id)
                  ("Unknown tool: " ++ py_str E tool_name)), w)
    | Ok (Some (name, f)) =>
        if is_none description then
          (Raise (task_execution_error (py_str E task_id)
                    "Task missing description field for tool input"), w)
        else
          match dispatch name f description w with
          | (Ok result, w') => (Ok (mkResult task_id result "completed"), w')
          | (Raise e, w') =>
              let error_msg :=
                match exn_kind e with
                | RetryError =>
                    "Task " ++ py_str E task_id ++ " (tool: " ++ py_str E tool_name
                    ++ ") failed after multiple retries: " ++ exn_text e
                | _ =>
                    "Error during execution of task " ++ py_str E task_id
                    ++ " (tool: " ++ py_str E tool_name ++ "): " ++ exn_text e
                end in
              (Ok (mkResult task_id (VStr error_msg) "failed"), w')
          end
    end.

(** [wait_exponential(multiplier=1, min=2, max=10)] after the attempt
    numbered [attempt_number]. *)
Definition wait_exponential (attempt_number : Z) : Z :=
  Z.max (Z.max 0 2) (Z.min (1 * 2 ^ (attempt_number - 1)) 10).

(** [stop_after_attempt(3)] *)
Definition stop_after_attempt : Z := 3.

(** The [@retry] decorator: the decorated function is called; when it raises,
    either the attempts are used up and [RetryError] is raised, or the
    decorator sleeps and calls again.  [budget] bounds the number of further
    calls. *)
Fixpoint retry {A : Type} (budget : nat) (attempt_number : Z)
         (f : world -> res A * world) (w : world) : res A * world :=
  match f w with
  | (Ok a, w') => (Ok a, w')
  | (Raise e, w') =>
      if stop_after_attempt <=? attempt_number then
        (Raise (mkExn RetryError (retry_error_text E e)), w')
      else
        match budget with
        | O => (Raise (mkExn RetryError (retry_error_text E e)), w')
        | S budget' =>
            retry budget' (attempt_number + 1) f
                  (emit (Slept (wait_exponential attempt_number)) w')
        end
  end.

(** [ToolAgent.execute_task] as callers see it. *)
Definition execute_task (task : task) (w : world) : res Result * world :=
  retry (Z.to_nat stop_after_attempt) 1 (execute_task_body task) w.

(** ** The nodes of the graph *)

(** The [for] loop of [execute_step] *)
Fixpoint execute_tasks (current_tasks : list task) (w : world)
  : list Result * world :=
  match current_tasks with
  | [] => ([], w)
  | task :: rest =>
      let (r, w') := execute_task task w in
      let result :=
        match r with
        | Ok result => result
        | Raise e =>
            match exn_kind e with
            | TaskExecutionError =>
                mkResult (get "id" task) (VStr (exn_text e)) "failed_critically"
            | _ =>
                mkResult (get "id" task)
                         (VStr ("Unexpected error: " ++ exn_text e))
                         "failed_unexpectedly"
            end
        end in
      let (results, w'') := execute_tasks rest w' in
      (result :: results, w'')
  end.

Definition execute_step (state : WorkflowState) (w : world)
  : WorkflowState * world :=
  match tasks state with
  | [] =>
      let state := set_results [] state in
      if negb (nonempty (error_message state))
      then (set_error_message "Planning failed to produce any tasks." state, w)
      else (state, w)
  | current_tasks =>
      let (results, w') := execute_tasks current_tasks w in
      (set_results results state, w')
  end.

(** ** The planner's validation and repair of tasks *)

Definition required_keys : list string := ["id"; "description"; "tool"].

Definition is_required (k : string) : bool :=
  existsb (String.eqb k) required_keys.

(** [PlannerAgent._fix_task_format] *)
Definition _fix_task_format (task_data : value) : res task :=
  match task_data with
  | VDict d =>
      let fixed_task :=
        fold_left (fun acc key =>
                     match dict_get key d with
                     | Some v => dict_set key v acc
                     | None => acc
                     end) required_keys [] in
      Ok (fold_left (fun acc kv =>
                       if is_required (fst kv) then acc
                       else dict_set (fst kv) (snd kv) acc) d fixed_task)
  | _ =>
      Raise (mkExn TaskValidationError
               ("Task item expected to be a dictionary: " ++ py_str E task_data))
  end.

Definition allowed_tools : list string := ["search"; "calculator"].

(** [PlannerAgent._validate_task] on a dictionary *)
Definition _validate_task (task : task) : bool :=
  if negb (forallb (fun field => has_key field task) required_keys) then false
  else if negb (is_int (get "id" task) || is_str (get "id" task)) then false
  else if negb (is_str (get "description" task)) then false
  else
    match get "tool" task with
    | VStr tool => existsb (String.eqb tool) allowed_tools
    | _ => false
    end.

(** [PlannerAgent._clean_calculator_expression] *)
Definition _clean_calculator_expression (expr : string) : string :=
  strip (filter_chars allowed expr).

(** The loop of [generate_plan] over the parsed items.  An item that is not
    a dictionary raises [TaskValidationError], which the loop catches.  In
    the calculator branch the description is a text: [_validate_task] has
    checked it. *)
Fixpoint valid_tasks_of (parsed_tasks_data : list value) : list task :=
  match parsed_tasks_data with
  | [] => []
  | task_item_raw :: rest =>
      match _fix_task_format task_item_raw with
      | Raise _ => valid_tasks_of rest
      | Ok fixed_task_item =>
          if _validate_task fixed_task_item then
            if py_eq (get "tool" fixed_task_item) (VStr "calculator") then
              match get "description" fixed_task_item with
              | VStr description =>
                  let cleaned_description :=
                    _clean_calculator_expression description in
                  if negb (nonempty cleaned_description) then valid_tasks_of rest
                  else dict_set "description" (VStr cleaned_description)
                                fixed_task_item
                       :: valid_tasks_of rest
              | _ => valid_tasks_of rest
              end
            else fixed_task_item :: valid_tasks_of rest
          else valid_tasks_of rest
      end
  end.

(** [PlannerAgent.generate_plan] *)
Definition generate_plan (query : string) : res (list task) :=
  match llm_plan E query with
  | ReplyRaises e => Raise e
  | ReplyItems parsed_tasks_data =>
      let valid_tasks := valid_tasks_of parsed_tasks_data in
      match valid_tasks, parsed_tasks_data with
      | [], _ :: _ =>
          Raise (mkExn PlanningError "No valid tasks derived from LLM response.")
      | _, _ => Ok valid_tasks
      end
  end.

Definition plan_step (state : WorkflowState) : WorkflowState :=
  match generate_plan (query state) with
  | Ok tasks => set_tasks tasks state
  | Raise e =>
      match exn_kind e with
      | PlanningError | JSONParsingError =>
          set_error_message ("Critical error during task planning: " ++ exn_text e)
                            (set_tasks [] state)
      | _ =>
          set_error_message
            ("Unexpected critical error during task planning: " ++ exn_text e)
            (set_tasks [] state)
      end
  end.

Definition is_empty {A : Type} (l : list A) : bool :=
  match l with [] => true | _ => false end.

Definition failing_verdict (feedback : string) : verdict :=
  mkVerdict (VBool false) (VBool false) (VStr feedback) [].

Definition reflect_step (state : WorkflowState) (w : world)
  : WorkflowState * world :=
  if is_empty (results state) && negb (nonempty (error_message state)) then
    if is_empty (tasks state)
    then (set_reflection (Some (failing_verdict "No tasks were planned.")) state, w)
    else (set_reflection
            (Some (failing_verdict "No tasks were executed or no results produced."))
            state, w)
  else if nonempty (error_message state) then
    (set_reflection (Some (failing_verdict (error_message state))) state, w)
  else
    match evaluate_results E (clock w) (query state) (tasks state) (results state) with
    | Ok reflection_output => (set_reflection (Some reflection_output) state, tick w)
    | Raise e =>
        let text :=
          match exn_kind e with
          | ReflectionError | JSONParsingError =>
              "Critical error during result reflection: " ++ exn_text e
          | _ => "Unexpected critical error during result reflection: " ++ exn_text e
          end in
        (set_error_message text (set_reflection (Some (failing_verdict text)) state),
         tick w)
    end.

(** ** The response synthesizer *)

(** [str(res_data)[:500]] *)
Definition render_payload (res_data : value) : string :=
  substring 0 500 (py_str E res_data).

(** The lines [f"{i}. {str(res_data)[:500]}"] of [enumerate(..., i)] *)
Fixpoint numbered (i : nat) (successful_results_data : list value) : list string :=
  match successful_results_data with
  | [] => []
  | res_data :: rest =>
      (decimal i ++ ". " ++ render_payload res_data) :: numbered (S i) rest
  end.

Definition successful_results_data (rs : list Result) : list value :=
  map result (filter (fun r => String.eqb (status r) "completed") rs).

Definition failed_tasks_info (rs : list Result) : list string :=
  map (fun r => "Task " ++ py_str E (task_id r) ++ " failed: " ++ py_str E (result r))
      (filter (fun r => negb (String.eqb (status r) "completed")) rs).

(** [response_parts] after the two [if] blocks on the results *)
Definition result_parts (rs : list Result) : list string :=
  ((match successful_results_data rs with
    | [] => []
    | data => "Successfully completed tasks yielded:" :: numbered 1 data
    end)
   ++
   (match failed_tasks_info rs with
    | [] => []
    | infos => (newline ++ "Some tasks encountered issues:")%string :: infos
    end))%list.

Definition generate_response_step (state : WorkflowState) : res WorkflowState :=
  if nonempty (error_message state) then
    Ok (set_final_response (error_message state) state)
  else
    match result_parts (results state) with
    | [] =>
        let final_feedback :=
          match reflection state with
          | Some v => feedback v
          | None => VStr "Workflow concluded. No specific results to report."
          end in
        match final_feedback with
        | VStr text =>
            let response_parts :=
              if is_empty (tasks state) && is_empty (results state)
              then [text; "No tasks were planned or executed."]
              else [text] in
            Ok (set_final_response (strip (join newline response_parts)) state)
        | _ =>
            Raise (mkExn TypeError "sequence item 0: expected str instance")
        end
    | response_parts =>
        Ok (set_final_response (strip (join newline response_parts)) state)
    end.

(** ** The graph and [run_workflow] *)

(** The nodes that [create_workflow] adds to the graph. *)
Inductive node : Type :=
| plan_node
| execute_node
| reflect_node
| refine_node
| generate_response_node.

(** The name under which a node is added. *)
Definition node_name (n : node) : string :=
  match n with
  | plan_node => "plan"
  | execute_node => "execute"
  | reflect_node => "reflect"
  | refine_node => "refine"
  | generate_response_node => "generate_response"
  end.

(** The error that the runtime raises when the recursion limit is reached. *)
Definition recursion_error : exn := mkExn RecursionError (recursion_error_text E).

(** The runtime on the compiled graph, from the node [n] on.  [limit] is the
    number of node runs that the recursion limit still allows.  The edges are
    those of [create_workflow]: [plan] to [execute], [execute] to [reflect],
    from [reflect] the route that [should_continue_decision] names,
    [refine] to [execute], and [generate_response] is the finish point.
    [should_continue_decision] is called on the state that [reflect]
    returned; only the route it returns is used. *)
Fixpoint run_node (limit : nat) (n : node) (state : WorkflowState) (w : world)
  : res WorkflowState * world :=
  match limit with
  | O => (Raise recursion_error, w)
  | S limit' =>
      let w := emit (Entered (node_name n)) w in
      match n with
      | plan_node => run_node limit' execute_node (plan_step state) w
      | execute_node =>
          let (state, w) := execute_step state w in
          run_node limit' reflect_node state w
      | reflect_node =>
          let (state, w) := reflect_step state w in
          match snd (should_continue_decision state) with
          | refine_tasks => run_node limit' refine_node state w
          | end_workflow => run_node limit' generate_response_node state w
          end
      | refine_node =>
          match refine_step state with
          | Raise e => (Raise e, w)
          | Ok state => run_node limit' execute_node state w
          end
      | generate_response_node => (generate_response_step state, w)
      end
  end.

(** [workflow_graph.invoke(initial_state)] *)
Definition invoke (limit : nat) (initial_state : WorkflowState) (w : world)
  : res WorkflowState * world :=
  run_node limit plan_node initial_state w.

Record RunResult : Type := mkRunResult {
  run_success : bool;
  run_response : string;
  run_tasks : list task;
  run_results : list Result
}.

Definition is_workflow_exception (c : exn_class) : bool :=
  match c with
  | PlanningError | TaskValidationError | JSONParsingError
  | TaskExecutionError | ReflectionError => true
  | _ => false
  end.

Definition initial_state (query : string) (max_iterations : Z) : WorkflowState :=
  mkState query [] [] None "" 0 max_iterations "".

Definition run_workflow (limit : nat) (query : string) (max_iterations : Z)
           (w : world) : RunResult * world :=
  match invoke limit (initial_state query max_iterations) w with
  | (Ok final_state, w') =>
      (mkRunResult (negb (nonempty (error_message final_state)))
                   (final_response final_state)
                   (tasks final_state) (results final_state), w')
  | (Raise e, w') =>
      if is_workflow_exception (exn_kind e)
      then (mkRunResult false ("Workflow error: " ++ exn_text e) [] [], w')
      else (mkRunResult false ("Unexpected workflow error: " ++ exn_text e)
                        [] [], w')
  end.

End Workflow.

(** * Notions used in the properties *)

(** ** Ids and instructions *)

(** [isinstance(refinement, dict)] *)
Definition is_dict_refinement (r : refinement) : bool :=
  match r with
  | RefinementNotDict _ => false
  | Refinement _ _ _ => true
  end.

(** [isinstance(v, float)] *)
Definition is_float (v : value) : bool :=
  match v with VFloat _ => true | _ => false end.

(** No two of the values are equal in Python's sense. *)
Fixpoint distinct (ids : list value) : bool :=
  match ids with
  | [] => true
  | x :: rest => negb (existsb (py_eq x) rest) && distinct rest
  end.

(** The ids of the tasks of the list are pairwise different. *)
Definition ids_unique (ts : list task) : bool :=
  distinct (map (get "id") ts).

(** Every integer id of the list is below [c], and no id is a float. *)
Definition ids_below (c : Z) (ids : list value) : Prop :=
  Forall (fun v => is_float v = false /\ (is_int v = true -> int_of v < c)) ids.

(** The instructions that cannot give a task an id: a remove, and a modify
    whose decoded payload is an object without the field [id]. *)
Definition keeps_ids (r : refinement) : bool :=
  match r with
  | RefinementNotDict _ => false
  | Refinement action tid d =>
      if py_eq action (VStr "remove") then negb (is_none tid)
      else if py_eq action (VStr "modify") then
        negb (is_none tid)
        && match d with
           | DetailsDecoded (VDict payload) => negb (has_key "id" payload)
           | _ => false
           end
      else false
  end.

(** An add whose decoded payload is an object that leaves the id out or
    gives [null] for it. *)
Definition adds_without_id (r : refinement) : bool :=
  match r with
  | Refinement action _ (DetailsDecoded (VDict payload)) =>
      py_eq action (VStr "add")
      && (negb (has_key "id" payload) || is_none (get "id" payload))
  | _ => false
  end.

(** ** The validation of the adapter *)

(** [tool_name] names one of the registered capabilities. *)
Definition recognized (tool_name : value) : bool :=
  match tool_name with
  | VStr name => existsb (String.eqb name) ["search"; "calculator"]
  | _ => false
  end.

(** The tool is missing or empty, or is not a registered capability, or the
    description is [None]. *)
Definition fails_validation (t : task) : bool :=
  negb (truthy (get "tool" t))
  || negb (recognized (get "tool" t))
  || is_none (get "description" t).

(** ** Observations on the trace *)

(** The events that executing tasks may leave: dispatches, sleeps, and
    evaluations of a text made of allowed characters only. *)
Definition tool_event (ev : event) : Prop :=
  match ev with
  | Dispatched _ _ => True
  | Slept _ => True
  | Evaluated expression => all_chars allowed expression = true
  | Entered _ => False
  end.

(** [w'] is [w] after some tool events. *)
Definition extends (w w' : world) : Prop :=
  exists l, trace w' = (l ++ trace w)%list /\ Forall tool_event l.

Definition is_entered (name : string) (ev : event) : bool :=
  match ev with
  | Entered node => String.eqb node name
  | _ => false
  end.

(** How many times the node [name] was entered. *)
Definition entered (name : string) (w : world) : nat :=
  List.length (filter (is_entered name) (trace w)).

Definition is_call (ev : event) : bool :=
  match ev with
  | Dispatched _ _ | Evaluated _ => true
  | _ => false
  end.

(** The dispatches and evaluations of the trace. *)
Definition calls (w : world) : list event := filter is_call (trace w).

Definition safe_event (ev : event) : Prop :=
  match ev with
  | Evaluated expression => all_chars allowed expression = true
  | _ => True
  end.

(** Every text handed to [eval] so far consists of allowed characters. *)
Definition safe (w : world) : Prop := Forall safe_event (trace w).

(** ** A concrete environment *)

(** [str(n)] for an integer *)
Definition str_of_int (n : Z) : string :=
  DecimalString.NilZero.string_of_int (Z.to_int n).

(** Python's [str] on [None], booleans, integers and texts; the concrete
    runs below render no other value. *)
Definition example_str (v : value) : string :=
  match v with
  | VNone => "None"
  | VBool true => "True"
  | VBool false => "False"
  | VInt n => str_of_int n
  | VStr s => s
  | VFloat _ | VList _ | VDict _ => "<object>"
  end.

(** [4.0] *)
Definition float_four : spec_float := S754_finite false 1 2.

(** An interpreter that is asked two expressions only. *)
Definition example_eval (expression : string) : res value :=
  if String.eqb expression "2+2" then Ok (VFloat float_four)
  else if String.eqb expression "1/0"
  then Raise (mkExn OtherException "division by zero")
  else Raise (mkExn OtherException "invalid syntax").

(** A search service that answers the query [retry] only. *)
Definition example_search (n : nat) (query : string) : res value :=
  if String.eqb query "retry" then Ok (VStr "found")
  else Raise (mkExn OtherException "timeout").

(** A reflector that is satisfied when every task is completed and otherwise
    asks to reword task 1. *)
Definition example_reflector (n : nat) (query : string) (ts : list task)
           (rs : list Result) : res verdict :=
  if all_tasks_successful rs
  then Ok (mkVerdict (VBool true) (VBool true) (VStr "done") [])
  else Ok (mkVerdict (VBool false) (VBool false) (VStr "search again")
             [Refinement (VStr "modify") (VInt 1)
                (DetailsDecoded (VDict [("description", VStr "retry")]))]).

(** The environment of the concrete runs, for a given reply of the language
    model to the planner. *)
Definition example_env (reply : planner_reply) : Env :=
  mkEnv example_str
        (fun e => "RetryError[" ++ exn_text e ++ "]")
        (fun _ => reply)
        example_reflector
        (fun _ => Raise (mkExn TypeError "the tool input is not a text"))
        example_search
        example_eval
        "Recursion limit reached without hitting a stop condition.".

(** The world before anything happened. *)
Definition start : world := mkWorld 0 [].

(** ** Concrete tasks, instructions and states *)

Definition search_task (id : Z) (description : string) : task :=
  [("id", VInt id); ("description", VStr description); ("tool", VStr "search")].

Definition calculator_task (id : Z) (expression : string) : task :=
  [("id", VInt id); ("description", VStr expression); ("tool", VStr "calculator")].

Definition task_without_tool : task :=
  [("id", VInt 1); ("description", VStr "x")].

Definition division_by_zero_task : task := calculator_task 1 "1/0".

(** A state in which every result is completed, the verdict reports
    [complete] without [success] and carries one refinement. *)
Definition state_complete_without_success : WorkflowState :=
  mkState "q"
          [calculator_task 1 "2+2"]
          [mkResult (VInt 1) (VFloat float_four) "completed"]
          (Some (mkVerdict (VBool false) (VBool true) (VStr "again")
                           [Refinement (VStr "remove") (VInt 1) DetailsFalsy]))
          "" 0 3 "".

(** An add that names its id, followed by an add that leaves it out. *)
Definition explicit_then_omitted : list refinement :=
  [Refinement (VStr "add") VNone
     (DetailsDecoded (VDict [("id", VInt 2); ("description", VStr "b");
                             ("tool", VStr "search")]));
   Refinement (VStr "add") VNone
     (DetailsDecoded (VDict [("description", VStr "c"); ("tool", VStr "search")]))].

(** The state in which the refinement step receives these two adds. *)
Definition state_before_adds : WorkflowState :=
  mkState "q" [search_task 1 "a"] [mkResult (VInt 1) (VStr "none") "failed"]
          (Some (mkVerdict (VBool false) (VBool false) (VStr "add more")
                           explicit_then_omitted))
          "" 1 3 "".


(** A plan with two calculator items, one of which has nothing to
    evaluate. *)
Definition plan_with_words : planner_reply :=
  ReplyItems [VDict (calculator_task 1 "2 + 2 apples");
              VDict (calculator_task 2 "apples")].

(** A final state with one completed and one failed result. *)
Definition state_with_results : WorkflowState :=
  mkState "q" [search_task 1 "retry"; search_task 2 "first"]
          [mkResult (VInt 1) (VStr "found") "completed";
           mkResult (VInt 2) (VStr "timeout") "failed"]
          (Some (mkVerdict (VBool false) (VBool false) (VStr "partial") []))
          "" 3 3 "".

(** [c * n] *)
Fixpoint replicate (n : nat) (c : ascii) : string :=
  match n with
  | O => EmptyString
  | S n' => String c (replicate n' c)
  end.

(** ** Notions for the further properties *)

(** The instruction is a dictionary whose action is [name]. *)
Definition is_action (name : string) (r : refinement) : bool :=
  match r with
  | Refinement action _ _ => py_eq action (VStr name)
  | RefinementNotDict _ => false
  end.

(** The number of add instructions of a round. *)
Definition count_adds (rs : list refinement) : nat :=
  List.length (filter (is_action "add") rs).

(** The instructions that end in a logged warning or error: an unknown
    action, a remove or modify without task id, a modify or add whose
    details are missing, empty or not decodable, an add whose decoded
    payload is not an object. *)
Definition is_skipped (r : refinement) : bool :=
  match r with
  | RefinementNotDict _ => false
  | Refinement action tid d =>
      if py_eq action (VStr "remove") then is_none tid
      else if py_eq action (VStr "modify") then
        is_none tid
        || match d with DetailsDecoded _ => false | _ => true end
      else if py_eq action (VStr "add") then
        match d with
        | DetailsDecoded (VDict _) => false
        | _ => true
        end
      else true
  end.


(** The seconds slept so far, the latest first. *)
Definition sleeps (w : world) : list Z :=
  flat_map (fun ev => match ev with Slept n => [n] | _ => [] end) (trace w).

(** The number of dispatches to a capability so far. *)
Definition dispatch_count (w : world) : nat :=
  List.length
    (filter (fun ev => match ev with Dispatched _ _ => true | _ => false end)
            (trace w)).

(** The statuses that the execution step gives to results. *)
Definition is_result_status (s : string) : bool :=
  String.eqb s "completed" || String.eqb s "failed"
  || String.eqb s "failed_unexpectedly".

(** The text is empty or starts with a character that is not white space. *)
Definition starts_clean (s : string) : Prop :=
  match s with
  | EmptyString => True
  | String c _ => is_space c = false
  end.

(** * The task queue of [agents/task_manager.py] *)

Module TaskQueue.

(** The queue keeps the task dictionaries that its caller hands over and
    updates them in place; a dictionary may be handed over more than once.
    The dictionaries therefore live in a heap, and the queue holds their
    addresses. *)
Definition address : Type := nat.

Definition heap : Type := list pydict.

(** The dictionary at an address. *)
Definition deref (h : heap) (a : address) : pydict := nth a h [].

Fixpoint assign (h : heap) (a : address) (d : pydict) : heap :=
  match h, a with
  | [], _ => []
  | _ :: h', O => d :: h'
  | x :: h', S a' => x :: assign h' a' d
  end.

(** [task[key] = v] for the dictionary at [task] *)
Definition set_item (h : heap) (task : address) (key : string) (v : value) : heap :=
  assign h task (dict_set key v (deref h task)).

(** [hash(v)] does not raise. *)
Definition hashable (v : value) : bool :=
  match v with
  | VList _ | VDict _ => false
  | _ => true
  end.

(** An entry of [completed_tasks] or [failed_tasks]: the task and the result
    or error. *)
Definition entry : Type := (address * value)%type.

(** A dictionary keyed by task ids, in insertion order; a stored key is
    found by a key that equals it. *)
Definition table : Type := list (value * entry).

(** [key in t], [t[key]] *)
Fixpoint table_get (key : value) (t : table) : option entry :=
  match t with
  | [] => None
  | (k, e) :: t' => if py_eq k key then Some e else table_get key t'
  end.

(** [t[key] = e]: the entry of an equal key is replaced where it stands *)
Fixpoint table_set (key : value) (e : entry) (t : table) : table :=
  match t with
  | [] => [(key, e)]
  | (k, e') :: t' =>
      if py_eq k key then (k, e) :: t' else (k, e') :: table_set key e t'
  end.

(** [del t[key]] *)
Fixpoint table_del (key : value) (t : table) : table :=
  match t with
  | [] => []
  | (k, e) :: t' => if py_eq k key then t' else (k, e) :: table_del key t'
  end.

Record queue : Type := mkQueue {
  objects : heap;
  tasks : list address;
  completed_tasks : table;
  failed_tasks : table
}.

(** [TaskQueue()] over the objects that exist *)
Definition init (h : heap) : queue := mkQueue h [] [] [].

Definition add_task (task : address) (q : queue) : queue :=
  mkQueue (set_item (objects q) task "status" (VStr "pending"))
          (tasks q ++ [task])%list (completed_tasks q) (failed_tasks q).

(** [None] for Python's [None] *)
Definition get_next_task (q : queue) : option address :=
  match tasks q with
  | [] => None
  | task :: _ => Some task
  end.

(** [KeyError('id')] *)
Definition key_error : exn := mkExn OtherException "'id'".

(** The loop [for task in self.tasks: if task["id"] == task_id], up to the
    first match. *)
Fixpoint find_task (h : heap) (task_id : value) (pending : list address)
  : res (option address) :=
  match pending with
  | [] => Ok None
  | task :: rest =>
      match dict_get "id" (deref h task) with
      | None => Raise key_error
      | Some v => if py_eq v task_id then Ok (Some task) else find_task h task_id rest
      end
  end.

(** [self.tasks.remove(task)]: the first element that is the task or equals
    it goes; [None] when there is none. *)
Fixpoint remove (h : heap) (task : address) (pending : list address)
  : option (list address) :=
  match pending with
  | [] => None
  | a :: rest =>
      if Nat.eqb a task || py_eq (VDict (deref h a)) (VDict (deref h task))
      then Some rest
      else match remove h task rest with
           | Some rest' => Some (a :: rest')
           | None => None
           end
  end.

(** The common body of [mark_task_completed] and [mark_task_failed], which
    differ in the status they write and in the dictionary they fill. *)
Definition mark_task (status : string) (completed : bool)
           (task_id payload : value) (q : queue) : res unit * queue :=
  match find_task (objects q) task_id (tasks q) with
  | Raise e => (Raise e, q)
  | Ok None => (Ok tt, q)
  | Ok (Some task) =>
      let h := set_item (objects q) task "status" (VStr status) in
      if negb (hashable task_id) then
        (Raise (mkExn TypeError "unhashable type"),
         mkQueue h (tasks q) (completed_tasks q) (failed_tasks q))
      else
        let completed_tasks' :=
          if completed
          then table_set task_id (task, payload) (completed_tasks q)
          else completed_tasks q in
        let failed_tasks' :=
          if completed then failed_tasks q
          else table_set task_id (task, payload) (failed_tasks q) in
        match remove h task (tasks q) with
        | Some pending => (Ok tt, mkQueue h pending completed_tasks' failed_tasks')
        | None =>
            (Raise (mkExn ValueError "deque.remove(x): x not in deque"),
             mkQueue h (tasks q) completed_tasks' failed_tasks')
        end
  end.

Definition mark_task_completed (task_id result : value) (q : queue)
  : res unit * queue :=
  mark_task "completed" true task_id result q.

Definition mark_task_failed (task_id error : value) (q : queue)
  : res unit * queue :=
  mark_task "failed" false task_id error q.

(** [1.0] *)
Definition float_one : spec_float := S754_finite false 4503599627370496 (-52).

(** [v + 1]; floats add as binary64. *)
Definition add_one (v : value) : res value :=
  match v with
  | VBool _ | VInt _ => Ok (VInt (int_of v + 1))
  | VFloat f => Ok (VFloat (SFadd 53 1024 f float_one))
  | _ => Raise (mkExn TypeError "unsupported operand type(s) for +")
  end.

Definition retry_task (task_id : value) (q : queue) : res unit * queue :=
  if negb (hashable task_id) then
    (Raise (mkExn TypeError "unhashable type"), q)
  else
    match table_get task_id (failed_tasks q) with
    | None => (Ok tt, q)
    | Some (task, _) =>
        let h := set_item (objects q) task "status" (VStr "pending") in
        match add_one (get_default "retry_count" (VInt 0) (deref h task)) with
        | Raise e =>
            (Raise e, mkQueue h (tasks q) (completed_tasks q) (failed_tasks q))
        | Ok n =>
            (Ok tt,
             mkQueue (set_item h task "retry_count" n)
                     (tasks q ++ [task])%list (completed_tasks q)
                     (table_del task_id (failed_tasks q)))
        end
    end.

(** The three lists of [get_all_tasks]. *)
Definition get_all_tasks (q : queue) : list address * list entry * list entry :=
  (tasks q, map snd (completed_tasks q), map snd (failed_tasks q)).

Definition is_empty (q : queue) : bool :=
  (List.length (tasks q) =? 0)%nat.

End TaskQueue.

(** The number that a value denotes, as [m * 2^e], when it is a finite
    number. *)
Definition as_number (v : value) : option (Z * Z) :=
  match v with
  | VBool _ | VInt _ => Some (int_of v, 0)
  | VFloat f => float_finite f
  | _ => None
  end.

(** The task at [a] has an id, and [task["id"] == task_id] is [r]. *)
Definition id_equals (h : TaskQueue.heap) (task_id : value) (r : bool)
           (a : TaskQueue.address) : Prop :=
  exists v, dict_get "id" (TaskQueue.deref h a) = Some v /\ py_eq v task_id = r.

(** Two task objects with the ids 1 and 2, both added to a new queue. *)
Definition two_pending : TaskQueue.queue :=
  TaskQueue.add_task 1%nat
    (TaskQueue.add_task 0%nat
       (TaskQueue.init [[("id", VInt 1)]; [("id", VInt 2)]])).

(** One task object whose id is a list, added to a new queue. *)
Definition list_id_pending : TaskQueue.queue :=
  TaskQueue.add_task 0%nat (TaskQueue.init [[("id", VList [VInt 1])]]).


(** A reflector that is never satisfied: whatever the results, it asks to
    give task 1 the description it already has. *)
Definition refining_reflector (n : nat) (query : string) (ts : list task)
           (rs : list Result) : res verdict :=
  Ok (mkVerdict (VBool false) (VBool false) (VStr "search again")
        [Refinement (VStr "modify") (VInt 1)
           (DetailsDecoded (VDict [("description", VStr "first")]))]).

(** The environment of the concrete runs with that reflector and the plan of
    one search, which the search service does not answer. *)
Definition refining_env : Env :=
  mkEnv example_str
        (fun e => "RetryError[" ++ exn_text e ++ "]")
        (fun _ => ReplyItems [VDict (search_task 1 "first")])
        refining_reflector
        (fun _ => Raise (mkExn TypeError "the tool input is not a text"))
        example_search
        example_eval
        "Recursion limit reached without hitting a stop condition.".

(** ** Instructions that name ids *)





(** * Properties *)

(** ** The decision of the iteration controller *)

Lemma decision_keeps_results (s : WorkflowState) :
  results (fst (should_continue_decision s)) = results s.
Proof.
  unfold should_continue_decision.
  repeat match goal with |- context [if ?c then _ else _] => destruct c end;
    reflexivity.
Qed.

Lemma decision_state (s : WorkflowState) :
  fst (should_continue_decision s) = set_iteration (iteration s + 1) s.
Proof.
  unfold should_continue_decision.
  repeat match goal with |- context [if ?c then _ else _] => destruct c end;
    reflexivity.
Qed.

(** What must hold for the controller to choose [refine_tasks]. *)
Lemma refine_decision_inv (s s1 : WorkflowState) :
  should_continue_decision s = (s1, refine_tasks) ->
  s1 = set_iteration (iteration s + 1) s
  /\ error_message s = ""
  /\ iteration s + 1 < max_iterations s
  /\ reflection_refinements s <> [].
Proof.
  intros H.
  pose proof (decision_state s) as Hs. rewrite H in Hs. simpl in Hs.
  split; [exact Hs|].
  revert H. unfold should_continue_decision.
  cbn [error_message set_iteration max_iterations iteration results].
  unfold reflection_get, reflection_refinements, nonempty.
  cbn [reflection set_iteration].
  destruct (String.eqb_spec (error_message s) "") as [He|He]; cbn [negb];
    [|discriminate].
  destruct (Z.leb_spec (max_iterations s) (iteration s + 1)); [discriminate|].
  repeat match goal with
         | |- context [if ?c then _ else _] => destruct c eqn:?; try discriminate
         end.
  intros _. repeat split; try assumption.
  destruct (reflection s) as [v|]; [|discriminate].
  destruct (refinements v); [discriminate|congruence].
Qed.

(** C1, as stated, fails: with every result completed and a verdict that does
    not report complete together with success (it reports complete without
    success), the controller chooses to refine. *)
Lemma decision_all_completed_refines :
  all_tasks_successful (results state_complete_without_success) = true
  /\ truthy (reflection_get complete state_complete_without_success)
     && truthy (reflection_get success state_complete_without_success) = false
  /\ snd (should_continue_decision state_complete_without_success) = refine_tasks.
Proof. repeat split. Qed.

(** C1, amended: when every result of the round is completed, the controller
    ends the workflow whatever the refinements are, provided the verdict does
    not report complete, or reports complete together with success. *)
Theorem decision_all_completed_responds (s : WorkflowState) :
  all_tasks_successful (results s) = true ->
  truthy (reflection_get complete s) = false
  \/ truthy (reflection_get success s) = true ->
  snd (should_continue_decision s) = end_workflow.
Proof.
  intros Hall Hv. unfold should_continue_decision.
  cbn [error_message set_iteration max_iterations iteration results].
  replace (reflection_get complete (set_iteration (iteration s + 1) s))
    with (reflection_get complete s) by reflexivity.
  replace (reflection_get success (set_iteration (iteration s + 1) s))
    with (reflection_get success s) by reflexivity.
  rewrite Hall.
  destruct (nonempty (error_message s)); [reflexivity|].
  destruct (max_iterations s <=? iteration s + 1); [reflexivity|].
  destruct (truthy (reflection_get complete s)) eqn:Hc;
    destruct (truthy (reflection_get success s)) eqn:Hs; cbn;
    try reflexivity.
  destruct Hv; discriminate.
Qed.

Lemma decision_all_completed_responds_witness :
  snd (should_continue_decision
         (mkState "q" [] [mkResult (VInt 1) (VFloat float_four) "completed"]
                  (Some (mkVerdict (VBool true) (VBool false) (VStr "more")
                                   [Refinement (VStr "remove") (VInt 1) DetailsFalsy]))
                  "" 0 3 "")) = end_workflow.
Proof.
  apply decision_all_completed_responds; [reflexivity | left; reflexivity].
Defined.

(** ** The post-condition of a refinement round *)

Lemma apply_refinement_total (st : list task * Z) (r : refinement) :
  is_dict_refinement r = true -> exists st', apply_refinement st r = Ok st'.
Proof.
  destruct st as [ts c]. destruct r as [v|action tid d]; [discriminate|].
  intros _. unfold apply_refinement.
  repeat match goal with
         | |- context [if ?c then _ else _] => destruct c
         | |- context [match json_loads ?d with _ => _ end] => destruct (json_loads d)
         | |- context [match ?v with VNone => _ | _ => _ end] => destruct v
         end; eauto.
Qed.

Lemma apply_refinements_total (rs : list refinement) :
  forallb is_dict_refinement rs = true ->
  forall st, exists st', apply_refinements st rs = Ok st'.
Proof.
  induction rs as [|r rs IH]; intros Hall st; cbn.
  - eauto.
  - cbn in Hall. apply andb_true_iff in Hall as [Hr Hrs].
    destruct (apply_refinement_total st r Hr) as [st' ->]. auto.
Qed.

(** When the refinements are not empty, [refine_step] does not take its early
    return: what it returns has the three fields reset. *)
Lemma refine_step_clears (s s' : WorkflowState) :
  reflection_refinements s <> [] ->
  refine_step s = Ok s' ->
  results s' = [] /\ reflection s' = None /\ error_message s' = "".
Proof.
  unfold refine_step. intros Hne.
  destruct (reflection_refinements s) as [|r rs]; [congruence|].
  destruct (apply_refinements _ _) as [[ts c]|e]; [|discriminate].
  intros [= <-]. repeat split.
Qed.

(** C7: after every refine transition the controller takes, the result list
    is empty, the reflection verdict is the empty dictionary and the error
    message is empty; and the transition does complete whenever every
    refinement of the verdict is a dictionary.  This holds for the state [s]
    on which the decision is taken, which is the state that the refinement
    step is handed, and for the copy [s1] on which the routing function has
    counted the iteration. *)
Theorem refine_transition_clears (s s1 : WorkflowState) :
  should_continue_decision s = (s1, refine_tasks) ->
  (forall s2, refine_step s1 = Ok s2 ->
              results s2 = [] /\ reflection s2 = None /\ error_message s2 = "")
  /\ (forallb is_dict_refinement (reflection_refinements s1) = true ->
      exists s2, refine_step s1 = Ok s2)
  /\ (forall s2, refine_step s = Ok s2 ->
                 results s2 = [] /\ reflection s2 = None /\ error_message s2 = "")
  /\ (forallb is_dict_refinement (reflection_refinements s) = true ->
      exists s2, refine_step s = Ok s2).
Proof.
  intros Hd. apply refine_decision_inv in Hd as (-> & _ & _ & Hne).
  assert (Htotal : forall s0, reflection_refinements s0 = reflection_refinements s ->
                     forallb is_dict_refinement (reflection_refinements s0) = true ->
                     exists s2, refine_step s0 = Ok s2).
  { intros s0 Hs0 Hall. unfold refine_step. rewrite Hs0 in *.
    destruct (reflection_refinements s) as [|r rs] eqn:Hr; [congruence|].
    destruct (apply_refinements_total (r :: rs) Hall
                (tasks s0, initial_id_counter (tasks s0))) as [[ts c] ->].
    eauto. }
  split; [|split; [|split]].
  - intros s2. apply refine_step_clears. exact Hne.
  - apply Htotal. reflexivity.
  - intros s2. apply refine_step_clears. exact Hne.
  - apply Htotal. reflexivity.
Qed.

Lemma refine_transition_clears_witness :
  exists s2,
    refine_step (fst (should_continue_decision state_complete_without_success)) = Ok s2
    /\ results s2 = [] /\ reflection s2 = None /\ error_message s2 = "".
Proof.
  destruct (refine_transition_clears state_complete_without_success
              (fst (should_continue_decision state_complete_without_success))
              eq_refl) as (Hclear & Htotal & _).
  destruct (Htotal eq_refl) as [s2 Hs2].
  exists s2. split; [exact Hs2 | exact (Hclear s2 Hs2)].
Defined.

(** ** Task ids under refinement *)

(** C6 at its failing input: the task list holds id 1, the round adds a task
    with the explicit id 2 and then a task without id.  The second add is
    given the id 2 as well: the counter was computed before the round and
    does not see the task added in between. *)
Theorem omitted_id_collides_with_explicit_id :
  exists s',
    refine_step state_before_adds = Ok s'
    /\ tasks s' =
         [search_task 1 "a"; search_task 2 "b";
          [("description", VStr "c"); ("tool", VStr "search"); ("id", VInt 2)]]
    /\ map (get "id") (tasks s') = [VInt 1; VInt 2; VInt 2]
    /\ ids_unique (tasks s') = false.
Proof. eexists. repeat split. Qed.

Lemma existsb_map_filter_true {A B : Type} (p : B -> bool) (f : A -> B)
      (keep : A -> bool) (l : list A) :
  existsb p (map f (filter keep l)) = true -> existsb p (map f l) = true.
Proof.
  induction l as [|a l IH]; cbn; [easy|].
  destruct (keep a); cbn; intros H.
  - apply orb_true_iff in H as [H|H]; [now rewrite H|].
    rewrite (IH H). apply orb_true_r.
  - rewrite (IH H). apply orb_true_r.
Qed.

(** Dropping tasks keeps the remaining ids pairwise different. *)
Lemma ids_unique_filter (keep : task -> bool) (ts : list task) :
  ids_unique ts = true -> ids_unique (filter keep ts) = true.
Proof.
  unfold ids_unique. induction ts as [|t ts IH]; cbn; [easy|].
  intros H. apply andb_true_iff in H as [Hx Hr].
  destruct (keep t); cbn; [|auto].
  rewrite (IH Hr), andb_true_r.
  apply negb_true_iff. apply negb_true_iff in Hx.
  destruct (existsb (py_eq (get "id" t)) (map (get "id") (filter keep ts))) eqn:Hex;
    [|reflexivity].
  apply existsb_map_filter_true in Hex. congruence.
Qed.

Lemma dict_get_set_other (k k' : string) (v : value) (d : pydict) :
  String.eqb k k' = false -> dict_get k (dict_set k' v d) = dict_get k d.
Proof.
  intros Hk. induction d as [|[k0 v0] d IH]; cbn.
  - now rewrite Hk.
  - destruct (String.eqb_spec k' k0) as [->|Hne]; cbn.
    + now rewrite Hk.
    + destruct (k =? k0)%string; [reflexivity|exact IH].
Qed.

Lemma dict_get_set_same (k : string) (v : value) (d : pydict) :
  dict_get k (dict_set k v d) = Some v.
Proof.
  induction d as [|[k0 v0] d IH]; cbn.
  - now rewrite String.eqb_refl.
  - destruct (String.eqb_spec k k0) as [->|Hne]; cbn.
    + now rewrite String.eqb_refl.
    + destruct (String.eqb_spec k k0); [contradiction|exact IH].
Qed.

(** Merging a payload that has no field [k] leaves the field [k] as it was. *)
Lemma dict_get_update_other (k : string) (other d : pydict) :
  has_key k other = false -> dict_get k (dict_update d other) = dict_get k d.
Proof.
  unfold dict_update, has_key. revert d.
  induction other as [|[k0 v0] other IH]; intros d; cbn; [reflexivity|].
  destruct (String.eqb_spec k k0) as [->|Hne]; [discriminate|].
  intros H. rewrite (IH _ H). apply dict_get_set_other.
  now apply String.eqb_neq.
Qed.

Lemma modify_first_keeps_ids (tid : value) (payload : pydict) (ts : list task) :
  has_key "id" payload = false ->
  map (get "id") (modify_first tid (VDict payload) ts) = map (get "id") ts.
Proof.
  intros Hp. induction ts as [|t ts IH]; cbn; [reflexivity|].
  destruct (py_eq (get "id" t) tid); cbn.
  - f_equal. unfold get. now rewrite dict_get_update_other.
  - now rewrite IH.
Qed.

Lemma apply_refinement_keeps_unique (ts : list task) (c : Z) (r : refinement) :
  ids_unique ts = true -> keeps_ids r = true ->
  exists ts', apply_refinement (ts, c) r = Ok (ts', c) /\ ids_unique ts' = true.
Proof.
  intros Hu Hk. destruct r as [v|action tid d]; [discriminate|].
  cbn in Hk. unfold apply_refinement.
  destruct (py_eq action (VStr "remove")) eqn:Hrem.
  - rewrite Hk. cbn. eexists. split; [reflexivity|].
    now apply ids_unique_filter.
  - cbn [andb]. destruct (py_eq action (VStr "modify")) eqn:Hmod; [|discriminate].
    apply andb_true_iff in Hk as [Htid Hd]. rewrite Htid. cbn [andb].
    destruct d as [| |[| | | | | |payload]]; try discriminate.
    cbn. eexists. split; [reflexivity|].
    unfold ids_unique. rewrite modify_first_keeps_ids; [exact Hu|].
    now apply negb_true_iff.
Qed.

(** *** Ids assigned by the counter, without ids named in the round *)

Lemma fold_max_ge (l : list Z) (x : Z) :
  x <= fold_left Z.max l x /\ Forall (fun y => y <= fold_left Z.max l x) l.
Proof.
  revert x. induction l as [|y l IH]; intros x; cbn.
  - split; [lia|constructor].
  - destruct (IH (Z.max x y)) as [H1 H2]. split; [lia|].
    constructor; [lia|exact H2].
Qed.

Lemma max_default0_ge (l : list Z) : Forall (fun y => y <= max_default0 l) l.
Proof.
  destruct l as [|x l]; cbn; [constructor|].
  destruct (fold_max_ge l x) as [H1 H2]. constructor; assumption.
Qed.

(** The counter starts above every integer id of the task list. *)
Lemma initial_id_counter_above (ts : list task) :
  Forall (fun t => is_int (get "id" t) = true ->
                   int_of (get "id" t) < initial_id_counter ts) ts.
Proof.
  unfold initial_id_counter. pose proof (max_default0_ge (int_ids ts)) as H.
  remember (max_default0 (int_ids ts)) as m eqn:Hm. clear Hm.
  unfold int_ids in H. rewrite Forall_map in H.
  apply Forall_forall. intros t Hin Hint.
  rewrite Forall_forall in H.
  assert (Hf : In t (filter (fun t => is_int (get "id" t)) ts))
    by (apply filter_In; auto).
  specialize (H t Hf). cbn beta in H.
  unfold get, get_default in *. destruct (dict_get "id" t); [lia|discriminate].
Qed.

Lemma distinct_snoc (ids : list value) (v : value) :
  distinct (ids ++ [v])
  = distinct ids && negb (existsb (fun x => py_eq x v) ids).
Proof.
  induction ids as [|x ids IH]; cbn; [reflexivity|].
  rewrite IH, existsb_app. cbn.
  destruct (existsb (py_eq x) ids), (py_eq x v), (distinct ids),
    (existsb (fun x0 => py_eq x0 v) ids); reflexivity.
Qed.

(** No id below the counter equals the counter. *)
Lemma ids_below_differ (c : Z) (ids : list value) :
  ids_below c ids -> existsb (fun x => py_eq x (VInt c)) ids = false.
Proof.
  induction 1 as [|x ids [Hfloat Hint] _ IH]; cbn; [reflexivity|].
  rewrite IH, orb_false_r.
  destruct x as [|b|n|f|s|l|d]; cbn in *; try reflexivity; try discriminate.
  - specialize (Hint eq_refl). destruct b; apply Z.eqb_neq; lia.
  - specialize (Hint eq_refl). apply Z.eqb_neq. lia.
Qed.

Lemma ids_below_mono (c c' : Z) (ids : list value) :
  c <= c' -> ids_below c ids -> ids_below c' ids.
Proof.
  intros Hle H. eapply Forall_impl; [|exact H].
  cbn. intros v [Hf Hi]. split; [exact Hf|]. intros Hv. specialize (Hi Hv). lia.
Qed.

Lemma ids_below_filter (c : Z) (keep : task -> bool) (ts : list task) :
  ids_below c (map (get "id") ts) ->
  ids_below c (map (get "id") (filter keep ts)).
Proof.
  unfold ids_below. rewrite !Forall_map, !Forall_forall.
  intros H t Hin. apply filter_In in Hin as [Hin _]. auto.
Qed.

Lemma get_id_after_set (c : Z) (payload : pydict) :
  get "id" (dict_set "id" (VInt c) payload) = VInt c.
Proof. unfold get. now rewrite dict_get_set_same. Qed.

(** One instruction that names no id: the list keeps pairwise different ids
    below the counter, and a task that is added carries the counter, which
    is above every integer id of the list it is added to. *)
Lemma apply_refinement_fresh (ts : list task) (c : Z) (r : refinement) :
  ids_unique ts = true ->
  ids_below c (map (get "id") ts) ->
  keeps_ids r || adds_without_id r = true ->
  exists ts' c',
    apply_refinement (ts, c) r = Ok (ts', c')
    /\ c <= c'
    /\ ids_unique ts' = true
    /\ ids_below c' (map (get "id") ts')
    /\ (adds_without_id r = true ->
        c' = c + 1
        /\ (ts' = ts \/ exists t, ts' = (ts ++ [t])%list /\ get "id" t = VInt c)).
Proof.
  intros Hu Hb Hr. apply orb_true_iff in Hr as [Hk|Ha].
  - destruct (apply_refinement_keeps_unique ts c r Hu Hk) as (ts' & Heq & Hu').
    exists ts', c. split; [exact Heq|]. split; [lia|]. split; [exact Hu'|]. split.
    + destruct r as [v|action tid d]; [discriminate|].
      cbn in Hk. unfold apply_refinement in Heq.
      destruct (py_eq action (VStr "remove")) eqn:Hrem.
      * rewrite Hk in Heq. cbn in Heq. injection Heq as <-.
        now apply ids_below_filter.
      * cbn [andb] in Heq.
        destruct (py_eq action (VStr "modify")) eqn:Hmod; [|discriminate].
        apply andb_true_iff in Hk as [Htid Hd]. rewrite Htid in Heq.
        destruct d as [| |[| | | | | |payload]]; try discriminate.
        cbn in Heq. injection Heq as <-.
        rewrite modify_first_keeps_ids; [exact Hb|now apply negb_true_iff].
    + intros Ha. destruct r as [v|action tid d]; [discriminate|].
      cbn in Hk, Ha. destruct d as [| |[| | | | | |payload]]; try discriminate.
      apply andb_true_iff in Ha as [Ha _].
      destruct action; try discriminate. cbn in Ha, Hk.
      destruct (s =? "remove")%string eqn:Hrem;
        [apply String.eqb_eq in Hrem; subst; discriminate|].
      destruct (s =? "modify")%string eqn:Hmod;
        [apply String.eqb_eq in Hmod; subst; discriminate|discriminate].
  - destruct r as [v|action tid d]; [discriminate|].
    cbn in Ha. destruct d as [| |[| | | | | |payload]]; try discriminate.
    apply andb_true_iff in Ha as [Hadd Hid].
    destruct action as [| | | |a| |]; try discriminate. cbn in Hadd.
    apply String.eqb_eq in Hadd. subst a.
    unfold apply_refinement. cbn [py_eq String.eqb Ascii.eqb Bool.eqb andb
                                  details_given json_loads].
    rewrite Hid. cbn beta iota.
    destruct (has_required_fields (dict_set "id" (VInt c) payload)); cbn [negb].
    + exists (ts ++ [dict_set "id" (VInt c) payload])%list, (c + 1).
      split; [reflexivity|]. split; [lia|]. split; [|split].
      * unfold ids_unique. rewrite map_app. cbn [map].
        rewrite get_id_after_set, distinct_snoc.
        unfold ids_unique in Hu. unfold task in *.
        rewrite (ids_below_differ c _ Hb), Hu. reflexivity.
      * rewrite map_app. apply Forall_app. split.
        -- apply (ids_below_mono c); [lia|exact Hb].
        -- cbn [map]. rewrite get_id_after_set. constructor; [|constructor].
           cbn. split; [reflexivity|]. intros _. lia.
      * intros _. split; [reflexivity|]. right. eexists. split; [reflexivity|].
        apply get_id_after_set.
    + exists ts, (c + 1). split; [reflexivity|]. split; [lia|].
      split; [exact Hu|]. split.
      * apply (ids_below_mono c); [lia|exact Hb].
      * intros _. split; [reflexivity|]. now left.
Qed.

(** A round that names no id (removes, modifies whose payload has no id
    field, adds without id) on a task list with pairwise different ids, none
    of them a float: the round is carried out, the ids stay pairwise
    different, and the counter stays above every integer id. *)
Lemma refinements_without_ids_fresh (rs : list refinement) :
  forall (ts : list task) (c : Z),
    ids_unique ts = true ->
    ids_below c (map (get "id") ts) ->
    forallb (fun r => keeps_ids r || adds_without_id r) rs = true ->
    exists ts' c',
      apply_refinements (ts, c) rs = Ok (ts', c')
      /\ c <= c'
      /\ ids_unique ts' = true
      /\ ids_below c' (map (get "id") ts').
Proof.
  induction rs as [|r rs IH]; intros ts c Hu Hb Hall; cbn [apply_refinements].
  - exists ts, c. repeat split; auto. lia.
  - cbn in Hall. apply andb_true_iff in Hall as [Hr Hrs].
    destruct (apply_refinement_fresh ts c r Hu Hb Hr)
      as (ts1 & c1 & -> & Hle & Hu1 & Hb1 & _).
    destruct (IH ts1 c1 Hu1 Hb1 Hrs) as (ts' & c' & -> & Hle' & Hu' & Hb').
    exists ts', c'. repeat split; auto. lia.
Qed.

(** The same for [refine_step]: its counter starts above the integer ids of
    the task list. *)
Lemma refine_step_without_ids_fresh (s : WorkflowState) :
  ids_unique (tasks s) = true ->
  Forall (fun t => is_float (get "id" t) = false) (tasks s) ->
  forallb (fun r => keeps_ids r || adds_without_id r) (reflection_refinements s)
  = true ->
  exists s', refine_step s = Ok s' /\ ids_unique (tasks s') = true.
Proof.
  intros Hu Hf Hall. unfold refine_step.
  destruct (reflection_refinements s) as [|r rs] eqn:Hrs.
  - eexists. split; [reflexivity|exact Hu].
  - assert (Hb : ids_below (initial_id_counter (tasks s))
                           (map (get "id") (tasks s))).
    { unfold ids_below. rewrite Forall_map.
      pose proof (initial_id_counter_above (tasks s)) as Ha.
      rewrite Forall_forall in *. auto. }
    destruct (refinements_without_ids_fresh (r :: rs) (tasks s) _ Hu Hb Hall)
      as (ts' & c' & -> & _ & Hu' & _).
    eexists. split; [reflexivity|exact Hu'].
Qed.


(** *** Instructions that name ids absent from the list *)









(** ** What the nodes add to the trace *)

Lemma extends_refl (w : world) : extends w w.
Proof. exists []. split; [reflexivity|constructor]. Qed.

Lemma extends_trans (w1 w2 w3 : world) :
  extends w1 w2 -> extends w2 w3 -> extends w1 w3.
Proof.
  intros (l1 & H1 & F1) (l2 & H2 & F2). exists (l2 ++ l1)%list. split.
  - rewrite H2, H1. apply app_assoc.
  - apply Forall_app. split; assumption.
Qed.

Lemma extends_emit (ev : event) (w : world) :
  tool_event ev -> extends w (emit ev w).
Proof. intros H. exists [ev]. split; [reflexivity|]. constructor; auto. Qed.

Lemma extends_tick (w : world) : extends w (tick w).
Proof. exists []. split; [reflexivity|constructor]. Qed.

Create HintDb frame.
#[local] Hint Resolve extends_refl extends_tick : frame.

Lemma filter_chars_all (p : ascii -> bool) (s : string) :
  all_chars p (filter_chars p s) = true.
Proof.
  induction s as [|c s IH]; cbn; [reflexivity|].
  destruct (p c) eqn:Hc; cbn; [now rewrite Hc|exact IH].
Qed.

Lemma filter_chars_keeps_all (p keep : ascii -> bool) (s : string) :
  all_chars p s = true -> all_chars p (filter_chars keep s) = true.
Proof.
  induction s as [|c s IH]; cbn; [reflexivity|].
  intros H. apply andb_true_iff in H as [Hc Hs].
  destruct (keep c); cbn; [rewrite Hc|]; auto.
Qed.

Section Frames.

Variable E : Env.

Lemma search_extends (q : string) (w : world) : extends w (snd (search E q w)).
Proof.
  unfold search. destruct (search_service E (clock w) q) as [v|e]; cbn.
  - auto with frame.
  - destruct (exn_kind e); cbn; auto with frame.
Qed.

(** The guard of [calculator]: [eval] is reached only with a text of allowed
    characters. *)
Lemma calculator_extends (expression : string) (w : world) :
  extends w (snd (calculator E expression w)).
Proof.
  unfold calculator.
  destruct (all_chars allowed expression) eqn:Hall; cbn [negb snd];
    [|auto with frame].
  destruct (nonempty (remove_spaces expression)); cbn [negb snd];
    [|auto with frame].
  destruct (100 <? String.length (remove_spaces expression))%nat; cbn [snd];
    [auto with frame|].
  apply extends_emit. cbn [tool_event]. unfold remove_spaces.
  now apply filter_chars_keeps_all.
Qed.

Lemma tools_get_extends (name : string) (f : tool_body) :
  tools_get name (tools E) = Some f ->
  forall text w, extends w (snd (f text w)).
Proof.
  cbn. destruct (name =? "search")%string.
  - intros [= <-]. apply search_extends.
  - destruct (name =? "calculator")%string; [|discriminate].
    intros [= <-]. apply calculator_extends.
Qed.

Lemma dispatch_extends (name : string) (f : tool_body) (d : value) (w : world) :
  tools_get name (tools E) = Some f ->
  extends w (snd (dispatch E name f d w)).
Proof.
  intros Hf. unfold dispatch.
  assert (H0 : extends w (emit (Dispatched name d) w))
    by (apply extends_emit; exact I).
  destruct d; try (destruct (tool_input E _) as [text|e]; cbn;
                   [eapply extends_trans; [exact H0|];
                    eapply tools_get_extends; eassumption
                   |exact H0]).
  eapply extends_trans; [exact H0|]. eapply tools_get_extends; eassumption.
Qed.

Lemma tools_find_some (v : value) (name : string) (f : tool_body) :
  tools_find E v = Ok (Some (name, f)) ->
  v = VStr name /\ tools_get name (tools E) = Some f.
Proof.
  unfold tools_find. destruct v; try discriminate.
  destruct (tools_get s (tools E)) eqn:Hg; [|discriminate].
  intros [= <- <-]. auto.
Qed.

Lemma execute_task_body_extends (t : task) (w : world) :
  extends w (snd (execute_task_body E t w)).
Proof.
  unfold execute_task_body.
  destruct (truthy (get "tool" t)); cbn; [|auto with frame].
  destruct (tools_find E (get "tool" t)) as [[[name f]|]|e] eqn:Hfind; cbn;
    [|auto with frame..].
  apply tools_find_some in Hfind as [_ Hget].
  destruct (is_none (get "description" t)); cbn; [auto with frame|].
  pose proof (dispatch_extends name f (get "description" t) w Hget) as Hd.
  destruct (dispatch E name f (get "description" t) w) as [[v|e] w']; exact Hd.
Qed.

Lemma retry_extends {A : Type} (f : world -> res A * world) :
  (forall w, extends w (snd (f w))) ->
  forall budget attempt_number w,
    extends w (snd (retry E budget attempt_number f w)).
Proof.
  intros Hf. induction budget as [|budget IH]; intros n w; cbn;
    pose proof (Hf w) as Hw; destruct (f w) as [[a|e] w']; cbn in *; auto;
    destruct (stop_after_attempt <=? n); cbn; auto.
  eapply extends_trans; [exact Hw|].
  eapply extends_trans; [|apply IH].
  apply extends_emit. exact I.
Qed.

Lemma execute_task_extends (t : task) (w : world) :
  extends w (snd (execute_task E t w)).
Proof. apply retry_extends. apply execute_task_body_extends. Qed.

Lemma execute_tasks_extends (ts : list task) :
  forall w, extends w (snd (execute_tasks E ts w)).
Proof.
  induction ts as [|t ts IH]; intros w; cbn [execute_tasks snd];
    [auto with frame|].
  pose proof (execute_task_extends t w) as H1.
  destruct (execute_task E t w) as [r w1]. cbn [snd] in H1.
  pose proof (IH w1) as H2.
  destruct (execute_tasks E ts w1) as [rs w2]. cbn [snd] in *.
  eapply extends_trans; eassumption.
Qed.

Lemma execute_step_extends (s : WorkflowState) (w : world) :
  extends w (snd (execute_step E s w)).
Proof.
  unfold execute_step. destruct (tasks s) as [|t ts] eqn:Ht.
  - destruct (negb _); cbn; auto with frame.
  - pose proof (execute_tasks_extends (t :: ts) w) as H.
    destruct (execute_tasks E (t :: ts) w) as [rs w']. exact H.
Qed.

Lemma reflect_step_extends (s : WorkflowState) (w : world) :
  extends w (snd (reflect_step E s w)).
Proof.
  unfold reflect_step.
  repeat match goal with
         | |- context [if ?c then _ else _] => destruct c; cbn
         end; auto with frame.
  destruct (evaluate_results E _ _ _ _); cbn; auto with frame.
Qed.

End Frames.

(** ** The iteration counter and the loop *)

Lemma extends_entered (name : string) (w w' : world) :
  extends w w' -> entered name w' = entered name w.
Proof.
  intros (l & Hl & Hf). unfold entered. rewrite Hl, filter_app, length_app.
  replace (filter (is_entered name) l) with (@nil event); [reflexivity|].
  clear Hl. induction Hf as [|ev l Hev _ IH]; [reflexivity|].
  cbn. destruct ev; cbn in *; try exact IH. contradiction.
Qed.

Lemma entered_emit (name node : string) (w : world) :
  entered name (emit (Entered node) w)
  = ((if String.eqb node name then 1 else 0) + entered name w)%nat.
Proof. unfold entered. cbn. destruct (node =? name)%string; reflexivity. Qed.

Section Loop.

Variable E : Env.

(** No node writes [iteration] or [max_iterations]: the only assignment to
    [iteration] is the one in the routing function. *)
Lemma execute_step_budget (s : WorkflowState) (w : world) :
  iteration (fst (execute_step E s w)) = iteration s
  /\ max_iterations (fst (execute_step E s w)) = max_iterations s.
Proof.
  unfold execute_step. destruct (tasks s) as [|t ts].
  - destruct (negb _); split; reflexivity.
  - destruct (execute_tasks E (t :: ts) w); split; reflexivity.
Qed.

Lemma reflect_step_budget (s : WorkflowState) (w : world) :
  iteration (fst (reflect_step E s w)) = iteration s
  /\ max_iterations (fst (reflect_step E s w)) = max_iterations s.
Proof.
  unfold reflect_step.
  repeat match goal with
         | |- context [if ?c then _ else _] => destruct c
         end; try (split; reflexivity).
  destruct (evaluate_results E _ _ _ _); split; reflexivity.
Qed.

Lemma refine_step_budget (s s' : WorkflowState) :
  refine_step s = Ok s' ->
  iteration s' = iteration s /\ max_iterations s' = max_iterations s.
Proof.
  unfold refine_step. destruct (reflection_refinements s).
  - intros [= <-]. split; reflexivity.
  - destruct (apply_refinements _ _) as [[ts c]|e]; [|discriminate].
    intros [= <-]. split; reflexivity.
Qed.

Lemma plan_step_budget (s : WorkflowState) :
  iteration (plan_step E s) = iteration s
  /\ max_iterations (plan_step E s) = max_iterations s.
Proof.
  unfold plan_step. destruct (generate_plan E (query s)) as [ts|e].
  - split; reflexivity.
  - destruct (exn_kind e); split; reflexivity.
Qed.

End Loop.

(** The state in which the never satisfied reflector leaves the run after
    each refinement. *)
Lemma refining_round (limit : nat) (w : world) :
  let s := mkState "q" [search_task 1 "first"] [] None "" 0 3 "" in
  exists w1,
    run_node refining_env (3 + limit) execute_node s w
    = run_node refining_env limit execute_node s w1
    /\ entered "refine" w1 = S (entered "refine" w).
Proof.
  intros s. eexists. split.
  - cbn [Nat.add run_node]. reflexivity.
  - reflexivity.
Qed.

(** C5 at its failing input: [max_iterations] is 3, the plan is one search
    that fails, and the reflector asks for a refinement after every round.
    The routing function counts on a dictionary that the runtime discards, so
    every decision sees the iteration 1 of 3: for every [k], a run that is
    allowed [1 + 3 * k] node runs has taken [k] refine transitions, and it
    ends with the runtime's recursion error, not by the controller. *)
Theorem max_iterations_do_not_cap_refine (k : nat) :
  exists w',
    invoke refining_env (1 + 3 * k) (initial_state "q" 3) start
    = (Raise (recursion_error refining_env), w')
    /\ entered "refine" w' = k.
Proof.
  unfold invoke. cbn [Nat.add run_node].
  change (plan_step refining_env (initial_state "q" 3))
    with (mkState "q" [search_task 1 "first"] [] None "" 0 3 "").
  assert (H : forall w, exists w',
             run_node refining_env (3 * k) execute_node
               (mkState "q" [search_task 1 "first"] [] None "" 0 3 "") w
             = (Raise (recursion_error refining_env), w')
             /\ entered "refine" w' = (k + entered "refine" w)%nat).
  { induction k as [|k IH]; intros w.
    - exists w. split; reflexivity.
    - replace (3 * S k)%nat with (3 + 3 * k)%nat by lia.
      destruct (refining_round (3 * k) w) as (w1 & -> & H1).
      destruct (IH w1) as (w' & -> & H').
      exists w'. split; [reflexivity|]. rewrite H', H1. lia. }
  destruct (H (emit (Entered (node_name plan_node)) start)) as (w' & -> & H').
  exists w'. split; [reflexivity|]. rewrite H'. cbn. lia.
Qed.

(** ** A concrete run *)

(** A run that refines once: the search fails, the reflector rewords the
    task, the second search succeeds. *)
Example run_with_one_refinement :
  exists w',
    run_workflow (example_env (ReplyItems [VDict (search_task 1 "first")]))
                 7 "q" 3 start
    = (mkRunResult true
         ("Successfully completed tasks yielded:" ++ newline ++ "1. found")
         [search_task 1 "retry"]
         [mkResult (VInt 1) (VStr "found") "completed"], w')
    /\ entered "refine" w' = 1%nat.
Proof. eexists. split; reflexivity. Qed.

(** ** The empty plan *)

(** C2, as stated, fails: when the planner returns the empty list, the run
    records the error of [execute_step], reports failure, and answers with
    that error message, not with the statement that nothing was planned. *)
Lemma empty_plan_reports_error :
  generate_plan (example_env (ReplyItems [])) "q" = Ok []
  /\ exists w',
       run_workflow (example_env (ReplyItems [])) 4 "q" 3 start
       = (mkRunResult false "Planning failed to produce any tasks." [] [], w').
Proof. split; [reflexivity|]. eexists. reflexivity. Qed.

(** C2, amended: when the planner returns no task items, planning itself
    raises nothing and yields the empty task list; the execution step then
    records the error [Planning failed to produce any tasks.], and the run
    ends unsuccessful with that message as its response.  The run takes the
    four node runs plan, execute, reflect and generate_response. *)
Theorem empty_plan_is_planning_failure
        (E : Env) (q : string) (mi : Z) (w : world) (limit : nat) :
  llm_plan E q = ReplyItems [] ->
  generate_plan E q = Ok []
  /\ exists w',
       run_workflow E (4 + limit) q mi w
       = (mkRunResult false "Planning failed to produce any tasks." [] [], w').
Proof.
  intros Hreply.
  assert (Hplan : generate_plan E q = Ok [])
    by (unfold generate_plan; rewrite Hreply; reflexivity).
  split; [exact Hplan|].
  unfold run_workflow, invoke. cbn [Nat.add run_node].
  unfold plan_step, initial_state. cbn [query]. rewrite Hplan.
  eexists. reflexivity.
Qed.

Lemma empty_plan_is_planning_failure_witness :
  generate_plan (example_env (ReplyItems [])) "q" = Ok []
  /\ exists w',
       run_workflow (example_env (ReplyItems [])) 5 "q" 3 start
       = (mkRunResult false "Planning failed to produce any tasks." [] [], w').
Proof.
  apply (empty_plan_is_planning_failure (example_env (ReplyItems [])) "q" 3 start 1).
  reflexivity.
Defined.

(** ** Tasks that fail the validation of the adapter *)

Lemma calls_emit_slept (n : Z) (w : world) : calls (emit (Slept n) w) = calls w.
Proof. reflexivity. Qed.

Lemma execute_task_body_invalid (E : Env) (t : task) :
  fails_validation t = true ->
  forall w, exists e, execute_task_body E t w = (Raise e, w).
Proof.
  unfold fails_validation, execute_task_body. intros H w.
  destruct (truthy (get "tool" t)) eqn:Htruthy; cbn [negb]; [|eauto].
  cbn [negb orb] in H.
  destruct (get "tool" t) as [| | | |name| |] eqn:Htool; cbn [tools_find];
    eauto.
  cbn [recognized existsb] in H. cbn [tools_get tools].
  destruct (name =? "search")%string.
  - cbn in H. rewrite H. eauto.
  - destruct (name =? "calculator")%string.
    + cbn in H. rewrite H. eauto.
    + eauto.
Qed.

(** A body that raises and leaves the world as it is makes the decorated
    call raise, after sleeps only. *)
Lemma retry_of_raising {A : Type} (E : Env) (f : world -> res A * world) :
  (forall w, exists e, f w = (Raise e, w)) ->
  forall budget attempt_number w,
    exists e w', retry E budget attempt_number f w = (Raise e, w')
                 /\ calls w' = calls w /\ clock w' = clock w.
Proof.
  intros Hf. induction budget as [|budget IH]; intros n w; cbn [retry];
    destruct (Hf w) as [e ->]; destruct (stop_after_attempt <=? n); eauto.
  destruct (IH (n + 1) (emit (Slept (wait_exponential n)) w))
    as (e' & w' & -> & Hc & Hk).
  eauto.
Qed.

(** C3, as stated, fails: for a task without tool the adapter returns no
    result but raises, and it does so after three attempts separated by two
    sleeps. *)
Lemma missing_tool_is_retried_and_raises :
  execute_task (example_env (ReplyItems [])) task_without_tool start
  = (Raise (mkExn RetryError
              "RetryError[Task 1 failed: Task missing tool field]"),
     mkWorld 0 [Slept 2; Slept 2]).
Proof. reflexivity. Qed.

(** C3, amended: for every task whose tool is missing or empty or is not a
    registered capability, or whose description is null, the adapter
    dispatches nothing and returns no result: it raises.  The execution step
    catches the exception and records exactly one result for the task, which
    carries the id of the task and is not completed. *)
Theorem invalid_task_fails_without_dispatch (E : Env) (t : task) (w : world) :
  fails_validation t = true ->
  (exists e w', execute_task E t w = (Raise e, w') /\ calls w' = calls w)
  /\ (exists r w', execute_tasks E [t] w = ([r], w')
                   /\ task_id r = get "id" t
                   /\ status r <> "completed"
                   /\ calls w' = calls w).
Proof.
  intros H.
  destruct (retry_of_raising E (execute_task_body E t)
              (execute_task_body_invalid E t H)
              (Z.to_nat stop_after_attempt) 1 w) as (e & w' & He & Hc & _).
  split; [eauto|].
  cbn [execute_tasks]. unfold execute_task. rewrite He.
  destruct (exn_kind e); eexists _, w'; repeat split; auto; discriminate.
Qed.

Lemma invalid_task_fails_without_dispatch_witness :
  (exists e w',
      execute_task (example_env (ReplyItems [])) task_without_tool start
      = (Raise e, w') /\ calls w' = calls start)
  /\ (exists r w',
         execute_tasks (example_env (ReplyItems [])) [task_without_tool] start
         = ([r], w')
         /\ task_id r = get "id" task_without_tool
         /\ status r <> "completed"
         /\ calls w' = calls start).
Proof.
  apply invalid_task_fails_without_dispatch. reflexivity.
Defined.

(** ** A capability that raises *)

(** One call of the body that ends in the [except Exception] clause returns
    a failed result, so the decorator sees a normal return and stops. *)
Lemma raising_dispatch_returns_failed
      (E : Env) (t : task) (name : string) (f : tool_body) (w w' : world) (e : exn) :
  truthy (get "tool" t) = true ->
  tools_find E (get "tool" t) = Ok (Some (name, f)) ->
  is_none (get "description" t) = false ->
  dispatch E name f (get "description" t) w = (Raise e, w') ->
  exists error_msg,
    execute_task E t w
    = (Ok (mkResult (get_default "id" (VStr "unknown_task") t)
                    (VStr error_msg) "failed"), w').
Proof.
  intros Htool Hfind Hdesc Hdisp.
  assert (Hbody : exists error_msg,
             execute_task_body E t w
             = (Ok (mkResult (get_default "id" (VStr "unknown_task") t)
                             (VStr error_msg) "failed"), w')).
  { unfold execute_task_body. rewrite Htool. cbn [negb]. rewrite Hfind.
    cbn beta iota. rewrite Hdesc, Hdisp. eexists. reflexivity. }
  destruct Hbody as [error_msg Hbody]. exists error_msg.
  unfold execute_task. change (Z.to_nat stop_after_attempt) with 3%nat.
  cbn [retry]. rewrite Hbody. reflexivity.
Qed.

(** C4 at its failing input: the calculator raises on [1/0].  The adapter
    calls the capability once, does not sleep, and returns a failed result
    whose message is that of the generic handler and does not mention
    retries. *)
Theorem division_by_zero_is_not_retried :
  execute_task (example_env (ReplyItems [])) division_by_zero_task start
  = (Ok (mkResult (VInt 1)
           (VStr "Error during execution of task 1 (tool: calculator): division by zero")
           "failed"),
     mkWorld 0 [Evaluated "1/0"; Dispatched "calculator" (VStr "1/0")]).
Proof. reflexivity. Qed.

(** ** What reaches arithmetic evaluation *)

Lemma lstrip_keeps_all (p : ascii -> bool) (s : string) :
  all_chars p s = true -> all_chars p (lstrip s) = true.
Proof.
  induction s as [|c s IH]; cbn; [reflexivity|].
  intros H. destruct (is_space c); [|exact H].
  apply andb_true_iff in H as [_ H]. auto.
Qed.

Lemma rstrip_keeps_all (p : ascii -> bool) (s : string) :
  all_chars p s = true -> all_chars p (rstrip s) = true.
Proof.
  induction s as [|c s IH]; cbn; [reflexivity|].
  intros H. apply andb_true_iff in H as [Hc Hs]. specialize (IH Hs).
  destruct (rstrip s) as [|c' s'].
  - destruct (is_space c); cbn; [reflexivity|now rewrite Hc].
  - cbn [all_chars]. cbn [all_chars] in IH. now rewrite Hc, IH.
Qed.

(** The sanitizer of the planner keeps allowed characters only. *)
Lemma clean_calculator_expression_allowed (expr : string) :
  all_chars allowed (_clean_calculator_expression expr) = true.
Proof.
  unfold _clean_calculator_expression, strip.
  apply rstrip_keeps_all, lstrip_keeps_all, filter_chars_all.
Qed.

Lemma validated_description_is_text (t : task) :
  _validate_task t = true -> is_str (get "description" t) = true.
Proof.
  unfold _validate_task.
  destruct (negb (forallb _ _)); [discriminate|].
  destruct (negb (is_int _ || is_str _)); [discriminate|].
  destruct (is_str (get "description" t)); [reflexivity|discriminate].
Qed.

Lemma extends_safe (w w' : world) : extends w w' -> safe w -> safe w'.
Proof.
  intros (l & Hl & Hf) Hs. unfold safe. rewrite Hl. apply Forall_app. split.
  - eapply Forall_impl; [|exact Hf]. intros [] H; cbn in *; auto.
  - exact Hs.
Qed.

Lemma safe_emit_entered (node : string) (w : world) :
  safe w -> safe (emit (Entered node) w).
Proof. intros H. constructor; [exact I|exact H]. Qed.

Section Evaluation.

Variable E : Env.

Lemma run_node_safe (limit : nat) :
  forall n s w, safe w -> safe (snd (run_node E limit n s w)).
Proof.
  induction limit as [|limit IH]; intros n s w Hsafe; cbn [run_node];
    [exact Hsafe|].
  pose proof (safe_emit_entered (node_name n) w Hsafe) as Hin.
  destruct n.
  - apply IH. exact Hin.
  - pose proof (execute_step_extends E s (emit (Entered (node_name execute_node)) w))
      as Hx.
    destruct (execute_step E s _) as [s1 w1]. cbn [snd] in Hx.
    apply IH. eapply extends_safe; eassumption.
  - pose proof (reflect_step_extends E s (emit (Entered (node_name reflect_node)) w))
      as Hr.
    destruct (reflect_step E s _) as [s1 w1]. cbn [snd] in Hr.
    assert (Hsafe1 : safe w1) by (eapply extends_safe; eassumption).
    destruct (snd (should_continue_decision s1)); apply IH; exact Hsafe1.
  - destruct (refine_step s) as [s1|e]; [apply IH|]; exact Hin.
  - exact Hin.
Qed.

Lemma run_workflow_safe (limit : nat) (q : string) (mi : Z) (w : world)
      (out : RunResult) (w' : world) :
  run_workflow E limit q mi w = (out, w') -> safe w -> safe w'.
Proof.
  unfold run_workflow, invoke. intros Hrun Hsafe.
  pose proof (run_node_safe limit plan_node (initial_state q mi) w Hsafe) as Hr.
  destruct (run_node E limit plan_node (initial_state q mi) w) as [r w1].
  cbn [snd] in Hr.
  destruct r as [final|e]; [|destruct (is_workflow_exception _)];
    injection Hrun as _ <-; exact Hr.
Qed.

Lemma valid_tasks_sanitized (parsed : list value) (t : task) :
  In t (valid_tasks_of E parsed) ->
  get "tool" t = VStr "calculator" ->
  exists d, get "description" t = VStr d
            /\ all_chars allowed d = true /\ d <> "".
Proof.
  induction parsed as [|raw rest IH]; cbn [valid_tasks_of]; [contradiction|].
  intros Hin Htool.
  destruct (_fix_task_format E raw) as [fixed|e]; [|auto].
  destruct (_validate_task fixed) eqn:Hvalid; [|auto].
  destruct (py_eq (get "tool" fixed) (VStr "calculator")) eqn:Hcalc.
  - destruct (get "description" fixed) as [| | | |description| |]; auto.
    destruct (nonempty (_clean_calculator_expression description)) eqn:Hne;
      cbn [negb] in Hin; [|auto].
    destruct Hin as [<-|Hin]; [|auto].
    exists (_clean_calculator_expression description).
    unfold get at 1. rewrite dict_get_set_same.
    repeat split; [apply clean_calculator_expression_allowed|].
    intros Heq. rewrite Heq in Hne. discriminate.
  - destruct Hin as [<-|Hin]; [|auto].
    rewrite Htool in Hcalc. discriminate.
Qed.

End Evaluation.

(** C9: in every run, whatever the planner, the reflector, the refinement
    instructions and the recursion limit, every text handed to [eval]
    consists of the
    characters [0-9 + - * / . ( )] and space; every calculator task of a plan
    has a description sanitized to these characters and not empty; and a
    calculator item whose sanitized description is empty yields no task. *)
Theorem only_allowed_characters_are_evaluated (E : Env) :
  (forall limit q mi w out w',
      run_workflow E limit q mi w = (out, w') -> safe w -> safe w')
  /\ (forall q ts t,
         generate_plan E q = Ok ts -> In t ts ->
         get "tool" t = VStr "calculator" ->
         exists d, get "description" t = VStr d
                   /\ all_chars allowed d = true /\ d <> "")
  /\ (forall raw fixed description rest,
         _fix_task_format E raw = Ok fixed ->
         _validate_task fixed = true ->
         get "tool" fixed = VStr "calculator" ->
         get "description" fixed = VStr description ->
         _clean_calculator_expression description = "" ->
         valid_tasks_of E (raw :: rest) = valid_tasks_of E rest).
Proof.
  split; [|split].
  - intros limit q mi w out w'. apply run_workflow_safe.
  - intros q ts t Hplan Hin Htool. unfold generate_plan in Hplan.
    destruct (llm_plan E q) as [e|parsed]; [discriminate|].
    assert (ts = valid_tasks_of E parsed) as ->.
    { destruct (valid_tasks_of E parsed), parsed; congruence. }
    eapply valid_tasks_sanitized; eassumption.
  - intros raw fixed description rest Hfix Hvalid Htool Hdesc Hclean.
    cbn [valid_tasks_of]. rewrite Hfix, Hvalid, Htool, Hdesc, Hclean.
    reflexivity.
Qed.

Lemma only_allowed_characters_are_evaluated_witness :
  (exists out w',
      run_workflow (example_env plan_with_words) 4 "q" 3 start = (out, w')
      /\ In (Evaluated "2+2") (trace w')
      /\ safe w')
  /\ (generate_plan (example_env plan_with_words) "q" = Ok [calculator_task 1 "2 + 2"]
      /\ exists d, get "description" (calculator_task 1 "2 + 2") = VStr d
                   /\ all_chars allowed d = true /\ d <> "")
  /\ valid_tasks_of (example_env plan_with_words) [VDict (calculator_task 2 "apples")]
     = [].
Proof.
  destruct (only_allowed_characters_are_evaluated (example_env plan_with_words))
    as (Hrun & Hplan & Hdrop).
  split; [|split].
  - eexists _, _. split; [vm_compute; reflexivity|]. split.
    + cbn. auto.
    + apply (Hrun 4%nat "q" 3 start _ _ eq_refl). constructor.
  - split; [reflexivity|].
    eapply (Hplan "q"); [reflexivity|left; reflexivity|reflexivity].
  - eapply (Hdrop _ _ "apples" []); reflexivity.
Defined.

(** ** The rendering of successful results *)







(** The response for the state above, and the rendering of a payload of 600
    characters. *)
Example response_of_state_with_results :
  (exists s',
      generate_response_step (example_env (ReplyItems [])) state_with_results = Ok s'
      /\ final_response s'
         = "Successfully completed tasks yielded:" ++ newline ++ "1. found"
           ++ newline ++ newline ++ "Some tasks encountered issues:"
           ++ newline ++ "Task 2 failed: timeout")
  /\ render_payload (example_env (ReplyItems [])) (VStr (replicate 600 "a"))
     = replicate 500 "a".
Proof. split; [eexists; split; reflexivity|]. vm_compute. reflexivity. Qed.

(** * Further properties *)

(** ** The decision table of the controller *)

(** X1: the controller chooses to refine exactly when no error is recorded,
    the incremented iteration is below the maximum, the verdict does not
    report complete together with success, it is not the case that every
    result is completed while the verdict does not report complete, and the
    verdict carries at least one refinement. *)
Theorem decision_refines_iff (s : WorkflowState) :
  snd (should_continue_decision s) = refine_tasks <->
  error_message s = ""
  /\ iteration s + 1 < max_iterations s
  /\ truthy (reflection_get complete s) && truthy (reflection_get success s) = false
  /\ all_tasks_successful (results s) && negb (truthy (reflection_get complete s))
     = false
  /\ reflection_refinements s <> [].
Proof.
  unfold should_continue_decision.
  cbn [error_message set_iteration max_iterations iteration results].
  change (reflection_get complete (set_iteration (iteration s + 1) s))
    with (reflection_get complete s).
  change (reflection_get success (set_iteration (iteration s + 1) s))
    with (reflection_get success s).
  change (reflection_refinements (set_iteration (iteration s + 1) s))
    with (reflection_refinements s).
  unfold nonempty.
  destruct (String.eqb_spec (error_message s) "") as [He|He]; cbn [negb snd].
  - destruct (Z.leb_spec (max_iterations s) (iteration s + 1)) as [Hm|Hm];
      cbn [snd].
    + split; [discriminate|]. intros (_ & H & _). lia.
    + destruct (truthy (reflection_get complete s)
                && truthy (reflection_get success s)); cbn [snd].
      * split; [discriminate|]. intros (_ & _ & H & _). discriminate.
      * destruct (all_tasks_successful (results s)
                  && negb (truthy (reflection_get complete s))); cbn [snd].
        -- split; [discriminate|]. intros (_ & _ & _ & H & _). discriminate.
        -- destruct (Z.ltb_spec (iteration s + 1) (max_iterations s)) as [Hl|Hl];
             [|lia].
           destruct (reflection_refinements s) as [|r rs]; cbn [andb snd].
           ++ split; [discriminate|]. intros (_ & _ & _ & _ & H). congruence.
           ++ split; [|reflexivity]. intros _. repeat split; auto. discriminate.
  - split; [discriminate|]. intros (H & _). contradiction.
Qed.

(** ** Single refinement instructions *)










Lemma add_step (ts : list task) (c : Z) (tid : value) (d : details) :
  apply_refinement (ts, c) (Refinement (VStr "add") tid d)
  = if details_given d then
      match json_loads d with
      | Some (VDict payload) =>
          let (payload', c') :=
            if negb (has_key "id" payload) || is_none (get "id" payload)
            then (dict_set "id" (VInt c) payload, c + 1)
            else (payload, c) in
          if negb (has_required_fields payload') then Ok (ts, c')
          else Ok ((ts ++ [payload'])%list, c')
      | _ => Ok (ts, c)
      end
    else Ok (ts, c).
Proof.
  unfold apply_refinement.
  change (py_eq (VStr "add") (VStr "remove")) with false.
  change (py_eq (VStr "add") (VStr "modify")) with false.
  change (py_eq (VStr "add") (VStr "add")) with true.
  cbn [andb]. destruct (details_given d); [|reflexivity].
  destruct (json_loads d) as [[]|]; reflexivity.
Qed.

(** What an add does, case by case. *)
Lemma add_outcome (ts : list task) (c : Z) (tid : value) (d : details) :
  exists ts' c',
    apply_refinement (ts, c) (Refinement (VStr "add") tid d) = Ok (ts', c')
    /\ (c' = if adds_without_id (Refinement (VStr "add") tid d)
             then c + 1 else c)
    /\ (ts' = ts
        \/ exists t payload,
             ts' = (ts ++ [t])%list
             /\ has_required_fields t = true
             /\ d = DetailsDecoded (VDict payload)
             /\ t = if negb (has_key "id" payload) || is_none (get "id" payload)
                    then dict_set "id" (VInt c) payload
                    else payload).
Proof.
  rewrite add_step. unfold adds_without_id.
  change (py_eq (VStr "add") (VStr "add")) with true. cbn [andb].
  destruct d as [| |[| | | | | |payload]]; cbn [details_given json_loads];
    try (exists ts, c; split; [reflexivity|]; split; [reflexivity|now left]).
  destruct (negb (has_key "id" payload) || is_none (get "id" payload)) eqn:Hid.
  - destruct (has_required_fields (dict_set "id" (VInt c) payload)) eqn:Hreq;
      cbn [negb].
    + eexists _, _. split; [reflexivity|]. split; [reflexivity|]. right.
      eexists _, payload. rewrite Hid. repeat split. exact Hreq.
    + eexists _, _. split; [reflexivity|]. split; [reflexivity|now left].
  - destruct (has_required_fields payload) eqn:Hreq; cbn [negb].
    + eexists _, _. split; [reflexivity|]. split; [reflexivity|]. right.
      eexists _, payload. rewrite Hid. repeat split. exact Hreq.
    + eexists _, _. split; [reflexivity|]. split; [reflexivity|now left].
Qed.

(** X5: an add never raises and is all or nothing: the task list is either
    unchanged or longer by exactly one task, put last, that has the fields
    id, description and tool; the tasks before it are untouched.  The added
    task is the decoded payload itself when the payload names an id, and the
    payload with the counter as id when it leaves the id out or gives [null]
    for it.  The counter moves by one exactly when the payload is an object
    that does not name an id, whether or not a task is added, and stays as it
    is otherwise. *)
Theorem add_is_all_or_nothing (ts : list task) (c : Z) (tid : value) (d : details) :
  exists ts' c',
    apply_refinement (ts, c) (Refinement (VStr "add") tid d) = Ok (ts', c')
    /\ (c' = if adds_without_id (Refinement (VStr "add") tid d)
             then c + 1 else c)
    /\ (ts' = ts
        \/ exists t payload,
             ts' = (ts ++ [t])%list
             /\ has_required_fields t = true
             /\ d = DetailsDecoded (VDict payload)
             /\ t = if negb (has_key "id" payload) || is_none (get "id" payload)
                    then dict_set "id" (VInt c) payload
                    else payload).
Proof. apply add_outcome. Qed.

(** ** Whole refinement rounds *)

(** Only a text equals a text. *)
Lemma py_eq_text (a : value) (s : string) :
  py_eq a (VStr s) = true -> a = VStr s.
Proof.
  destruct a; cbn; try discriminate.
  intros H. apply String.eqb_eq in H. now subst.
Qed.

Lemma skipped_step (ts : list task) (c : Z) (r : refinement) :
  is_skipped r = true -> apply_refinement (ts, c) r = Ok (ts, c).
Proof.
  destruct r as [v|action tid d]; [discriminate|]. cbn [is_skipped].
  unfold apply_refinement.
  destruct (py_eq action (VStr "remove")) eqn:Hrem.
  - apply py_eq_text in Hrem. subst action. intros ->. reflexivity.
  - cbn [andb]. destruct (py_eq action (VStr "modify")) eqn:Hmod.
    + apply py_eq_text in Hmod. subst action.
      destruct (is_none tid); cbn [negb andb orb].
      * intros _. reflexivity.
      * destruct d; try discriminate; reflexivity.
    + cbn [andb]. destruct (py_eq action (VStr "add")); cbn [andb]; [|reflexivity].
      destruct d as [| |[]]; try discriminate; reflexivity.
Qed.

Lemma skipped_steps (rs : list refinement) (ts : list task) (c : Z) :
  forallb is_skipped rs = true -> apply_refinements (ts, c) rs = Ok (ts, c).
Proof.
  induction rs as [|r rs IH]; cbn [apply_refinements forallb]; [reflexivity|].
  intros H. apply andb_true_iff in H as [Hr Hrs].
  rewrite (skipped_step ts c r Hr). auto.
Qed.

Lemma set_tasks_same (s : WorkflowState) : set_tasks (tasks s) s = s.
Proof. destruct s. reflexivity. Qed.

(** X6: a round whose instructions are all malformed (unknown action, remove
    or modify without task id, modify or add with missing, empty or
    undecodable details, add whose payload is not an object) raises nothing
    and leaves the task list as it was.  With no instruction at all the
    whole state is returned unchanged; otherwise results, reflection and
    error message are reset. *)
Theorem malformed_round_keeps_tasks (s : WorkflowState) :
  forallb is_skipped (reflection_refinements s) = true ->
  exists s',
    refine_step s = Ok s'
    /\ tasks s' = tasks s
    /\ (reflection_refinements s = [] -> s' = s)
    /\ (reflection_refinements s <> [] ->
        results s' = [] /\ reflection s' = None /\ error_message s' = "").
Proof.
  intros Hall. unfold refine_step.
  destruct (reflection_refinements s) as [|r rs] eqn:Hrs.
  - eexists. split; [reflexivity|]. split; [reflexivity|].
    split; [intros _; apply set_tasks_same|congruence].
  - rewrite (skipped_steps (r :: rs) _ _ Hall).
    eexists. split; [reflexivity|]. split; [reflexivity|].
    split; [discriminate|]. intros _. repeat split.
Qed.

Lemma malformed_round_keeps_tasks_witness :
  exists s',
    refine_step
      (mkState "q" [search_task 1 "a"] [mkResult (VInt 1) (VStr "none") "failed"]
               (Some (mkVerdict (VBool false) (VBool false) (VStr "again")
                        [Refinement (VStr "replace") (VInt 1) DetailsFalsy;
                         Refinement (VStr "remove") VNone DetailsFalsy;
                         Refinement (VStr "add") VNone DetailsUndecodable]))
               "" 1 3 "") = Ok s'
    /\ tasks s' = [search_task 1 "a"]
    /\ results s' = [].
Proof.
  destruct (malformed_round_keeps_tasks
              (mkState "q" [search_task 1 "a"]
                       [mkResult (VInt 1) (VStr "none") "failed"]
                       (Some (mkVerdict (VBool false) (VBool false) (VStr "again")
                                [Refinement (VStr "replace") (VInt 1) DetailsFalsy;
                                 Refinement (VStr "remove") VNone DetailsFalsy;
                                 Refinement (VStr "add") VNone DetailsUndecodable]))
                       "" 1 3 "") eq_refl)
    as (s' & Heq & Htasks & _ & Hclear).
  exists s'. split; [exact Heq|]. split; [exact Htasks|].
  apply Hclear. discriminate.
Defined.

Lemma modify_first_length (tid details : value) (ts : list task) :
  List.length (modify_first tid details ts) = List.length ts.
Proof.
  induction ts as [|t ts IH]; cbn; [reflexivity|].
  destruct (py_eq (get "id" t) tid); cbn; [reflexivity|now rewrite IH].
Qed.

Lemma refinement_growth (ts ts' : list task) (c c' : Z) (r : refinement) :
  apply_refinement (ts, c) r = Ok (ts', c') ->
  (List.length ts' <= List.length ts + (if is_action "add" r then 1 else 0))%nat
  /\ c <= c' <= c + (if is_action "add" r then 1 else 0).
Proof.
  destruct r as [v|action tid d]; [discriminate|]. cbn [is_action].
  destruct (py_eq action (VStr "add")) eqn:Hadd.
  - cbv iota. apply py_eq_text in Hadd. subst action. intros H.
    destruct (add_outcome ts c tid d) as (ts1 & c1 & Heq & Hc & Hts).
    rewrite Heq in H. injection H as <- <-.
    split; [|destruct (adds_without_id _); lia].
    destruct Hts as [->|(t & payload & -> & _)]; [lia|].
    rewrite length_app. cbn. lia.
  - cbv iota. unfold apply_refinement. rewrite Hadd. cbn [andb].
    destruct (py_eq action (VStr "remove") && negb (is_none tid)).
    + intros [= <- <-]. split; [|lia].
      rewrite Nat.add_0_r. apply filter_length_le.
    + destruct (py_eq action (VStr "modify") && negb (is_none tid)
                && details_given d).
      * destruct (json_loads d); intros [= <- <-];
          [rewrite modify_first_length|]; split; lia.
      * intros [= <- <-]. split; lia.
Qed.

(** X7: a round that is carried out adds at most one task per add
    instruction, so the task list grows by at most the number of adds and
    never grows in a round without adds; the id counter never decreases and
    moves by at most one per add. *)
Theorem round_growth_bounded (rs : list refinement) :
  forall (ts ts' : list task) (c c' : Z),
    apply_refinements (ts, c) rs = Ok (ts', c') ->
    (List.length ts' <= List.length ts + count_adds rs)%nat
    /\ c <= c' <= c + Z.of_nat (count_adds rs).
Proof.
  unfold count_adds.
  induction rs as [|r rs IH]; intros ts ts' c c'; cbn [apply_refinements].
  - intros [= <- <-]. cbn. split; lia.
  - destruct (apply_refinement (ts, c) r) as [[ts1 c1]|e] eqn:Hr; [|discriminate].
    intros Hrs. apply refinement_growth in Hr as [Hl Hc].
    apply IH in Hrs as [Hl' Hc']. cbn [filter].
    destruct (is_action "add" r); cbn [List.length]; split; lia.
Qed.

Lemma round_growth_bounded_witness :
  exists ts' c',
    apply_refinements ([search_task 1 "a"], 2) explicit_then_omitted = Ok (ts', c')
    /\ (List.length ts' <= 1 + count_adds explicit_then_omitted)%nat
    /\ 2 <= c' <= 2 + Z.of_nat (count_adds explicit_then_omitted).
Proof.
  eexists _, _. split; [reflexivity|].
  apply (round_growth_bounded explicit_then_omitted [search_task 1 "a"]).
  reflexivity.
Defined.

(** X8: a refinement that is not a dictionary makes the refinement step
    raise [AttributeError], wherever it stands in the list: the instructions
    before it are carried out, none of them raises, and no state is
    returned. *)
Theorem non_dictionary_refinement_raises (s : WorkflowState) (v : value) :
  In (RefinementNotDict v) (reflection_refinements s) ->
  exists e, refine_step s = Raise e /\ exn_kind e = AttributeError.
Proof.
  intros Hin. unfold refine_step.
  destruct (reflection_refinements s) as [|r0 rs0] eqn:Hrs; [contradiction|].
  assert (H : forall rs st, In (RefinementNotDict v) rs ->
                            exists e, apply_refinements st rs = Raise e
                                      /\ exn_kind e = AttributeError).
  { clear. induction rs as [|r rs IH]; intros st Hin; [contradiction|].
    cbn [apply_refinements].
    destruct r as [v'|action tid d].
    - destruct st. cbn. eauto.
    - destruct Hin as [Heq|Hin]; [discriminate|].
      destruct (apply_refinement_total st (Refinement action tid d) eq_refl)
        as [st' ->].
      auto. }
  destruct (H (r0 :: rs0) (tasks s, initial_id_counter (tasks s)) Hin)
    as (e & -> & He).
  eauto.
Qed.

Lemma non_dictionary_refinement_raises_witness :
  exists e,
    refine_step
      (mkState "q" [search_task 1 "a"] [mkResult (VInt 1) (VStr "none") "failed"]
               (Some (mkVerdict (VBool false) (VBool false) (VStr "again")
                        [Refinement (VStr "remove") (VInt 1) DetailsFalsy;
                         RefinementNotDict (VStr "retry the search")]))
               "" 1 3 "") = Raise e
    /\ exn_kind e = AttributeError.
Proof.
  apply (non_dictionary_refinement_raises _ (VStr "retry the search")).
  right. left. reflexivity.
Defined.

(** ** The adapter and its decorator *)

Section Adapter.

Variable E : Env.

Lemma retry_raises_retry_error {A : Type} (f : world -> res A * world) :
  forall budget attempt_number w e w',
    retry E budget attempt_number f w = (Raise e, w') ->
    exn_kind e = RetryError.
Proof.
  induction budget as [|budget IH]; intros n w e w'; cbn [retry];
    destruct (f w) as [[a|e0] w0]; try discriminate;
    destruct (stop_after_attempt <=? n); try (intros [= <- _]; reflexivity).
  apply IH.
Qed.

Lemma retry_returns_from_body {A : Type} (f : world -> res A * world) :
  forall budget attempt_number w a w',
    retry E budget attempt_number f w = (Ok a, w') ->
    exists w0, f w0 = (Ok a, w').
Proof.
  induction budget as [|budget IH]; intros n w a w'; cbn [retry];
    destruct (f w) as [[a0|e0] w0] eqn:Hf;
    try (intros [= <- <-]; eauto);
    destruct (stop_after_attempt <=? n); try discriminate.
  apply IH.
Qed.

Lemma execute_task_body_status (t : task) (w : world) (r : Result) (w' : world) :
  execute_task_body E t w = (Ok r, w') ->
  task_id r = get_default "id" (VStr "unknown_task") t
  /\ (status r = "completed" \/ status r = "failed").
Proof.
  unfold execute_task_body.
  destruct (truthy (get "tool" t)); cbn [negb]; [|discriminate].
  destruct (tools_find E (get "tool" t)) as [[[name f]|]|e]; try discriminate.
  destruct (is_none (get "description" t)); [discriminate|].
  destruct (dispatch E name f (get "description" t) w) as [[v|e] w1];
    intros [= <- _]; cbn; auto.
Qed.

(** X9: the adapter lets one kind of exception out, [RetryError]; so the
    handler for [TaskExecutionError] of the execution step is never taken,
    and every result of a round has the status completed, failed or
    failed_unexpectedly, never failed_critically. *)
Theorem adapter_raises_retry_error_only (ts : list task) (w : world) :
  (forall t w0 e w', execute_task E t w0 = (Raise e, w') -> exn_kind e = RetryError)
  /\ Forall (fun r => is_result_status (status r) = true)
            (fst (execute_tasks E ts w)).
Proof.
  assert (Hraise : forall t w0 e w',
             execute_task E t w0 = (Raise e, w') -> exn_kind e = RetryError).
  { intros t w0 e w'. apply retry_raises_retry_error. }
  split; [exact Hraise|].
  revert w. induction ts as [|t ts IH]; intros w; cbn [execute_tasks fst];
    [constructor|].
  destruct (execute_task E t w) as [[r|e] w1] eqn:Ht.
  - specialize (IH w1). destruct (execute_tasks E ts w1) as [rs w2].
    cbn [fst] in *. constructor; [|exact IH].
    apply retry_returns_from_body in Ht as [w0 Hbody].
    apply execute_task_body_status in Hbody as [_ [->| ->]]; reflexivity.
  - specialize (IH w1). destruct (execute_tasks E ts w1) as [rs w2].
    cbn [fst] in *. constructor; [|exact IH].
    rewrite (Hraise _ _ _ _ Ht). reflexivity.
Qed.

(** X10: the execution step records exactly one result per task, in the
    order of the tasks; the result of a task that has an id carries that
    id, and the result of a task without id carries [unknown_task] or
    [None]. *)
Theorem one_result_per_task (ts : list task) (w : world) :
  Forall2 (fun t r =>
             (has_key "id" t = true -> task_id r = get "id" t)
             /\ (has_key "id" t = false ->
                 task_id r = VStr "unknown_task" \/ task_id r = VNone))
          ts (fst (execute_tasks E ts w)).
Proof.
  revert w. induction ts as [|t ts IH]; intros w; cbn [execute_tasks fst];
    [constructor|].
  destruct (execute_task E t w) as [[r|e] w1] eqn:Ht;
    specialize (IH w1); destruct (execute_tasks E ts w1) as [rs w2];
    cbn [fst] in *; (constructor; [|exact IH]).
  - apply retry_returns_from_body in Ht as [w0 Hbody].
    apply execute_task_body_status in Hbody as [-> _].
    unfold has_key, get, get_default. destruct (dict_get "id" t).
    + split; [reflexivity|discriminate].
    + split; [discriminate|]. intros _. now left.
  - unfold has_key, get.
    destruct (exn_kind e); cbn [task_id]; destruct (dict_get "id" t);
      (split; [try reflexivity; discriminate|]);
      intros H; try discriminate; now right.
Qed.

End Adapter.

Section AdapterEffects.

Variable E : Env.

Lemma passes_validation (t : task) :
  fails_validation t = false ->
  truthy (get "tool" t) = true
  /\ is_none (get "description" t) = false
  /\ exists name f, tools_find E (get "tool" t) = Ok (Some (name, f))
                    /\ tools_get name (tools E) = Some f.
Proof.
  unfold fails_validation. intros H.
  apply orb_false_iff in H as [H Hdesc]. apply orb_false_iff in H as [Htr Hrec].
  apply negb_false_iff in Htr, Hrec.
  split; [exact Htr|]. split; [exact Hdesc|].
  destruct (get "tool" t) as [| | | |name| |]; try discriminate.
  cbn [recognized existsb] in Hrec. cbn [tools_find tools tools_get].
  destruct (name =? "search")%string eqn:Hs.
  - exists name, (search E). rewrite Hs. split; reflexivity.
  - destruct (name =? "calculator")%string eqn:Hc.
    + exists name, (calculator E). rewrite Hs, Hc. split; reflexivity.
    + cbn in Hrec. discriminate.
Qed.

Lemma search_effects (q : string) (w : world) :
  trace (snd (search E q w)) = trace w.
Proof.
  unfold search. destruct (search_service E (clock w) q) as [v|e];
    [reflexivity|]. destruct (exn_kind e); reflexivity.
Qed.

Lemma calculator_effects (expression : string) (w : world) :
  trace (snd (calculator E expression w)) = trace w
  \/ exists e, trace (snd (calculator E expression w)) = Evaluated e :: trace w.
Proof.
  unfold calculator.
  destruct (negb (all_chars allowed expression)); [now left|].
  destruct (negb (nonempty (remove_spaces expression))); [now left|].
  destruct (100 <? String.length (remove_spaces expression))%nat; [now left|].
  right. eexists. reflexivity.
Qed.

Lemma tool_effects (name : string) (f : tool_body) (text : string) (w : world) :
  tools_get name (tools E) = Some f ->
  dispatch_count (snd (f text w)) = dispatch_count w
  /\ sleeps (snd (f text w)) = sleeps w.
Proof.
  cbn [tools tools_get]. unfold dispatch_count, sleeps.
  destruct (name =? "search")%string.
  - intros [= <-]. rewrite search_effects. auto.
  - destruct (name =? "calculator")%string; [|discriminate].
    intros [= <-].
    destruct (calculator_effects text w) as [->|[e ->]]; auto.
Qed.

Lemma dispatch_effects (name : string) (f : tool_body) (d : value) (w : world) :
  tools_get name (tools E) = Some f ->
  dispatch_count (snd (dispatch E name f d w)) = S (dispatch_count w)
  /\ sleeps (snd (dispatch E name f d w)) = sleeps w.
Proof.
  intros Hf. unfold dispatch.
  assert (Hw : forall text,
             dispatch_count (snd (f text (emit (Dispatched name d) w)))
             = S (dispatch_count w)
             /\ sleeps (snd (f text (emit (Dispatched name d) w))) = sleeps w).
  { intros text.
    destruct (tool_effects name f text (emit (Dispatched name d) w) Hf)
      as [-> ->]. split; reflexivity. }
  destruct d; try apply Hw;
    destruct (tool_input E _) as [text|e]; try apply Hw; split; reflexivity.
Qed.

(** X11: the adapter never dispatches a task twice.  A task that passes the
    validation is dispatched exactly once, the adapter does not sleep and
    returns a result; a task that fails it is not dispatched, and the
    adapter raises after two sleeps of 2 seconds. *)
Theorem adapter_dispatches_at_most_once (t : task) (w : world) :
  (fails_validation t = true
   /\ exists e, execute_task E t w
                = (Raise e, emit (Slept 2) (emit (Slept 2) w)))
  \/ (fails_validation t = false
      /\ exists r w', execute_task E t w = (Ok r, w')
                      /\ dispatch_count w' = S (dispatch_count w)
                      /\ sleeps w' = sleeps w).
Proof.
  destruct (fails_validation t) eqn:Hv; [left|right]; (split; [reflexivity|]).
  - pose proof (execute_task_body_invalid E t Hv) as Hbody.
    unfold execute_task. change (Z.to_nat stop_after_attempt) with 3%nat.
    cbn [retry].
    destruct (Hbody w) as [e1 ->].
    change (stop_after_attempt <=? 1) with false. cbv iota.
    change (wait_exponential 1) with 2.
    destruct (Hbody (emit (Slept 2) w)) as [e2 ->].
    change (stop_after_attempt <=? 1 + 1) with false. cbv iota.
    change (wait_exponential (1 + 1)) with 2.
    destruct (Hbody (emit (Slept 2) (emit (Slept 2) w))) as [e3 ->].
    change (stop_after_attempt <=? 1 + 1 + 1) with true. cbv iota.
    eexists. reflexivity.
  - destruct (passes_validation t Hv) as (Htr & Hdesc & name & f & Hfind & Hget).
    pose proof (dispatch_effects name f (get "description" t) w Hget) as [Hd Hs].
    unfold execute_task. change (Z.to_nat stop_after_attempt) with 3%nat.
    cbn [retry]. unfold execute_task_body.
    rewrite Htr. cbn [negb]. rewrite Hfind. cbv iota beta. rewrite Hdesc.
    destruct (dispatch E name f (get "description" t) w) as [[v|e] w'];
      cbn [snd] in *; eexists _, w'; (split; [reflexivity|]); auto.
Qed.

End AdapterEffects.

(** X12: the wait between two attempts lies between 2 and 10 seconds for
    every attempt number from 1 on, never decreases with the attempt number,
    is 2 after the first and the second attempt and 10 from the fifth on. *)
Theorem wait_exponential_bounds (n m : Z) :
  1 <= n -> n <= m ->
  2 <= wait_exponential n <= 10
  /\ wait_exponential n <= wait_exponential m
  /\ (n <= 2 -> wait_exponential n = 2)
  /\ (5 <= n -> wait_exponential n = 10).
Proof.
  intros Hn Hm. unfold wait_exponential.
  assert (Hpow : 2 ^ (n - 1) <= 2 ^ (m - 1))
    by (apply Z.pow_le_mono_r; lia).
  split; [lia|]. split; [lia|]. split.
  - intros H2. assert (n = 1 \/ n = 2) as [-> | ->] by lia; reflexivity.
  - intros H5. assert (2 ^ 4 <= 2 ^ (n - 1)) by (apply Z.pow_le_mono_r; lia).
    change (2 ^ 4) with 16 in *. lia.
Qed.

Lemma wait_exponential_bounds_witness :
  2 <= wait_exponential 3 <= 10
  /\ wait_exponential 3 <= wait_exponential 4
  /\ (3 <= 2 -> wait_exponential 3 = 2)
  /\ (5 <= 3 -> wait_exponential 3 = 10).
Proof. apply wait_exponential_bounds; lia. Defined.

(** ** The execution step *)

Lemma execute_tasks_length (E : Env) (ts : list task) :
  forall w, List.length (fst (execute_tasks E ts w)) = List.length ts.
Proof.
  induction ts as [|t ts IH]; intros w; cbn [execute_tasks fst]; [reflexivity|].
  destruct (execute_task E t w) as [r w1]. specialize (IH w1).
  destruct (execute_tasks E ts w1) as [rs w2]. cbn [fst List.length] in *.
  now rewrite IH.
Qed.

Lemma execute_step_facts (E : Env) (s : WorkflowState) (w : world) :
  let s' := fst (execute_step E s w) in
  query s' = query s /\ tasks s' = tasks s /\ reflection s' = reflection s
  /\ final_response s' = final_response s
  /\ iteration s' = iteration s /\ max_iterations s' = max_iterations s
  /\ List.length (results s') = List.length (tasks s)
  /\ (error_message s' = error_message s
      \/ (error_message s = "" /\ tasks s = []
          /\ error_message s' = "Planning failed to produce any tasks."))
  /\ (error_message s' <> "" \/ results s' <> []).
Proof.
  unfold execute_step. destruct (tasks s) as [|t ts] eqn:Hts.
  - unfold nonempty. cbn [error_message set_results].
    destruct (String.eqb_spec (error_message s) "") as [He|He]; cbn [negb fst].
    + repeat split; auto. left. discriminate.
    + repeat split; auto.
  - pose proof (execute_tasks_length E (t :: ts) w) as Hlen.
    destruct (execute_tasks E (t :: ts) w) as [rs w']. cbn [fst] in *.
    repeat split; auto. right. destruct rs; [discriminate|discriminate].
Qed.

(** X13: the execution step changes the results and nothing else, but for an
    empty task list without error, where it records that planning produced
    no tasks.  It never overwrites an error message, gives as many results
    as there are tasks, and leaves a state with an error or with at least
    one result. *)
Theorem execute_step_frame (E : Env) (s : WorkflowState) (w : world) :
  let s' := fst (execute_step E s w) in
  query s' = query s /\ tasks s' = tasks s /\ reflection s' = reflection s
  /\ final_response s' = final_response s
  /\ iteration s' = iteration s /\ max_iterations s' = max_iterations s
  /\ List.length (results s') = List.length (tasks s)
  /\ (error_message s' = error_message s
      \/ (error_message s = "" /\ tasks s = []
          /\ error_message s' = "Planning failed to produce any tasks."))
  /\ (error_message s' <> "" \/ results s' <> []).
Proof. apply execute_step_facts. Qed.

(** ** The calculator *)

Lemma remove_spaces_no_space (s : string) :
  all_chars (fun c => negb (Ascii.eqb c " "%char)) (remove_spaces s) = true.
Proof. apply filter_chars_all. Qed.

(** X14: the calculator either raises [ValueError] without evaluating, or
    evaluates the expression with its spaces removed and returns or raises
    what the evaluation does.  It evaluates exactly when every character of
    the expression is allowed and between 1 and 100 characters remain
    without the spaces; the text evaluated holds allowed characters only and
    no space. *)
Theorem calculator_evaluates_bounded_text
        (E : Env) (expression : string) (w : world) :
  let cleaned := remove_spaces expression in
  let accepted :=
    (all_chars allowed expression
     && (1 <=? String.length cleaned)%nat
     && (String.length cleaned <=? 100)%nat) in
  (accepted = false
   /\ exists e, calculator E expression w = (Raise e, w)
                /\ exn_kind e = ValueError)
  \/ (accepted = true
      /\ calculator E expression w = (py_eval E cleaned, emit (Evaluated cleaned) w)
      /\ all_chars allowed cleaned = true
      /\ all_chars (fun c => negb (Ascii.eqb c " "%char)) cleaned = true).
Proof.
  cbv zeta. unfold calculator.
  destruct (all_chars allowed expression) eqn:Hall; cbn [negb andb];
    [|left; split; [reflexivity|eexists; split; reflexivity]].
  unfold nonempty.
  destruct (remove_spaces expression) as [|c rest] eqn:Hclean.
  - left. split; [reflexivity|]. eexists. split; reflexivity.
  - change (negb (negb (String c rest =? "")%string)) with false. cbv iota.
    change (1 <=? String.length (String c rest))%nat with true. cbn [andb].
    destruct (Nat.ltb_spec 100 (String.length (String c rest))) as [Hlong|Hshort].
    + left. split; [apply Nat.leb_gt; exact Hlong|].
      eexists. split; reflexivity.
    + right. split; [apply Nat.leb_le; exact Hshort|].
      split; [reflexivity|]. rewrite <- Hclean. split.
      * unfold remove_spaces. now apply filter_chars_keeps_all.
      * apply remove_spaces_no_space.
Qed.

(** ** The planner *)

Lemma has_key_set (k k' : string) (v : value) (d : pydict) :
  has_key k (dict_set k' v d) = has_key k d || String.eqb k k'.
Proof.
  unfold has_key. destruct (String.eqb_spec k k') as [->|Hne].
  - rewrite dict_get_set_same. now rewrite orb_true_r.
  - rewrite dict_get_set_other by (now apply String.eqb_neq).
    now rewrite orb_false_r.
Qed.

Lemma get_set_other (k k' : string) (v : value) (d : pydict) :
  String.eqb k k' = false -> get k (dict_set k' v d) = get k d.
Proof. intros H. unfold get. now rewrite dict_get_set_other. Qed.

(** A validated task stays valid when its description is replaced by a
    text. *)
Lemma validate_after_cleaning (t : task) (text : string) :
  _validate_task t = true ->
  _validate_task (dict_set "description" (VStr text) t) = true.
Proof.
  unfold _validate_task. cbn [required_keys forallb].
  rewrite !has_key_set, !get_set_other by reflexivity.
  replace (get "description" (dict_set "description" (VStr text) t))
    with (VStr text) by (unfold get; now rewrite dict_get_set_same).
  change ("id" =? "description")%string with false.
  change ("description" =? "description")%string with true.
  change ("tool" =? "description")%string with false.
  rewrite !orb_false_r, orb_true_r.
  destruct (has_key "id" t); [|discriminate].
  destruct (has_key "description" t); [|discriminate].
  destruct (has_key "tool" t); [|discriminate]. cbn [andb negb].
  destruct (is_int (get "id" t) || is_str (get "id" t)); [|discriminate].
  cbn [negb is_str].
  destruct (is_str (get "description" t)); [|discriminate]. cbn [negb].
  rewrite get_set_other by reflexivity. auto.
Qed.

Lemma valid_tasks_validated (E : Env) (parsed : list value) :
  Forall (fun t => _validate_task t = true) (valid_tasks_of E parsed)
  /\ (List.length (valid_tasks_of E parsed) <= List.length parsed)%nat.
Proof.
  induction parsed as [|raw rest [IH1 IH2]]; cbn [valid_tasks_of List.length].
  - split; [constructor|lia].
  - destruct (_fix_task_format E raw) as [fixed|e]; [|split; [auto|lia]].
    destruct (_validate_task fixed) eqn:Hvalid; [|split; [auto|lia]].
    destruct (py_eq (get "tool" fixed) (VStr "calculator")).
    + destruct (get "description" fixed); try (split; [auto|lia]).
      destruct (negb (nonempty (_clean_calculator_expression s)));
        [split; [auto|lia]|].
      split; [|cbn [List.length]; lia].
      constructor; [|exact IH1]. now apply validate_after_cleaning.
    + split; [|cbn [List.length]; lia]. constructor; assumption.
Qed.

(** X15: every task of a plan passes the planner's own validation, also
    after the sanitizing of calculator descriptions: it has the fields id,
    description and tool, its id is an integer or a text, its description is
    a text and its tool is search or calculator.  A plan has at most as
    many tasks as the language model gave items. *)
Theorem plan_tasks_are_valid (E : Env) (q : string) (ts : list task) :
  generate_plan E q = Ok ts ->
  Forall (fun t =>
            _validate_task t = true
            /\ has_required_fields t = true
            /\ (is_int (get "id" t) || is_str (get "id" t)) = true
            /\ is_str (get "description" t) = true
            /\ (get "tool" t = VStr "search" \/ get "tool" t = VStr "calculator"))
         ts
  /\ exists parsed, llm_plan E q = ReplyItems parsed
                    /\ (List.length ts <= List.length parsed)%nat.
Proof.
  unfold generate_plan. destruct (llm_plan E q) as [e|parsed]; [discriminate|].
  intros H.
  assert (ts = valid_tasks_of E parsed) as ->
    by (destruct (valid_tasks_of E parsed), parsed; congruence).
  destruct (valid_tasks_validated E parsed) as [Hv Hl].
  split; [|eauto].
  eapply Forall_impl; [|exact Hv]. cbv beta. intros t Ht.
  split; [exact Ht|]. revert Ht. unfold _validate_task, has_required_fields.
  change required_keys with ["id"; "description"; "tool"].
  destruct (forallb (fun field => has_key field t) ["id"; "description"; "tool"]);
    [|discriminate]. cbn [negb].
  destruct (is_int (get "id" t) || is_str (get "id" t)); [|discriminate].
  cbn [negb].
  destruct (is_str (get "description" t)); [|discriminate]. cbn [negb].
  destruct (get "tool" t) as [| | | |tool| |]; try discriminate.
  cbn [allowed_tools existsb]. intros H'.
  repeat split.
  apply orb_true_iff in H' as [H'|H'];
    [left|right; apply orb_true_iff in H' as [H'|H']; [|discriminate]];
    apply String.eqb_eq in H'; now subst.
Qed.

Lemma plan_tasks_are_valid_witness :
  Forall (fun t =>
            _validate_task t = true
            /\ has_required_fields t = true
            /\ (is_int (get "id" t) || is_str (get "id" t)) = true
            /\ is_str (get "description" t) = true
            /\ (get "tool" t = VStr "search" \/ get "tool" t = VStr "calculator"))
         [calculator_task 1 "2 + 2"]
  /\ exists parsed, llm_plan (example_env plan_with_words) "q" = ReplyItems parsed
                    /\ (List.length [calculator_task 1 "2 + 2"]
                        <= List.length parsed)%nat.
Proof.
  apply (plan_tasks_are_valid (example_env plan_with_words) "q"). reflexivity.
Defined.

(** X16: planning yields the empty plan exactly when the language model
    gave an empty list; when it gave items and none of them survives
    validation, planning raises [PlanningError]. *)
Theorem empty_plan_iff_no_items (E : Env) (q : string) :
  (generate_plan E q = Ok [] <-> llm_plan E q = ReplyItems [])
  /\ (forall parsed,
         llm_plan E q = ReplyItems parsed -> parsed <> [] ->
         valid_tasks_of E parsed = [] ->
         generate_plan E q
         = Raise (mkExn PlanningError "No valid tasks derived from LLM response.")).
Proof.
  unfold generate_plan. destruct (llm_plan E q) as [e|parsed].
  - split; [split; discriminate|]. discriminate.
  - split.
    + split.
      * destruct (valid_tasks_of E parsed) eqn:Hv, parsed; try discriminate;
          reflexivity.
      * intros [= ->]. reflexivity.
    + intros parsed' [= <-] Hne Hv. rewrite Hv.
      destruct parsed; [contradiction|reflexivity].
Qed.

Lemma filter_chars_id (p : ascii -> bool) (s : string) :
  all_chars p s = true -> filter_chars p s = s.
Proof.
  induction s as [|c s IH]; cbn; [reflexivity|].
  intros H. apply andb_true_iff in H as [Hc Hs]. now rewrite Hc, IH.
Qed.

Lemma rstrip_idempotent (s : string) : rstrip (rstrip s) = rstrip s.
Proof.
  induction s as [|c s IH]; cbn [rstrip]; [reflexivity|].
  destruct (rstrip s) as [|c' kept] eqn:Hk.
  - destruct (is_space c) eqn:Hc; cbn [rstrip]; [reflexivity|].
    now rewrite Hc.
  - cbn [rstrip]. cbn [rstrip] in IH. rewrite IH. reflexivity.
Qed.

Lemma lstrip_starts_clean (s : string) : starts_clean (lstrip s).
Proof.
  induction s as [|c s IH]; cbn; [exact I|].
  destruct (is_space c) eqn:Hc; [exact IH|exact Hc].
Qed.

Lemma lstrip_of_clean (s : string) : starts_clean s -> lstrip s = s.
Proof. destruct s as [|c s]; cbn; [reflexivity|]. now intros ->. Qed.

Lemma rstrip_starts_clean (s : string) : starts_clean s -> starts_clean (rstrip s).
Proof.
  destruct s as [|c s]; cbn [rstrip starts_clean]; [auto|].
  intros Hc. destruct (rstrip s); cbn; [rewrite Hc|]; exact Hc.
Qed.

Lemma strip_idempotent (s : string) : strip (strip s) = strip s.
Proof.
  unfold strip.
  rewrite (lstrip_of_clean (rstrip (lstrip s)))
    by (apply rstrip_starts_clean, lstrip_starts_clean).
  apply rstrip_idempotent.
Qed.

(** X17: sanitizing a calculator expression twice gives what sanitizing it
    once gives, and a sanitized expression holds allowed characters only and
    does not start with a space. *)
Theorem clean_calculator_expression_idempotent (expr : string) :
  _clean_calculator_expression (_clean_calculator_expression expr)
  = _clean_calculator_expression expr
  /\ all_chars allowed (_clean_calculator_expression expr) = true
  /\ starts_clean (_clean_calculator_expression expr).
Proof.
  split; [|split].
  - unfold _clean_calculator_expression at 1.
    rewrite filter_chars_id by apply clean_calculator_expression_allowed.
    unfold _clean_calculator_expression. apply strip_idempotent.
  - apply clean_calculator_expression_allowed.
  - unfold _clean_calculator_expression, strip.
    apply rstrip_starts_clean, lstrip_starts_clean.
Qed.

Lemma dict_get_snoc (k k0 : string) (v0 : value) (l : pydict) :
  dict_get k (l ++ [(k0, v0)])%list
  = match dict_get k l with
    | Some v => Some v
    | None => if String.eqb k k0 then Some v0 else None
    end.
Proof.
  induction l as [|[k1 v1] l IH]; cbn; [reflexivity|].
  destruct (k =? k1)%string; [reflexivity|exact IH].
Qed.

Lemma dict_get_absent (k : string) (d : pydict) :
  ~ In k (map fst d) -> dict_get k d = None.
Proof.
  induction d as [|[k0 v0] d IH]; cbn; [reflexivity|].
  intros H. destruct (String.eqb_spec k k0) as [->|Hne].
  - exfalso. apply H. now left.
  - apply IH. intros Hin. apply H. now right.
Qed.

(** In a dictionary, where no key occurs twice, the first and the last
    binding of a key are the same. *)
Lemma dict_get_rev (k : string) (d : pydict) :
  NoDup (map fst d) -> dict_get k (rev d) = dict_get k d.
Proof.
  induction d as [|[k0 v0] d IH]; cbn [rev map fst dict_get]; [reflexivity|].
  intros Hnd. inversion Hnd as [|? ? Hnotin Hnd']; subst.
  rewrite dict_get_snoc, (IH Hnd').
  destruct (String.eqb_spec k k0) as [->|Hne].
  - now rewrite (dict_get_absent k0 d Hnotin).
  - destruct (dict_get k d); reflexivity.
Qed.

Lemma copy_other_keys (k : string) (d : pydict) :
  forall acc,
    dict_get k (fold_left (fun acc kv =>
                             if is_required (fst kv) then acc
                             else dict_set (fst kv) (snd kv) acc) d acc)
    = if is_required k then dict_get k acc
      else match dict_get k (rev d) with
           | Some v => Some v
           | None => dict_get k acc
           end.
Proof.
  induction d as [|[k0 v0] d IH]; intros acc; cbn [fold_left rev fst snd].
  - cbn [dict_get]. destruct (is_required k); reflexivity.
  - rewrite IH, dict_get_snoc.
    destruct (is_required k) eqn:Hk.
    + destruct (is_required k0) eqn:Hk0; [reflexivity|].
      apply dict_get_set_other.
      destruct (String.eqb_spec k k0) as [->|]; [congruence|reflexivity].
    + destruct (dict_get k (rev d)); [reflexivity|].
      destruct (is_required k0) eqn:Hk0.
      * destruct (String.eqb_spec k k0) as [->|]; [congruence|reflexivity].
      * destruct (String.eqb_spec k k0) as [->|Hne].
        -- apply dict_get_set_same.
        -- apply dict_get_set_other. now apply String.eqb_neq.
Qed.

Lemma dict_get_set (k k' : string) (v : value) (d : pydict) :
  dict_get k (dict_set k' v d)
  = if String.eqb k k' then Some v else dict_get k d.
Proof.
  destruct (String.eqb_spec k k') as [->|Hne].
  - apply dict_get_set_same.
  - apply dict_get_set_other. now apply String.eqb_neq.
Qed.

Lemma copy_required_keys (k : string) (d : pydict) :
  dict_get k (fold_left (fun acc key =>
                           match dict_get key d with
                           | Some v => dict_set key v acc
                           | None => acc
                           end) required_keys [])
  = if is_required k then dict_get k d else None.
Proof.
  unfold is_required, required_keys. cbn [fold_left existsb].
  destruct (dict_get "id" d) as [vi|] eqn:Hi;
    destruct (dict_get "description" d) as [vd|] eqn:Hd;
    destruct (dict_get "tool" d) as [vt|] eqn:Ht;
    rewrite ?dict_get_set; cbn [dict_get];
    destruct (String.eqb_spec k "id") as [H1|H1];
    destruct (String.eqb_spec k "description") as [H2|H2];
    destruct (String.eqb_spec k "tool") as [H3|H3];
    subst; try discriminate; cbn [orb]; congruence.
Qed.

(** X18: the repair of a task item loses and changes no field: an item that
    is a dictionary is returned as a dictionary in which every key has the
    value it had in the item; an item that is not a dictionary is refused
    with [TaskValidationError]. *)
Theorem fix_task_format_keeps_fields (E : Env) (item : value) :
  match item with
  | VDict d =>
      NoDup (map fst d) ->
      exists fixed, _fix_task_format E item = Ok fixed
                    /\ forall k, dict_get k fixed = dict_get k d
  | _ => exists e, _fix_task_format E item = Raise e
                   /\ exn_kind e = TaskValidationError
  end.
Proof.
  destruct item as [| | | | | |d]; try (eexists; split; reflexivity).
  intros Hnd. eexists. split; [reflexivity|]. intros k.
  rewrite copy_other_keys, copy_required_keys, (dict_get_rev k d Hnd).
  destruct (is_required k); [reflexivity|]. destruct (dict_get k d); reflexivity.
Qed.

Lemma fix_task_format_keeps_fields_witness :
  exists fixed,
    _fix_task_format (example_env (ReplyItems []))
                     (VDict [("tool", VStr "search"); ("note", VStr "n");
                             ("id", VInt 1); ("description", VStr "a")])
    = Ok fixed
    /\ forall k, dict_get k fixed
                 = dict_get k [("tool", VStr "search"); ("note", VStr "n");
                               ("id", VInt 1); ("description", VStr "a")].
Proof.
  apply (fix_task_format_keeps_fields
           (example_env (ReplyItems []))
           (VDict [("tool", VStr "search"); ("note", VStr "n");
                   ("id", VInt 1); ("description", VStr "a")])).
  repeat constructor; cbn; intuition discriminate.
Defined.

(** ** Runs that end on a failure *)

(** X19: when planning raises, the run ends after one round (four node
    runs) without calling a capability or the reflector: it is unsuccessful,
    its response is the planning error behind a fixed prefix, and it has no
    tasks and no results. *)
Theorem planning_failure_ends_run
        (E : Env) (q : string) (mi : Z) (w : world) (limit : nat) (e : exn) :
  generate_plan E q = Raise e ->
  exists text w',
    run_workflow E (4 + limit) q mi w = (mkRunResult false text [] [], w')
    /\ (text = "Critical error during task planning: " ++ exn_text e
        \/ text = "Unexpected critical error during task planning: " ++ exn_text e)
    /\ (exn_kind e = PlanningError \/ exn_kind e = JSONParsingError ->
        text = "Critical error during task planning: " ++ exn_text e)
    /\ calls w' = calls w /\ clock w' = clock w
    /\ entered "refine" w' = entered "refine" w.
Proof.
  intros Hplan. unfold run_workflow, invoke. cbn [Nat.add run_node].
  unfold plan_step, initial_state. cbn [query]. rewrite Hplan.
  destruct (exn_kind e) eqn:Hk; eexists _, _;
    (split; [reflexivity|]);
    (split; [auto|]);
    (split; [intros [H|H]; first [reflexivity|discriminate]|]);
    repeat split.
Qed.

Lemma planning_failure_ends_run_witness :
  exists text w',
    run_workflow (example_env (ReplyItems [VStr "not a task"])) 4 "q" 3 start
    = (mkRunResult false text [] [], w')
    /\ text = "Critical error during task planning: No valid tasks derived from LLM response.".
Proof.
  destruct (planning_failure_ends_run
              (example_env (ReplyItems [VStr "not a task"])) "q" 3 start 0
              (mkExn PlanningError "No valid tasks derived from LLM response.")
              eq_refl) as (text & w' & Hrun & _ & Hkind & _).
  exists text, w'. split; [exact Hrun|]. apply Hkind. now left.
Defined.

Lemma result_parts_nonempty (E : Env) (rs : list Result) :
  rs <> [] -> result_parts E rs <> [].
Proof.
  destruct rs as [|r rs]; [congruence|]. intros _.
  unfold result_parts, successful_results_data, failed_tasks_info.
  cbn [filter]. destruct (status r =? "completed")%string; cbn [negb map];
    [discriminate|].
  destruct (map result (filter _ rs)); discriminate.
Qed.

Lemma generate_response_returns (E : Env) (s : WorkflowState) :
  error_message s <> "" \/ results s <> [] ->
  exists s', generate_response_step E s = Ok s'
             /\ tasks s' = tasks s /\ results s' = results s
             /\ error_message s' = error_message s
             /\ (error_message s <> "" -> final_response s' = error_message s).
Proof.
  intros H. unfold generate_response_step, nonempty.
  destruct (String.eqb_spec (error_message s) "") as [He|He]; cbn [negb].
  - destruct H as [H|H]; [contradiction|].
    apply (result_parts_nonempty E) in H.
    destruct (result_parts E (results s)); [contradiction|].
    eexists. repeat split. contradiction.
  - eexists. repeat split.
Qed.

Lemma reflect_step_facts (E : Env) (s : WorkflowState) (w : world) :
  let s' := fst (reflect_step E s w) in
  tasks s' = tasks s /\ results s' = results s
  /\ (error_message s' = error_message s \/ error_message s' <> "")
  /\ (error_message s <> "" -> error_message s' = error_message s).
Proof.
  cbv zeta. unfold reflect_step, nonempty.
  destruct (is_empty (results s) && negb (negb (error_message s =? "")%string)).
  - destruct (is_empty (tasks s)); repeat split; auto.
  - destruct (String.eqb_spec (error_message s) "") as [He|He]; cbn [negb].
    + destruct (evaluate_results E _ _ _ _) as [v|e]; cbn [fst].
      * repeat split; auto.
      * repeat split; [right|contradiction].
        cbn [error_message set_error_message].
        destruct (exn_kind e); discriminate.
    + repeat split; auto.
Qed.

(** X20: when the plan is not empty and the reflector raises, the run ends
    after that round (four node runs) without refining: it is unsuccessful,
    its response is the reflection error behind a fixed prefix, and it
    returns the planned tasks with one result for each. *)
Theorem reflection_failure_ends_run
        (E : Env) (q : string) (mi : Z) (w : world) (limit : nat)
        (ts : list task) (e : exn) :
  generate_plan E q = Ok ts ->
  ts <> [] ->
  (forall n rs, evaluate_results E n q ts rs = Raise e) ->
  exists text rs w',
    run_workflow E (4 + limit) q mi w = (mkRunResult false text ts rs, w')
    /\ List.length rs = List.length ts
    /\ (text = "Critical error during result reflection: " ++ exn_text e
        \/ text = "Unexpected critical error during result reflection: "
                  ++ exn_text e)
    /\ entered "refine" w' = entered "refine" w.
Proof.
  intros Hplan Hne Hrefl. unfold run_workflow, invoke.
  cbn [Nat.add run_node node_name].
  unfold plan_step, initial_state. cbn [query]. rewrite Hplan.
  set (s0 := set_tasks ts (mkState q [] [] None "" 0 mi "")).
  set (w0 := emit (Entered "execute") (emit (Entered "plan") w)).
  pose proof (execute_tasks_length E ts w0) as Hlen.
  pose proof (execute_tasks_extends E ts w0) as Hx.
  unfold execute_step. change (tasks s0) with ts.
  destruct ts as [|t ts']; [congruence|].
  destruct (execute_tasks E (t :: ts') w0) as [rs w1]. cbn [fst snd] in *.
  destruct rs as [|r rs']; [discriminate|].
  unfold reflect_step.
  cbn [results set_results is_empty andb error_message s0 set_tasks nonempty
       String.eqb negb query tasks clock emit].
  rewrite Hrefl.
  assert (Hcount : entered "refine" (tick (emit (Entered "reflect") w1))
                   = entered "refine" w).
  { change (entered "refine" (tick (emit (Entered "reflect") w1)))
      with (entered "refine" (emit (Entered "reflect") w1)).
    rewrite entered_emit, (extends_entered _ _ _ Hx). reflexivity. }
  destruct (exn_kind e); eexists _, _, _;
    (split; [reflexivity|]); (split; [exact Hlen|]);
    (split; [auto|]); rewrite entered_emit, Hcount; reflexivity.
Qed.

Lemma reflection_failure_ends_run_witness :
  exists text rs w',
    run_workflow
      (mkEnv example_str (fun e => exn_text e)
             (fun _ => ReplyItems [VDict (search_task 1 "retry")])
             (fun _ _ _ _ => Raise (mkExn ReflectionError "no verdict"))
             (fun _ => Raise (mkExn TypeError "not a text"))
             example_search example_eval "recursion limit")
      4 "q" 3 start
    = (mkRunResult false text [search_task 1 "retry"] rs, w')
    /\ List.length rs = 1%nat
    /\ text = "Critical error during result reflection: no verdict".
Proof.
  destruct (reflection_failure_ends_run
              (mkEnv example_str (fun e => exn_text e)
                     (fun _ => ReplyItems [VDict (search_task 1 "retry")])
                     (fun _ _ _ _ => Raise (mkExn ReflectionError "no verdict"))
                     (fun _ => Raise (mkExn TypeError "not a text"))
                     example_search example_eval "recursion limit")
              "q" 3 start 0 [search_task 1 "retry"]
              (mkExn ReflectionError "no verdict") eq_refl)
    as (text & rs & w' & Hrun & Hlen & _ & _);
    [discriminate | reflexivity |].
  exists text, rs, w'. split; [exact Hrun|]. split; [exact Hlen|].
  vm_compute in Hrun. congruence.
Defined.

(** ** What can go wrong in the graph *)

Lemma apply_refinements_raise_kind (rs : list refinement) :
  forall st e, apply_refinements st rs = Raise e -> exn_kind e = AttributeError.
Proof.
  induction rs as [|r rs IH]; intros st e; cbn [apply_refinements];
    [discriminate|].
  destruct (apply_refinement st r) as [st'|e'] eqn:Hr.
  - apply IH.
  - intros [= <-]. destruct r as [v|action tid d].
    + destruct st. cbn in Hr. now injection Hr as <-.
    + destruct (apply_refinement_total st (Refinement action tid d) eq_refl)
        as [st' Hst']. congruence.
Qed.

Lemma refine_step_raise_kind (s : WorkflowState) (e : exn) :
  refine_step s = Raise e -> exn_kind e = AttributeError.
Proof.
  unfold refine_step. destruct (reflection_refinements s); [discriminate|].
  destruct (apply_refinements _ _) as [[ts c]|e'] eqn:Hr; [discriminate|].
  intros [= <-]. eapply apply_refinements_raise_kind. exact Hr.
Qed.

Section Crashes.

Variable E : Env.

Lemma run_node_raise_kind (limit : nat) :
  forall (n : node) (s : WorkflowState) (w : world) (e : exn) (w' : world),
    (n = reflect_node \/ n = generate_response_node ->
     error_message s <> "" \/ results s <> []) ->
    run_node E limit n s w = (Raise e, w') ->
    exn_kind e = AttributeError \/ e = recursion_error E.
Proof.
  induction limit as [|limit IH]; intros n s w e w' Hinv; cbn [run_node].
  - intros [= <- _]. now right.
  - destruct n.
    + apply IH. intros [H|H]; discriminate.
    + destruct (execute_step_facts E s (emit (Entered (node_name execute_node)) w))
        as (_ & _ & _ & _ & _ & _ & _ & _ & H1).
      destruct (execute_step E s _) as [s1 w1]. cbn [fst] in H1.
      apply IH. intros _. exact H1.
    + destruct (reflect_step_facts E s (emit (Entered (node_name reflect_node)) w))
        as (_ & Hres & _ & Hkeep).
      destruct (reflect_step E s _) as [s1 w1]. cbn [fst] in Hres, Hkeep.
      assert (H1 : error_message s1 <> "" \/ results s1 <> []).
      { destruct (Hinv (or_introl eq_refl)) as [H|H].
        - left. rewrite (Hkeep H). exact H.
        - right. rewrite Hres. exact H. }
      destruct (snd (should_continue_decision s1)); apply IH.
      * intros [H|H]; discriminate.
      * intros _. exact H1.
    + destruct (refine_step s) as [s1|e1] eqn:Hr.
      * apply IH. intros [H|H]; discriminate.
      * intros [= <- _]. left. eapply refine_step_raise_kind. exact Hr.
    + destruct (generate_response_returns E s (Hinv (or_intror eq_refl)))
        as (s' & -> & _).
      discriminate.
Qed.

(** X21: two exceptions only leave the graph, the [AttributeError] of the
    refinement step and the recursion error of the runtime: the planning,
    execution, reflection and decision raise nothing, and in a run the
    response synthesizer always returns, since the state that reaches it has
    an error or at least one result. *)
Theorem graph_raises_two_errors_only
        (limit : nat) (s : WorkflowState) (w : world) (e : exn) (w' : world) :
  invoke E limit s w = (Raise e, w') ->
  exn_kind e = AttributeError \/ e = recursion_error E.
Proof.
  unfold invoke. apply run_node_raise_kind. intros [H|H]; discriminate.
Qed.

End Crashes.

Lemma graph_raises_two_errors_only_witness :
  exists e w',
    invoke (mkEnv example_str (fun e => exn_text e)
                  (fun _ => ReplyItems [VDict (search_task 1 "first")])
                  (fun _ _ _ _ =>
                     Ok (mkVerdict (VBool false) (VBool false) (VStr "again")
                                   [RefinementNotDict (VStr "search again")]))
                  (fun _ => Raise (mkExn TypeError "not a text"))
                  example_search example_eval "recursion limit")
           25 (initial_state "q" 3) start
    = (Raise e, w')
    /\ exn_kind e = AttributeError.
Proof.
  eexists _, _. split; [vm_compute; reflexivity|].
  destruct (graph_raises_two_errors_only
            (mkEnv example_str (fun e => exn_text e)
                   (fun _ => ReplyItems [VDict (search_task 1 "first")])
                   (fun _ _ _ _ =>
                      Ok (mkVerdict (VBool false) (VBool false) (VStr "again")
                                    [RefinementNotDict (VStr "search again")]))
                   (fun _ => Raise (mkExn TypeError "not a text"))
                   example_search example_eval "recursion limit")
            25 (initial_state "q" 3) start _ _ eq_refl) as [H|H].
  - exact H.
  - discriminate H.
Defined.

(** ** The shape of a run *)

Section Shape.

Variable E : Env.

(** What a step of the execution or of the reflection adds to the count of a
    node: nothing. *)
Lemma entered_after (name node : string) (w w1 : world) :
  extends (emit (Entered node) w) w1 ->
  entered name w1
  = ((if String.eqb node name then 1 else 0) + entered name w)%nat.
Proof. intros H. now rewrite (extends_entered _ _ _ H), entered_emit. Qed.

(** The counts of a run from any node on.  The executions and reflections of
    the round in which the run starts are counted with it. *)
Lemma run_node_shape (limit : nat) :
  forall (n : node) (s : WorkflowState) (w : world)
         (r : res WorkflowState) (w' : world),
    (n = reflect_node \/ n = generate_response_node ->
     error_message s <> "" \/ results s <> []) ->
    run_node E limit n s w = (r, w') ->
    exists dp de dr df dg : nat,
      entered "plan" w' = (entered "plan" w + dp)%nat
      /\ entered "execute" w' = (entered "execute" w + de)%nat
      /\ entered "reflect" w' = (entered "reflect" w + dr)%nat
      /\ entered "refine" w' = (entered "refine" w + df)%nat
      /\ entered "generate_response" w'
         = (entered "generate_response" w + dg)%nat
      /\ (dp + de + dr + df + dg <= limit)%nat
      /\ (n <> plan_node -> dp = 0%nat)
      /\ (n = plan_node -> (0 < limit)%nat -> dp = 1%nat)
      /\ (n <> refine_node -> max_iterations s <= iteration s + 1 ->
          df = 0%nat)
      /\ let pe := match n with
                   | reflect_node | refine_node | generate_response_node => 1%nat
                   | _ => 0%nat
                   end in
         let pr := match n with
                   | refine_node | generate_response_node => 1%nat
                   | _ => 0%nat
                   end in
         match r with
         | Ok _ =>
             dg = 1%nat /\ (de + pe = S df)%nat /\ (dr + pr = S df)%nat
         | Raise e =>
             dg = 0%nat
             /\ (exn_kind e = AttributeError
                 /\ (de + pe = df)%nat /\ (dr + pr = df)%nat /\ (1 <= df)%nat
                 \/ e = recursion_error E
                    /\ (dp + de + dr + df + dg = limit)%nat
                    /\ (df <= dr + pr)%nat /\ (dr + pr <= de + pe)%nat
                    /\ (de + pe <= S df)%nat)
         end.
Proof.
  induction limit as [|limit IH]; intros n s w r w' Hinv; cbn [run_node].
  - intros [= <- <-]. exists 0%nat, 0%nat, 0%nat, 0%nat, 0%nat.
    repeat split; try lia.
    right. split; [reflexivity|]. destruct n; cbn; lia.
  - destruct n; cbn [node_name].
    + intros Hrun.
      pose proof (plan_step_budget E s) as [Hi Hm].
      apply IH in Hrun
        as (dp & de & dr & df & dg & Hp & He & Hr & Hf & Hg & Htot & Hnp & _
            & Hmi & Hcase); [|intros [H|H]; discriminate].
      rewrite !entered_emit in *. cbn [String.eqb Ascii.eqb Bool.eqb] in *.
      specialize (Hnp ltac:(discriminate)). subst dp.
      exists 1%nat, de, dr, df, dg.
      repeat split; try lia; try congruence.
      * intros _ Hle. apply Hmi; [discriminate|]. rewrite Hi, Hm. exact Hle.
      * cbv zeta in *. destruct r as [s'|e]; [lia|].
        destruct Hcase as (Hdg & [Hc|Hc]); (split; [exact Hdg|]);
          [left|right]; repeat split; try tauto; lia.
    + intros Hrun.
      pose proof (execute_step_extends E s (emit (Entered "execute") w)) as Hx.
      pose proof (execute_step_budget E s (emit (Entered "execute") w))
        as [Hi Hm].
      destruct (execute_step_facts E s (emit (Entered "execute") w))
        as (_ & _ & _ & _ & _ & _ & _ & _ & H1).
      destruct (execute_step E s (emit (Entered "execute") w)) as [s1 w1].
      cbn [fst snd] in *.
      apply IH in Hrun
        as (dp & de & dr & df & dg & Hp & He & Hr & Hf & Hg & Htot & Hnp & _
            & Hmi & Hcase); [|intros _; exact H1].
      rewrite !(entered_after _ _ _ _ Hx) in *.
      cbn [String.eqb Ascii.eqb Bool.eqb] in *.
      specialize (Hnp ltac:(discriminate)). subst dp.
      exists 0%nat, (S de), dr, df, dg.
      repeat split; try lia; try congruence.
      * intros _ Hle. apply Hmi; [discriminate|]. rewrite Hi, Hm. exact Hle.
      * cbv zeta in *. destruct r as [s'|e]; [lia|].
        destruct Hcase as (Hdg & [Hc|Hc]); (split; [exact Hdg|]);
          [left|right]; repeat split; try tauto; lia.
    + intros Hrun.
      pose proof (reflect_step_extends E s (emit (Entered "reflect") w)) as Hx.
      pose proof (reflect_step_budget E s (emit (Entered "reflect") w))
        as [Hi Hm].
      destruct (reflect_step_facts E s (emit (Entered "reflect") w))
        as (_ & Hres & _ & Hkeep).
      destruct (reflect_step E s (emit (Entered "reflect") w)) as [s1 w1].
      cbn [fst snd] in *.
      assert (H1 : error_message s1 <> "" \/ results s1 <> []).
      { destruct (Hinv (or_introl eq_refl)) as [H|H].
        - left. rewrite (Hkeep H). exact H.
        - right. rewrite Hres. exact H. }
      destruct (should_continue_decision s1) as [s2 d] eqn:Hd. cbn [snd] in Hrun.
      destruct d.
      * apply refine_decision_inv in Hd as (_ & _ & Hlt & _).
        apply IH in Hrun
          as (dp & de & dr & df & dg & Hp & He & Hr & Hf & Hg & Htot & Hnp & _
              & _ & Hcase); [|intros [H|H]; discriminate].
        rewrite !(entered_after _ _ _ _ Hx) in *.
        cbn [String.eqb Ascii.eqb Bool.eqb] in *.
        specialize (Hnp ltac:(discriminate)). subst dp.
        exists 0%nat, de, (S dr), df, dg.
        repeat split; try lia; try congruence.
        cbv zeta in *. destruct r as [s'|e]; [lia|].
        destruct Hcase as (Hdg & [Hc|Hc]); (split; [exact Hdg|]);
          [left|right]; repeat split; try tauto; lia.
      * apply IH in Hrun
          as (dp & de & dr & df & dg & Hp & He & Hr & Hf & Hg & Htot & Hnp & _
              & Hmi & Hcase); [|intros _; exact H1].
        rewrite !(entered_after _ _ _ _ Hx) in *.
        cbn [String.eqb Ascii.eqb Bool.eqb] in *.
        specialize (Hnp ltac:(discriminate)). subst dp.
        exists 0%nat, de, (S dr), df, dg.
        repeat split; try lia; try congruence.
        -- intros _ Hle. apply Hmi; [discriminate|]. rewrite Hi, Hm. exact Hle.
        -- cbv zeta in *. destruct r as [s'|e]; [lia|].
           destruct Hcase as (Hdg & [Hc|Hc]); (split; [exact Hdg|]);
             [left|right]; repeat split; try tauto; lia.
    + destruct (refine_step s) as [s1|e1] eqn:Hs1.
      * intros Hrun.
        apply IH in Hrun
          as (dp & de & dr & df & dg & Hp & He & Hr & Hf & Hg & Htot & Hnp & _
              & _ & Hcase); [|intros [H|H]; discriminate].
        rewrite !entered_emit in *. cbn [String.eqb Ascii.eqb Bool.eqb] in *.
        specialize (Hnp ltac:(discriminate)). subst dp.
        exists 0%nat, de, dr, (S df), dg.
        repeat split; try lia; try congruence.
        cbv zeta in *. destruct r as [s'|e]; [lia|].
        destruct Hcase as (Hdg & [Hc|Hc]); (split; [exact Hdg|]);
          [left|right]; repeat split; try tauto; lia.
      * intros [= <- <-]. rewrite !entered_emit.
        cbn [String.eqb Ascii.eqb Bool.eqb].
        exists 0%nat, 0%nat, 0%nat, 1%nat, 0%nat.
        repeat split; try lia; try congruence.
        left. repeat split; try lia.
        eapply refine_step_raise_kind. exact Hs1.
    + destruct (generate_response_returns E s (Hinv (or_intror eq_refl)))
        as (s' & Hgen & _).
      rewrite Hgen. intros [= <- <-]. rewrite !entered_emit.
      cbn [String.eqb Ascii.eqb Bool.eqb].
      exists 0%nat, 0%nat, 0%nat, 0%nat, 1%nat.
      repeat split; try lia; try congruence.
Qed.

(** X22: the shape of a run of the graph under a recursion limit.  A run
    that returns a state went through some number [n] of rounds, at least
    one, within the limit ([3 * n + 1] node runs): it entered the planning
    once, the execution and the reflection [n] times, the refinement [n - 1]
    times and the response synthesizer once.  A run that the refinement step
    ends with its exception entered the execution, the reflection and the
    refinement [n] times each and no response was generated.  A run that the
    runtime ends with its recursion error used exactly the node runs that the
    limit allows and generated no response.  When [max_iterations] is at
    most the iteration of the initial state plus one, the refinement is
    never entered. *)
Theorem run_shape
        (limit : nat) (s : WorkflowState) (w : world)
        (r : res WorkflowState) (w' : world) :
  invoke E limit s w = (r, w') ->
  (max_iterations s <= iteration s + 1 ->
   entered "refine" w' = entered "refine" w)
  /\ match r with
     | Ok _ =>
         exists n : nat,
           (1 <= n)%nat /\ (3 * n + 1 <= limit)%nat
           /\ entered "plan" w' = (entered "plan" w + 1)%nat
           /\ entered "execute" w' = (entered "execute" w + n)%nat
           /\ entered "reflect" w' = (entered "reflect" w + n)%nat
           /\ entered "refine" w' = (entered "refine" w + (n - 1))%nat
           /\ entered "generate_response" w'
              = (entered "generate_response" w + 1)%nat
     | Raise e =>
         entered "generate_response" w' = entered "generate_response" w
         /\ (exn_kind e = AttributeError
             /\ (exists n : nat,
                   (1 <= n)%nat /\ (3 * n + 1 <= limit)%nat
                   /\ entered "plan" w' = (entered "plan" w + 1)%nat
                   /\ entered "execute" w' = (entered "execute" w + n)%nat
                   /\ entered "reflect" w' = (entered "reflect" w + n)%nat
                   /\ entered "refine" w' = (entered "refine" w + n)%nat)
             \/ e = recursion_error E
                /\ (exists dp de dr df : nat,
                      entered "plan" w' = (entered "plan" w + dp)%nat
                      /\ entered "execute" w' = (entered "execute" w + de)%nat
                      /\ entered "reflect" w' = (entered "reflect" w + dr)%nat
                      /\ entered "refine" w' = (entered "refine" w + df)%nat
                      /\ (dp + de + dr + df = limit)%nat
                      /\ (df <= dr)%nat /\ (dr <= de)%nat /\ (de <= S df)%nat))
     end.
Proof.
  unfold invoke. intros Hrun.
  destruct (run_node_shape limit plan_node s w r w') as
    (dp & de & dr & df & dg & Hp & He & Hr & Hf & Hg & Htot & _ & Hone & Hmi
     & Hcase); [intros [H|H]; discriminate | exact Hrun |].
  cbv zeta in Hcase. split.
  - intros Hle. rewrite Hf, (Hmi ltac:(discriminate) Hle). lia.
  - destruct r as [s'|e].
    + destruct Hcase as (Hdg & Hde & Hdr).
      assert (Hdp : dp = 1%nat) by (apply Hone; [reflexivity|lia]).
      exists (S df). rewrite Hp, He, Hr, Hf, Hg. repeat split; lia.
    + destruct Hcase as (Hdg & [(Hk & Hde & Hdr & Hdf)|(He' & Hsum & H1 & H2 & H3)]).
      * split; [rewrite Hg; lia|]. left. split; [exact Hk|].
        assert (Hdp : dp = 1%nat) by (apply Hone; [reflexivity|lia]).
        exists df. rewrite Hp, He, Hr, Hf. repeat split; lia.
      * split; [rewrite Hg; lia|]. right. split; [exact He'|].
        exists dp, de, dr, df. repeat split; try assumption; lia.
Qed.

End Shape.

Lemma run_shape_witness :
  exists s' w' n,
    invoke (example_env (ReplyItems [VDict (search_task 1 "first")])) 25
           (initial_state "q" 3) start
    = (Ok s', w')
    /\ (1 <= n)%nat /\ (3 * n + 1 <= 25)%nat
    /\ entered "execute" w' = (entered "execute" start + n)%nat
    /\ entered "refine" w' = (entered "refine" start + (n - 1))%nat.
Proof.
  eexists _, _.
  destruct (run_shape
              (example_env (ReplyItems [VDict (search_task 1 "first")])) 25
              (initial_state "q" 3) start _ _ eq_refl)
    as (_ & n & Hn & Hlim & _ & He & _ & Hf & _).
  exists n. split; [reflexivity|]. auto.
Defined.

(** ** The task queue *)

Lemma deref_assign_same (h : TaskQueue.heap) (a : nat) (d : pydict) :
  (a < List.length h)%nat -> TaskQueue.deref (TaskQueue.assign h a d) a = d.
Proof.
  unfold TaskQueue.deref. revert a.
  induction h as [|x h IH]; intros [|a] Ha; cbn in *; try lia; [reflexivity|].
  apply IH. lia.
Qed.

Lemma deref_assign_other (h : TaskQueue.heap) (a b : nat) (d : pydict) :
  a <> b -> TaskQueue.deref (TaskQueue.assign h a d) b = TaskQueue.deref h b.
Proof.
  unfold TaskQueue.deref. revert a b.
  induction h as [|x h IH]; intros [|a] [|b] Hab; cbn; try reflexivity;
    try congruence.
  apply IH. congruence.
Qed.

Lemma deref_has_key_valid (h : TaskQueue.heap) (a : nat) (k : string) (v : value) :
  dict_get k (TaskQueue.deref h a) = Some v -> (a < List.length h)%nat.
Proof.
  unfold TaskQueue.deref. intros H.
  destruct (Nat.lt_ge_cases a (List.length h)) as [Hlt|Hge]; [exact Hlt|].
  rewrite (nth_overflow h [] Hge) in H. discriminate.
Qed.

(** A key that something equals is equal to itself: it is not a NaN. *)
Lemma py_eq_refl_of_match (v k : value) :
  py_eq v k = true -> TaskQueue.hashable k = true -> py_eq k k = true.
Proof.
  destruct k as [|b|n|f|s|l|d]; cbn [TaskQueue.hashable]; try discriminate;
    intros Hv _.
  - reflexivity.
  - cbn. apply Z.eqb_refl.
  - cbn. apply Z.eqb_refl.
  - assert (Hf : float_eqb f f = true).
    { unfold float_eqb.
      destruct v as [|b|n|g|s|l|d]; cbn in Hv; try discriminate.
      - unfold float_eq_int in Hv.
        destruct (float_finite f) as [[m e]|]; [|discriminate].
        unfold scaled_eqb. apply Z.eqb_refl.
      - unfold float_eq_int in Hv.
        destruct (float_finite f) as [[m e]|]; [|discriminate].
        unfold scaled_eqb. apply Z.eqb_refl.
      - unfold float_eqb in Hv.
        destruct (float_finite f) as [[m e]|] eqn:Hff.
        + unfold scaled_eqb. apply Z.eqb_refl.
        + destruct (float_finite g) as [[m' e']|]; [discriminate|].
          destruct g, f; try discriminate. destruct s0; reflexivity. }
    exact Hf.
  - cbn. apply String.eqb_refl.
Qed.

Lemma table_get_set (k : value) (e : TaskQueue.entry) (t : TaskQueue.table) :
  py_eq k k = true ->
  TaskQueue.table_get k (TaskQueue.table_set k e t) = Some e.
Proof.
  intros Hk. induction t as [|[k0 e0] t IH]; cbn.
  - now rewrite Hk.
  - destruct (py_eq k0 k) eqn:H0; cbn; rewrite H0; [reflexivity|exact IH].
Qed.

Lemma table_del_set (k : value) (e : TaskQueue.entry) (t : TaskQueue.table) :
  py_eq k k = true ->
  TaskQueue.table_get k t = None ->
  TaskQueue.table_del k (TaskQueue.table_set k e t) = t.
Proof.
  intros Hk. induction t as [|[k0 e0] t IH]; cbn.
  - now rewrite Hk.
  - destruct (py_eq k0 k) eqn:H0; [discriminate|].
    intros Hn. cbn. rewrite H0, (IH Hn). reflexivity.
Qed.

(** *** Equality of task ids *)

Lemma scaled_eqb_common (m1 e1 m2 e2 c : Z) :
  c <= e1 -> c <= e2 ->
  (scaled_eqb m1 e1 m2 e2 = true <-> m1 * 2 ^ (e1 - c) = m2 * 2 ^ (e2 - c)).
Proof.
  intros H1 H2. unfold scaled_eqb. rewrite Z.eqb_eq.
  set (e := Z.min e1 e2).
  assert (He : c <= e) by (subst e; lia).
  assert (He1 : 0 <= e1 - e) by (subst e; lia).
  assert (He2 : 0 <= e2 - e) by (subst e; lia).
  replace (e1 - c) with ((e1 - e) + (e - c)) by lia.
  replace (e2 - c) with ((e2 - e) + (e - c)) by lia.
  rewrite !Z.pow_add_r by lia. rewrite !Z.mul_assoc.
  assert (Hpos : 0 < 2 ^ (e - c)) by (apply Z.pow_pos_nonneg; lia).
  split; intros Heq.
  - now rewrite Heq.
  - apply Z.mul_reg_r in Heq; [exact Heq|lia].
Qed.

Lemma scaled_eqb_trans (m1 e1 m2 e2 m3 e3 : Z) :
  scaled_eqb m1 e1 m2 e2 = true -> scaled_eqb m2 e2 m3 e3 = true ->
  scaled_eqb m1 e1 m3 e3 = true.
Proof.
  intros H12 H23. set (c := Z.min e1 (Z.min e2 e3)).
  apply (scaled_eqb_common _ _ _ _ c) in H12; [|subst c; lia..].
  apply (scaled_eqb_common _ _ _ _ c) in H23; [|subst c; lia..].
  apply (scaled_eqb_common _ _ _ _ c); [subst c; lia..|]. congruence.
Qed.

Lemma scaled_eqb_sym (m1 e1 m2 e2 : Z) :
  scaled_eqb m1 e1 m2 e2 = scaled_eqb m2 e2 m1 e1.
Proof. unfold scaled_eqb. rewrite (Z.min_comm e1 e2). apply Z.eqb_sym. Qed.

(** On finite numbers, equality compares what they denote. *)
Lemma py_eq_numbers (a b : value) (m1 e1 m2 e2 : Z) :
  as_number a = Some (m1, e1) -> as_number b = Some (m2, e2) ->
  py_eq a b = scaled_eqb m1 e1 m2 e2.
Proof.
  assert (Hint : forall x y, (x =? y) = scaled_eqb x 0 y 0).
  { intros x y. unfold scaled_eqb. change (Z.min 0 0) with 0.
    change (2 ^ (0 - 0)) with 1. now rewrite !Z.mul_1_r. }
  destruct a as [|a|a|f| | |], b as [|b|b|g| | |]; cbn [as_number];
    try discriminate; intros H1 H2; cbn [py_eq];
    try (injection H1 as <- <-); try (injection H2 as <- <-);
    try apply Hint.
  - unfold float_eq_int. rewrite H2. apply scaled_eqb_sym.
  - unfold float_eq_int. rewrite H2. apply scaled_eqb_sym.
  - unfold float_eq_int. now rewrite H1.
  - unfold float_eq_int. now rewrite H1.
  - unfold float_eqb. now rewrite H1, H2.
Qed.

Lemma py_eq_number_left (b c : value) (p : Z * Z) :
  py_eq b c = true -> as_number c = Some p -> exists q, as_number b = Some q.
Proof.
  destruct b as [|b|b|f| | |], c as [|c|c|g| | |]; cbn [as_number py_eq];
    try discriminate; eauto.
  - unfold float_eq_int. destruct (float_finite f); [eauto|discriminate].
  - unfold float_eq_int. destruct (float_finite f); [eauto|discriminate].
  - unfold float_eqb. intros H Hg. rewrite Hg in H.
    destruct (float_finite f) as [[m e]|]; [eauto|discriminate].
Qed.

Lemma py_eq_infinite (b : value) (g : spec_float) :
  py_eq b (VFloat g) = true -> float_finite g = None -> b = VFloat g.
Proof.
  destruct b as [|b|b|f| | |]; cbn [py_eq]; try discriminate.
  - unfold float_eq_int. intros H Hg. rewrite Hg in H. discriminate.
  - unfold float_eq_int. intros H Hg. rewrite Hg in H. discriminate.
  - unfold float_eqb. intros H Hg. rewrite Hg in H.
    destruct f, g; cbn in H; try discriminate.
    apply Bool.eqb_prop in H. now subst.
Qed.

Lemma py_eq_none_right (b : value) : py_eq b VNone = true -> b = VNone.
Proof. destruct b; cbn; try discriminate. reflexivity. Qed.

(** Equality is transitive towards a value that can be a key. *)
Lemma py_eq_trans_key (a b c : value) :
  TaskQueue.hashable c = true ->
  py_eq a b = true -> py_eq b c = true -> py_eq a c = true.
Proof.
  intros Hc Hab Hbc.
  destruct (as_number c) as [[m3 e3]|] eqn:Hn.
  - destruct (py_eq_number_left _ _ _ Hbc Hn) as [[m2 e2] Hb].
    destruct (py_eq_number_left _ _ _ Hab Hb) as [[m1 e1] Ha].
    rewrite (py_eq_numbers _ _ _ _ _ _ Ha Hb) in Hab.
    rewrite (py_eq_numbers _ _ _ _ _ _ Hb Hn) in Hbc.
    rewrite (py_eq_numbers _ _ _ _ _ _ Ha Hn).
    exact (scaled_eqb_trans _ _ _ _ _ _ Hab Hbc).
  - destruct c as [|c|c|g|s| |]; cbn [as_number TaskQueue.hashable] in *;
      try discriminate.
    + apply py_eq_none_right in Hbc. now subst.
    + apply py_eq_infinite in Hbc; [|exact Hn]. now subst.
    + apply py_eq_text in Hbc. now subst.
Qed.

(** Equal dictionaries have equal values under every key of the first. *)
Lemma py_eq_dict_get (d e : pydict) (k : string) (v : value) :
  py_eq (VDict d) (VDict e) = true -> dict_get k d = Some v ->
  exists w, dict_get k e = Some w /\ py_eq v w = true.
Proof.
  cbn [py_eq]. intros H. apply andb_prop in H as [_ H]. revert H.
  induction d as [|[k' v'] d IH]; cbn [dict_get]; [discriminate|].
  intros H. apply andb_prop in H as [H1 H2].
  destruct (String.eqb k k') eqn:Hk.
  - intros [= <-]. apply String.eqb_eq in Hk as ->.
    destruct (dict_get k' e) as [w|]; [eauto|discriminate].
  - apply IH. exact H2.
Qed.

(** *** Marking a pending task *)

Lemma assign_length (h : TaskQueue.heap) (a : nat) (d : pydict) :
  List.length (TaskQueue.assign h a d) = List.length h.
Proof.
  revert a. induction h as [|x h IH]; intros [|a]; cbn; try reflexivity.
  now rewrite IH.
Qed.

Lemma remove_found (h : TaskQueue.heap) (a : nat) (l1 l2 : list nat) :
  (forall b, In b l1 ->
     Nat.eqb b a
     || py_eq (VDict (TaskQueue.deref h b)) (VDict (TaskQueue.deref h a))
     = false) ->
  TaskQueue.remove h a (l1 ++ a :: l2) = Some (l1 ++ l2)%list.
Proof.
  induction l1 as [|x l1 IH]; intros Hb; cbn [TaskQueue.remove app].
  - now rewrite Nat.eqb_refl.
  - rewrite (Hb x (or_introl eq_refl)).
    rewrite IH; [reflexivity|]. intros b Hin. apply Hb. now right.
Qed.

(** A pending task whose id differs from [task_id] is neither the task that
    the loop found nor equal to it. *)
Lemma unmatched_differs (h : TaskQueue.heap) (a b : nat) (tid va vb st : value) :
  TaskQueue.hashable tid = true ->
  dict_get "id" (TaskQueue.deref h a) = Some va -> py_eq va tid = true ->
  dict_get "id" (TaskQueue.deref h b) = Some vb -> py_eq vb tid = false ->
  let h' := TaskQueue.set_item h a "status" st in
  Nat.eqb b a
  || py_eq (VDict (TaskQueue.deref h' b)) (VDict (TaskQueue.deref h' a))
  = false.
Proof.
  intros Hk Ha Hva Hb Hvb h'.
  assert (Hne : a <> b) by (intros ->; congruence).
  destruct (Nat.eqb_spec b a) as [->|_]; [congruence|]. cbn [orb].
  subst h'. unfold TaskQueue.set_item.
  rewrite (deref_assign_other _ _ _ _ Hne).
  rewrite deref_assign_same by exact (deref_has_key_valid _ _ _ _ Ha).
  destruct (py_eq (VDict _) _) eqn:Heq; [|reflexivity].
  destruct (py_eq_dict_get _ _ _ _ Heq Hb) as (w & Hw & Hvw).
  rewrite dict_get_set_other in Hw by reflexivity.
  rewrite Ha in Hw. injection Hw as <-.
  rewrite (py_eq_trans_key _ _ _ Hk Hvw Hva) in Hvb. discriminate.
Qed.

Lemma find_task_first (h : TaskQueue.heap) (tid : value) (a : nat)
      (l1 l2 : list nat) :
  Forall (id_equals h tid false) l1 -> id_equals h tid true a ->
  TaskQueue.find_task h tid (l1 ++ a :: l2) = Ok (Some a).
Proof.
  intros Hbefore (va & Ha & Hva).
  induction Hbefore as [|b l1 (vb & Hb & Hvb) _ IH]; cbn [TaskQueue.find_task app].
  - now rewrite Ha, Hva.
  - now rewrite Hb, Hvb.
Qed.

(** What both [mark_task_completed] and [mark_task_failed] do with the first
    pending task whose id equals a hashable [task_id]. *)
Lemma mark_task_moves (st : string) (c : bool) (tid payload : value)
      (q : TaskQueue.queue) (a : nat) (l1 l2 : list nat) :
  TaskQueue.tasks q = (l1 ++ a :: l2)%list ->
  Forall (id_equals (TaskQueue.objects q) tid false) l1 ->
  id_equals (TaskQueue.objects q) tid true a ->
  TaskQueue.hashable tid = true ->
  TaskQueue.mark_task st c tid payload q
  = (Ok tt,
     TaskQueue.mkQueue
       (TaskQueue.set_item (TaskQueue.objects q) a "status" (VStr st))
       (l1 ++ l2)%list
       (if c then TaskQueue.table_set tid (a, payload) (TaskQueue.completed_tasks q)
        else TaskQueue.completed_tasks q)
       (if c then TaskQueue.failed_tasks q
        else TaskQueue.table_set tid (a, payload) (TaskQueue.failed_tasks q))).
Proof.
  intros Hl Hbefore Hmatch Hk.
  unfold TaskQueue.mark_task.
  rewrite Hl, (find_task_first _ _ _ _ l2 Hbefore Hmatch), Hk. cbn [negb].
  rewrite remove_found; [reflexivity|].
  intros b Hb. destruct Hmatch as (va & Ha & Hva).
  destruct (proj1 (Forall_forall _ _) Hbefore b Hb) as (vb & Hvb & Hne).
  exact (unmatched_differs _ _ _ _ _ _ _ Hk Ha Hva Hvb Hne).
Qed.

(** The task object after [task[key] = v]. *)
Lemma set_item_facts (h : TaskQueue.heap) (a : nat) (key : string) (v : value) :
  (a < List.length h)%nat ->
  let h' := TaskQueue.set_item h a key v in
  List.length h' = List.length h
  /\ dict_get key (TaskQueue.deref h' a) = Some v
  /\ (forall k, String.eqb k key = false ->
        dict_get k (TaskQueue.deref h' a) = dict_get k (TaskQueue.deref h a))
  /\ (forall b, b <> a -> TaskQueue.deref h' b = TaskQueue.deref h b).
Proof.
  intros Ha h'. subst h'. unfold TaskQueue.set_item.
  rewrite assign_length, deref_assign_same by exact Ha.
  repeat split.
  - apply dict_get_set_same.
  - intros k Hk. now apply dict_get_set_other.
  - intros b Hb. apply deref_assign_other. congruence.
Qed.

(** X23.  [mark_task_completed] with a hashable id moves the first pending
    task whose id equals it, and no other: the call returns, that very task
    leaves the pending tasks while the others keep their order, the completed
    tasks hold it with the result under the id, the failed tasks are as
    before, the task's status is "completed", its other fields and all other
    task objects are untouched. *)
Theorem mark_completed_moves_first_match
        (tid r : value) (q : TaskQueue.queue) (a : nat) (l1 l2 : list nat) :
  TaskQueue.tasks q = (l1 ++ a :: l2)%list ->
  Forall (id_equals (TaskQueue.objects q) tid false) l1 ->
  id_equals (TaskQueue.objects q) tid true a ->
  TaskQueue.hashable tid = true ->
  exists q',
    TaskQueue.mark_task_completed tid r q = (Ok tt, q')
    /\ TaskQueue.tasks q' = (l1 ++ l2)%list
    /\ TaskQueue.table_get tid (TaskQueue.completed_tasks q') = Some (a, r)
    /\ TaskQueue.failed_tasks q' = TaskQueue.failed_tasks q
    /\ dict_get "status" (TaskQueue.deref (TaskQueue.objects q') a)
       = Some (VStr "completed")
    /\ (forall k, String.eqb k "status" = false ->
          dict_get k (TaskQueue.deref (TaskQueue.objects q') a)
          = dict_get k (TaskQueue.deref (TaskQueue.objects q) a))
    /\ (forall b, b <> a ->
          TaskQueue.deref (TaskQueue.objects q') b
          = TaskQueue.deref (TaskQueue.objects q) b).
Proof.
  intros Hl Hbefore Hmatch Hk.
  unfold TaskQueue.mark_task_completed.
  rewrite (mark_task_moves _ _ _ _ _ _ _ _ Hl Hbefore Hmatch Hk).
  eexists. split; [reflexivity|]. cbn [TaskQueue.tasks TaskQueue.objects
    TaskQueue.completed_tasks TaskQueue.failed_tasks].
  destruct Hmatch as (va & Ha & Hva).
  destruct (set_item_facts (TaskQueue.objects q) a "status" (VStr "completed")
              (deref_has_key_valid _ _ _ _ Ha)) as (_ & Hs & Hkeys & Hothers).
  repeat split; try assumption.
  apply table_get_set. exact (py_eq_refl_of_match _ _ Hva Hk).
Qed.

Lemma mark_completed_moves_first_match_witness :
  exists q',
    TaskQueue.mark_task_completed (VInt 2) (VStr "done") two_pending = (Ok tt, q')
    /\ TaskQueue.tasks q' = [0%nat]
    /\ TaskQueue.table_get (VInt 2) (TaskQueue.completed_tasks q')
       = Some (1%nat, VStr "done").
Proof.
  destruct (mark_completed_moves_first_match (VInt 2) (VStr "done") two_pending
              1%nat [0%nat] []) as (q' & H1 & H2 & H3 & _).
  - reflexivity.
  - repeat constructor. exists (VInt 1). split; reflexivity.
  - exists (VInt 2). split; reflexivity.
  - reflexivity.
  - exists q'. repeat split; assumption.
Defined.

(** X24.  Failing a pending task and retrying it is a round trip: after
    [mark_task_failed] and [retry_task] with the same hashable id, which was
    not among the failed tasks before, the task is pending again, now last in
    the queue, the failed and the completed tasks are as before, the task's
    status is "pending" and its retry count is one more than before (counted
    from 0 when it had none); its other fields and all other task objects are
    untouched. *)
Theorem failed_task_is_retried
        (tid err n : value) (q : TaskQueue.queue) (a : nat) (l1 l2 : list nat) :
  TaskQueue.tasks q = (l1 ++ a :: l2)%list ->
  Forall (id_equals (TaskQueue.objects q) tid false) l1 ->
  id_equals (TaskQueue.objects q) tid true a ->
  TaskQueue.hashable tid = true ->
  TaskQueue.table_get tid (TaskQueue.failed_tasks q) = None ->
  TaskQueue.add_one
    (get_default "retry_count" (VInt 0) (TaskQueue.deref (TaskQueue.objects q) a))
  = Ok n ->
  exists q1 q2,
    TaskQueue.mark_task_failed tid err q = (Ok tt, q1)
    /\ TaskQueue.retry_task tid q1 = (Ok tt, q2)
    /\ TaskQueue.tasks q2 = ((l1 ++ l2) ++ [a])%list
    /\ TaskQueue.failed_tasks q2 = TaskQueue.failed_tasks q
    /\ TaskQueue.completed_tasks q2 = TaskQueue.completed_tasks q
    /\ dict_get "status" (TaskQueue.deref (TaskQueue.objects q2) a)
       = Some (VStr "pending")
    /\ dict_get "retry_count" (TaskQueue.deref (TaskQueue.objects q2) a) = Some n
    /\ (forall k, String.eqb k "status" = false ->
          String.eqb k "retry_count" = false ->
          dict_get k (TaskQueue.deref (TaskQueue.objects q2) a)
          = dict_get k (TaskQueue.deref (TaskQueue.objects q) a))
    /\ (forall b, b <> a ->
          TaskQueue.deref (TaskQueue.objects q2) b
          = TaskQueue.deref (TaskQueue.objects q) b).
Proof.
  intros Hl Hbefore Hmatch Hk Hnew Hadd.
  unfold TaskQueue.mark_task_failed.
  rewrite (mark_task_moves _ _ _ _ _ _ _ _ Hl Hbefore Hmatch Hk).
  destruct Hmatch as (va & Ha & Hva).
  pose proof (py_eq_refl_of_match _ _ Hva Hk) as Hrefl.
  pose proof (deref_has_key_valid _ _ _ _ Ha) as Hvalid.
  set (h := TaskQueue.objects q) in *.
  set (h1 := TaskQueue.set_item h a "status" (VStr "failed")).
  set (h2 := TaskQueue.set_item h1 a "status" (VStr "pending")).
  destruct (set_item_facts h a "status" (VStr "failed") Hvalid)
    as (Hlen1 & _ & Hkeys1 & Hothers1). fold h1 in Hlen1, Hkeys1, Hothers1.
  assert (Hvalid1 : (a < List.length h1)%nat) by (rewrite Hlen1; exact Hvalid).
  destruct (set_item_facts h1 a "status" (VStr "pending") Hvalid1)
    as (Hlen2 & Hs2 & Hkeys2 & Hothers2). fold h2 in Hlen2, Hs2, Hkeys2, Hothers2.
  assert (Hvalid2 : (a < List.length h2)%nat) by (rewrite Hlen2; exact Hvalid1).
  destruct (set_item_facts h2 a "retry_count" n Hvalid2)
    as (_ & Hs3 & Hkeys3 & Hothers3).
  assert (Hrc : get_default "retry_count" (VInt 0) (TaskQueue.deref h2 a)
                = get_default "retry_count" (VInt 0) (TaskQueue.deref h a)).
  { unfold get_default. now rewrite Hkeys2, Hkeys1 by reflexivity. }
  eexists. eexists. split; [reflexivity|].
  unfold TaskQueue.retry_task.
  cbn [TaskQueue.tasks TaskQueue.objects TaskQueue.completed_tasks
       TaskQueue.failed_tasks].
  rewrite Hk. cbn [negb]. rewrite (table_get_set _ _ _ Hrefl).
  fold h1. fold h2. rewrite Hrc, Hadd.
  split; [reflexivity|].
  cbn [TaskQueue.tasks TaskQueue.objects TaskQueue.completed_tasks
       TaskQueue.failed_tasks].
  repeat split.
  - exact (table_del_set _ _ _ Hrefl Hnew).
  - rewrite Hkeys3 by reflexivity. exact Hs2.
  - exact Hs3.
  - intros k Hk1 Hk2. now rewrite Hkeys3, Hkeys2, Hkeys1.
  - intros b Hb. now rewrite Hothers3, Hothers2, Hothers1.
Qed.

Lemma failed_task_is_retried_witness :
  exists q1 q2,
    TaskQueue.mark_task_failed (VInt 1) (VStr "boom") two_pending = (Ok tt, q1)
    /\ TaskQueue.retry_task (VInt 1) q1 = (Ok tt, q2)
    /\ TaskQueue.tasks q2 = [1%nat; 0%nat]
    /\ dict_get "retry_count" (TaskQueue.deref (TaskQueue.objects q2) 0%nat)
       = Some (VInt 1).
Proof.
  destruct (failed_task_is_retried (VInt 1) (VStr "boom") (VInt 1) two_pending
              0%nat [] [1%nat])
    as (q1 & q2 & H1 & H2 & H3 & _ & _ & _ & H4 & _).
  - reflexivity.
  - constructor.
  - exists (VInt 1). split; reflexivity.
  - reflexivity.
  - reflexivity.
  - reflexivity.
  - exists q1, q2. repeat split; assumption.
Defined.

(** X25.  [mark_task_failed] with an id that cannot be a dictionary key (a
    list or a dictionary) and that equals the id of a pending task raises a
    type error after it has written the status: the task stays pending and
    neither the failed nor the completed tasks change, yet the task's status
    is "failed". *)
Theorem unhashable_id_marks_without_moving
        (tid err : value) (q : TaskQueue.queue) (a : nat) (l1 l2 : list nat) :
  TaskQueue.tasks q = (l1 ++ a :: l2)%list ->
  Forall (id_equals (TaskQueue.objects q) tid false) l1 ->
  id_equals (TaskQueue.objects q) tid true a ->
  TaskQueue.hashable tid = false ->
  exists e q',
    TaskQueue.mark_task_failed tid err q = (Raise e, q')
    /\ exn_kind e = TypeError
    /\ TaskQueue.tasks q' = TaskQueue.tasks q
    /\ TaskQueue.failed_tasks q' = TaskQueue.failed_tasks q
    /\ TaskQueue.completed_tasks q' = TaskQueue.completed_tasks q
    /\ dict_get "status" (TaskQueue.deref (TaskQueue.objects q') a)
       = Some (VStr "failed").
Proof.
  intros Hl Hbefore Hmatch Hk.
  pose proof (find_task_first _ _ _ _ l2 Hbefore Hmatch) as Hfind.
  rewrite <- Hl in Hfind.
  unfold TaskQueue.mark_task_failed, TaskQueue.mark_task.
  rewrite Hfind, Hk. cbn [negb].
  eexists. eexists. split; [reflexivity|].
  cbn [TaskQueue.tasks TaskQueue.objects TaskQueue.completed_tasks
       TaskQueue.failed_tasks exn_kind].
  destruct Hmatch as (va & Ha & _).
  destruct (set_item_facts (TaskQueue.objects q) a "status" (VStr "failed")
              (deref_has_key_valid _ _ _ _ Ha)) as (_ & Hs & _).
  repeat split. exact Hs.
Qed.

Lemma unhashable_id_marks_without_moving_witness :
  exists e q',
    TaskQueue.mark_task_failed (VList [VInt 1]) (VStr "boom") list_id_pending
    = (Raise e, q')
    /\ exn_kind e = TypeError
    /\ TaskQueue.tasks q' = [0%nat]
    /\ dict_get "status" (TaskQueue.deref (TaskQueue.objects q') 0%nat)
       = Some (VStr "failed").
Proof.
  destruct (unhashable_id_marks_without_moving (VList [VInt 1]) (VStr "boom")
              list_id_pending 0%nat [] [])
    as (e & q' & H1 & H2 & H3 & _ & _ & H4).
  - reflexivity.
  - constructor.
  - exists (VList [VInt 1]). split; reflexivity.
  - reflexivity.
  - exists e, q'. repeat split; assumption.
Defined.

(** X26.  Adding a task and completing it is a round trip on the pending
    tasks: when no pending task has an id equal to the new task's id, which is
    hashable and equal to itself (not a NaN), [mark_task_completed] with that
    id after [add_task] returns, leaves the pending tasks as they were before
    the task was added, holds the task with the result among the completed
    tasks, and the task's status is "completed". *)
Theorem added_task_completes
        (a : nat) (va r : value) (q : TaskQueue.queue) :
  Forall (id_equals (TaskQueue.objects q) va false) (TaskQueue.tasks q) ->
  dict_get "id" (TaskQueue.deref (TaskQueue.objects q) a) = Some va ->
  TaskQueue.hashable va = true ->
  py_eq va va = true ->
  exists q',
    TaskQueue.mark_task_completed va r (TaskQueue.add_task a q) = (Ok tt, q')
    /\ TaskQueue.tasks q' = TaskQueue.tasks q
    /\ TaskQueue.table_get va (TaskQueue.completed_tasks q') = Some (a, r)
    /\ TaskQueue.failed_tasks q' = TaskQueue.failed_tasks q
    /\ dict_get "status" (TaskQueue.deref (TaskQueue.objects q') a)
       = Some (VStr "completed").
Proof.
  intros Hbefore Ha Hk Hrefl.
  pose proof (deref_has_key_valid _ _ _ _ Ha) as Hvalid.
  destruct (set_item_facts (TaskQueue.objects q) a "status" (VStr "pending")
              Hvalid) as (Hlen & _ & Hkeys & Hothers).
  set (q0 := TaskQueue.add_task a q).
  assert (Hl : TaskQueue.tasks q0 = (TaskQueue.tasks q ++ a :: [])%list)
    by reflexivity.
  assert (Hmatch : id_equals (TaskQueue.objects q0) va true a).
  { exists va. split; [|exact Hrefl]. subst q0. cbn [TaskQueue.add_task
      TaskQueue.objects]. now rewrite Hkeys by reflexivity. }
  assert (Hbefore0 : Forall (id_equals (TaskQueue.objects q0) va false)
                            (TaskQueue.tasks q)).
  { apply Forall_forall. intros b Hb.
    destruct (proj1 (Forall_forall _ _) Hbefore b Hb) as (vb & Hvb & Hne).
    exists vb. split; [|exact Hne]. subst q0.
    cbn [TaskQueue.add_task TaskQueue.objects].
    rewrite Hothers; [exact Hvb|]. intros ->. congruence. }
  unfold TaskQueue.mark_task_completed.
  rewrite (mark_task_moves _ _ _ _ _ _ _ _ Hl Hbefore0 Hmatch Hk).
  eexists. split; [reflexivity|].
  cbn [TaskQueue.tasks TaskQueue.objects TaskQueue.completed_tasks
       TaskQueue.failed_tasks].
  destruct Hmatch as (va' & Ha0 & _).
  destruct (set_item_facts (TaskQueue.objects q0) a "status" (VStr "completed")
              (deref_has_key_valid _ _ _ _ Ha0)) as (_ & Hs & _).
  repeat split.
  - apply app_nil_r.
  - now apply table_get_set.
  - exact Hs.
Qed.

Lemma added_task_completes_witness :
  exists q',
    TaskQueue.mark_task_completed (VInt 7) (VStr "done")
      (TaskQueue.add_task 0%nat (TaskQueue.init [[("id", VInt 7)]]))
    = (Ok tt, q')
    /\ TaskQueue.is_empty q' = true.
Proof.
  destruct (added_task_completes 0%nat (VInt 7) (VStr "done")
              (TaskQueue.init [[("id", VInt 7)]]))
    as (q' & H1 & H2 & _).
  - constructor.
  - reflexivity.
  - reflexivity.
  - reflexivity.
  - exists q'. split; [exact H1|]. unfold TaskQueue.is_empty. now rewrite H2.
Defined.


